(** * R9 IFC extractor: field validation, canonical hashing, entity processing

    A shallow embedding of [scripts/IFC_extractor_5.4.py] (class
    [ExtracteurIFC_R9_Brownie]) and of the validators of
    [scripts/ifc_r9_extractor.py] (class [ExtracteurIFC_R9]), followed by the
    properties established about them.

    Python values are modelled as the interpreter has them: a [str] is a
    sequence of Unicode code points, [bytes] a sequence of octets, a [dict] an
    insertion-ordered association list with unique keys.  Exceptions are
    explicit results. *)

From Stdlib Require Import ZArith List Strings.String Strings.Byte DecimalString.
From Stdlib Require Import Bool Lia Sorted.
Import ListNotations.
Local Open Scope Z_scope.

(* ================================================================== *)
(** * Python strings *)
(* ================================================================== *)

(** A Python [str] is a list of code points; [bytes] is a list of octets. *)
Definition str := list Z.
Definition bytes := list Z.

(** Source literals are written as Rocq strings (UTF-8 in this file) and
    decoded to code points by [lit]. *)
Fixpoint utf8_decode (bs : list Z) : str :=
  match bs with
  | [] => []
  | b0 :: r0 =>
    if b0 <? 128 then b0 :: utf8_decode r0
    else
      match r0 with
      | [] => []
      | b1 :: r1 =>
        if b0 <? 224 then ((b0 - 192) * 64 + (b1 - 128)) :: utf8_decode r1
        else
          match r1 with
          | [] => []
          | b2 :: r2 =>
            if b0 <? 240
            then ((b0 - 224) * 4096 + (b1 - 128) * 64 + (b2 - 128))
                   :: utf8_decode r2
            else
              match r2 with
              | [] => []
              | b3 :: r3 =>
                ((b0 - 240) * 262144 + (b1 - 128) * 4096
                 + (b2 - 128) * 64 + (b3 - 128)) :: utf8_decode r3
              end
          end
      end
  end.

Definition octets_of_string (s : string) : bytes :=
  map (fun b => Z.of_N (Byte.to_N b)) (list_byte_of_string s).

Definition lit (s : string) : str := utf8_decode (octets_of_string s).

(** [a == b] on [str]. *)
Fixpoint str_eqb (a b : str) : bool :=
  match a, b with
  | [], [] => true
  | x :: a', y :: b' => (x =? y) && str_eqb a' b'
  | _, _ => false
  end.

(** [a < b] on [str]: lexicographic on code points. *)
Fixpoint str_ltb (a b : str) : bool :=
  match a, b with
  | _, [] => false
  | [], _ :: _ => true
  | x :: a', y :: b' => (x <? y) || ((x =? y) && str_ltb a' b')
  end.

(** [not s], or [s == ""] *)
Definition est_vide (s : str) : bool :=
  match s with
  | [] => true
  | _ => false
  end.

(** [len(s)] *)
Definition len (s : str) : Z := Z.of_nat (List.length s).

(** [str(n)] for an [int]. *)
Definition str_of_int (n : Z) : str :=
  lit (NilZero.string_of_int (Z.to_int n)).

(** Character classes.  [isspace] is CPython's [Py_UNICODE_ISSPACE], used
    alike by [str.strip], [str.split] and the [\s] class of [re] on [str]
    patterns. *)
Definition isspace (c : Z) : bool :=
  ((9 <=? c) && (c <=? 13)) || ((28 <=? c) && (c <=? 32))
  || (c =? 133) || (c =? 160) || (c =? 5760)
  || ((8192 <=? c) && (c <=? 8202))
  || (c =? 8232) || (c =? 8233) || (c =? 8239) || (c =? 8287)
  || (c =? 12288).

Definition is_ascii (c : Z) : bool := (0 <=? c) && (c <? 128).
Definition ascii_digit (c : Z) : bool := (48 <=? c) && (c <=? 57).
Definition ascii_upper (c : Z) : bool := (65 <=? c) && (c <=? 90).
Definition ascii_lower (c : Z) : bool := (97 <=? c) && (c <=? 122).
Definition ascii_letter (c : Z) : bool := ascii_upper c || ascii_lower c.

(** [s.strip()] *)
Fixpoint lstrip (s : str) : str :=
  match s with
  | c :: r => if isspace c then lstrip r else s
  | [] => []
  end.

Definition rstrip (s : str) : str := rev (lstrip (rev s)).
Definition strip (s : str) : str := rstrip (lstrip s).

(** [s.split()]: the maximal runs of non-whitespace characters.  [cur] is
    the run being read, in reverse. *)
Fixpoint split_aux (cur : str) (s : str) : list str :=
  match s with
  | [] => match cur with [] => [] | _ => [rev cur] end
  | c :: r =>
    if isspace c
    then match cur with
         | [] => split_aux [] r
         | _ => rev cur :: split_aux [] r
         end
    else split_aux (c :: cur) r
  end.

Definition split (s : str) : list str := split_aux [] s.

(** [s.replace(o, n)] for one-character [o] and [n]. *)
Definition replace_char (o n : Z) (s : str) : str :=
  map (fun c => if c =? o then n else c) s.

(** [needle in hay] *)
Fixpoint startswith (p s : str) : bool :=
  match p, s with
  | [], _ => true
  | x :: p', y :: s' => (x =? y) && startswith p' s'
  | _ :: _, [] => false
  end.

Fixpoint contains (needle hay : str) : bool :=
  startswith needle hay
  || match hay with
     | [] => false
     | _ :: r => contains needle r
     end.

(** [re.sub(r'[^a-zA-Z\s]', '', s)] *)
Definition sub_non_lettres (s : str) : str :=
  filter (fun c => ascii_letter c || isspace c) s.

(* ================================================================== *)
(** * Interpreter builtins outside the repository *)
(* ================================================================== *)

(** Floating point and the Unicode character database belong to the Python
    runtime, not to the repository; they are parameters of the development.
    Every ASCII case is computed by the definitions below, only the
    non-ASCII look-ups go through the tables. *)
Class Builtins := {
  (** the type [float] *)
  pyfloat : Type;
  (** [float(s)]; [None] stands for [ValueError] *)
  float_of_str : str -> option pyfloat;
  (** [str(x)] for a float *)
  str_of_float : pyfloat -> str;
  (** the text [json.dumps] emits for a float *)
  json_of_float : pyfloat -> str;
  (** [str.isdigit] on one code point above 127 *)
  uni_isdigit : Z -> bool;
  (** [str.isalnum] on one code point above 127 *)
  uni_isalnum : Z -> bool;
  (** decimal value of a code point above 127 of category Nd *)
  uni_decimal : Z -> option Z;
  (** [str.lower] on a string holding a code point above 127 *)
  uni_lower : str -> str
}.

(* ================================================================== *)
(** * [str.encode('utf-8')] and [hashlib.sha256] *)
(* ================================================================== *)

(** One code point to its UTF-8 octets.  Lone surrogates and values outside
    the Unicode range make [encode] raise [UnicodeEncodeError]: [None]. *)
Definition utf8_char (c : Z) : option bytes :=
  if c <? 0 then None
  else if c <? 128 then Some [c]
  else if c <? 2048 then Some [192 + c / 64; 128 + c mod 64]
  else if c <? 65536 then
    if (55296 <=? c) && (c <=? 57343) then None
    else Some [224 + c / 4096; 128 + (c / 64) mod 64; 128 + c mod 64]
  else if c <? 1114112 then
    Some [240 + c / 262144; 128 + (c / 4096) mod 64;
          128 + (c / 64) mod 64; 128 + c mod 64]
  else None.

Fixpoint encode_utf8 (s : str) : option bytes :=
  match s with
  | [] => Some []
  | c :: r =>
    match utf8_char c, encode_utf8 r with
    | Some b, Some br => Some (b ++ br)
    | _, _ => None
    end
  end.

Module Sha256.

(** 32-bit words are integers in [0, 2^32); sums wrap around. *)
Definition mask32 : Z := 4294967295.
Definition add32 (x y : Z) : Z := (x + y) mod 4294967296.
Definition rotr (n x : Z) : Z :=
  Z.lor (Z.shiftr x n) (Z.land (Z.shiftl x (32 - n)) mask32).
Definition ch (x y z : Z) : Z :=
  Z.lxor (Z.land x y) (Z.land (Z.lxor x mask32) z).
Definition maj (x y z : Z) : Z :=
  Z.lxor (Z.lxor (Z.land x y) (Z.land x z)) (Z.land y z).
Definition bsig0 (x : Z) : Z := Z.lxor (Z.lxor (rotr 2 x) (rotr 13 x)) (rotr 22 x).
Definition bsig1 (x : Z) : Z := Z.lxor (Z.lxor (rotr 6 x) (rotr 11 x)) (rotr 25 x).
Definition ssig0 (x : Z) : Z := Z.lxor (Z.lxor (rotr 7 x) (rotr 18 x)) (Z.shiftr x 3).
Definition ssig1 (x : Z) : Z := Z.lxor (Z.lxor (rotr 17 x) (rotr 19 x)) (Z.shiftr x 10).

(** The constants are the leading 32 fractional bits of the square roots
    (initial state) and cube roots (round constants) of the first primes. *)
Definition premiers : list Z :=
  [2; 3; 5; 7; 11; 13; 17; 19; 23; 29; 31; 37; 41; 43; 47; 53;
   59; 61; 67; 71; 73; 79; 83; 89; 97; 101; 103; 107; 109; 113; 127; 131;
   137; 139; 149; 151; 157; 163; 167; 173; 179; 181; 191; 193; 197; 199;
   211; 223; 227; 229; 233; 239; 241; 251; 257; 263; 269; 271; 277; 281;
   283; 293; 307; 311].

Fixpoint racine_cubique (bits : nat) (x r : Z) : Z :=
  match bits with
  | O => r
  | S k =>
    let r' := r + 2 ^ Z.of_nat k in
    if r' * r' * r' <=? x then racine_cubique k x r' else racine_cubique k x r
  end.

Definition round_constants : list Z :=
  Eval vm_compute in
    map (fun p => racine_cubique 40 (p * 2 ^ 96) 0 mod 2 ^ 32) premiers.

Definition initial_words : list Z :=
  Eval vm_compute in
    map (fun p => Z.sqrt (p * 2 ^ 64) mod 2 ^ 32) (firstn 8 premiers).

Record state := mkState {
  ha : Z; hb : Z; hc : Z; hd : Z; he : Z; hf : Z; hg : Z; hh : Z
}.

Definition initial_state : state :=
  match initial_words with
  | [a; b; c; d; e; f; g; h] => mkState a b c d e f g h
  | _ => mkState 0 0 0 0 0 0 0 0
  end.

(** Message schedule: [win] holds the sixteen latest words. *)
Fixpoint schedule (n : nat) (win : list Z) : list Z :=
  match n with
  | O => []
  | S k =>
    let wt := add32 (add32 (ssig1 (nth 14 win 0)) (nth 9 win 0))
                    (add32 (ssig0 (nth 1 win 0)) (nth 0 win 0)) in
    wt :: schedule k (tl win ++ [wt])
  end.

Definition round (s : state) (kw : Z * Z) : state :=
  let t1 := add32 (add32 (add32 (hh s) (bsig1 (he s)))
                         (add32 (ch (he s) (hf s) (hg s)) (fst kw)))
                  (snd kw) in
  let t2 := add32 (bsig0 (ha s)) (maj (ha s) (hb s) (hc s)) in
  mkState (add32 t1 t2) (ha s) (hb s) (hc s)
          (add32 (hd s) t1) (he s) (hf s) (hg s).

Fixpoint words_of_block (n : nat) (b : bytes) : list Z :=
  match n with
  | O => []
  | S k =>
    (nth 0 b 0 * 16777216 + nth 1 b 0 * 65536 + nth 2 b 0 * 256 + nth 3 b 0)
      :: words_of_block k (skipn 4 b)
  end.

Definition compress (s : state) (block : bytes) : state :=
  let w16 := words_of_block 16 block in
  let w := w16 ++ schedule 48 w16 in
  let r := fold_left round (combine round_constants w) s in
  mkState (add32 (ha s) (ha r)) (add32 (hb s) (hb r))
          (add32 (hc s) (hc r)) (add32 (hd s) (hd r))
          (add32 (he s) (he r)) (add32 (hf s) (hf r))
          (add32 (hg s) (hg r)) (add32 (hh s) (hh r)).

(** Big-endian octets of [x], [n] of them. *)
Fixpoint be_octets (n : nat) (x : Z) : bytes :=
  match n with
  | O => []
  | S k => (x / 256 ^ Z.of_nat k) mod 256 :: be_octets k x
  end.

Definition pad (m : bytes) : bytes :=
  let l := Z.of_nat (List.length m) in
  m ++ 128 :: repeat 0 (Z.to_nat ((55 - l) mod 64)) ++ be_octets 8 (8 * l).

Fixpoint blocks (fuel : nat) (m : bytes) (s : state) : state :=
  match fuel with
  | O => s
  | S k =>
    match m with
    | [] => s
    | _ => blocks k (skipn 64 m) (compress s (firstn 64 m))
    end
  end.

Definition digest (m : bytes) : state :=
  let p := pad m in blocks (List.length p) p initial_state.

(** Lowercase hexadecimal rendering. *)
Definition hex_digit (n : Z) : Z := if n <? 10 then 48 + n else 87 + n.

Fixpoint hex_word (n : nat) (x : Z) : str :=
  match n with
  | O => []
  | S k => hex_digit ((x / 16 ^ Z.of_nat k) mod 16) :: hex_word k x
  end.

Definition hex_state (s : state) : str :=
  hex_word 8 (ha s) ++ hex_word 8 (hb s) ++ hex_word 8 (hc s)
  ++ hex_word 8 (hd s) ++ hex_word 8 (he s) ++ hex_word 8 (hf s)
  ++ hex_word 8 (hg s) ++ hex_word 8 (hh s).

(** [hashlib.sha256(m).hexdigest()] *)
Definition hexdigest (m : bytes) : str := hex_state (digest m).

End Sha256.

(* ================================================================== *)
(** * Values, dictionaries and [json] *)
(* ================================================================== *)

Section Valeurs.
Context {B : Builtins}.

(** What [NominalValue.wrappedValue] of a property can be. *)
Inductive pyval :=
| PStr (s : str)
| PInt (n : Z)
| PFloat (x : pyfloat)
| PBool (b : bool).

(** [str(valeur)] *)
Definition str_of (v : pyval) : str :=
  match v with
  | PStr s => s
  | PInt n => str_of_int n
  | PFloat x => str_of_float x
  | PBool true => lit "True"
  | PBool false => lit "False"
  end.

(** Values held by the records that are serialised: validated text, or the
    float of a ["nombre"] field. *)
Inductive jval :=
| JStr (s : str)
| JNum (x : pyfloat).

(** [f"{v}"] *)
Definition format_jval (v : jval) : str :=
  match v with
  | JStr s => s
  | JNum x => str_of_float x
  end.

(** A [dict] with [str] keys: items in insertion order, keys unique. *)
Definition dict := list (str * jval).

Definition keys (d : dict) : list str := map fst d.

Fixpoint dict_get (k : str) (d : dict) : option jval :=
  match d with
  | [] => None
  | (k', v) :: r => if str_eqb k' k then Some v else dict_get k r
  end.

(** [d[k] = v]: an existing key keeps its place, a new one goes last. *)
Fixpoint dict_set (k : str) (v : jval) (d : dict) : dict :=
  match d with
  | [] => [(k, v)]
  | (k', v') :: r =>
    if str_eqb k' k then (k', v) :: r else (k', v') :: dict_set k v r
  end.

(** The items of [d] except key [k]. *)
Definition dict_sans (k : str) (d : dict) : dict :=
  filter (fun kv => negb (str_eqb (fst kv) k)) d.

(** ** [json.dumps] with [ensure_ascii=False] *)

Definition json_escape (c : Z) : str :=
  if c =? 34 then [92; 34]
  else if c =? 92 then [92; 92]
  else if c =? 10 then [92; 110]
  else if c =? 13 then [92; 114]
  else if c =? 9 then [92; 116]
  else if c =? 8 then [92; 98]
  else if c =? 12 then [92; 102]
  else if (0 <=? c) && (c <=? 31)
       then [92; 117; 48; 48; Sha256.hex_digit (c / 16);
             Sha256.hex_digit (c mod 16)]
  else [c].

Definition json_str (s : str) : str := 34 :: flat_map json_escape s ++ [34].

Definition json_val (v : jval) : str :=
  match v with
  | JStr s => json_str s
  | JNum x => json_of_float x
  end.

(** One [key: value] member; the key separator is colon-space in both
    layouts. *)
Definition json_item (kv : str * jval) : str :=
  json_str (fst kv) ++ [58; 32] ++ json_val (snd kv).

(** [sep.join(parts)] for a separator string. *)
Fixpoint join_str (sep : str) (parts : list str) : str :=
  match parts with
  | [] => []
  | [p] => p
  | p :: r => p ++ sep ++ join_str sep r
  end.

(** [sorted(d.items())]: ascending keys. *)
Fixpoint insert_item (kv : str * jval) (l : dict) : dict :=
  match l with
  | [] => [kv]
  | kv' :: r =>
    if str_ltb (fst kv') (fst kv) then kv' :: insert_item kv r
    else kv :: l
  end.

Definition sorted_items (d : dict) : dict := fold_right insert_item [] d.

(** [json.dumps(d, sort_keys=True, ensure_ascii=False)]: default
    separators, comma-space between members. *)
Definition json_dumps_sorted (d : dict) : str :=
  [123] ++ join_str [44; 32] (map json_item (sorted_items d)) ++ [125].

(** [json.dump(d, f, indent=2, ensure_ascii=False)]: members in insertion
    order, one per line. *)
Definition json_dump_indent2 (d : dict) : str :=
  match d with
  | [] => [123; 125]
  | _ => [123; 10; 32; 32]
         ++ join_str [44; 10; 32; 32] (map json_item d) ++ [10; 125]
  end.

(** ** The two hash functions of the extractor *)

(** [calculer_hash_json]: [None] is the [UnicodeEncodeError] of
    [encode('utf-8')]. *)
Definition calculer_hash_json (proprietes : dict) : option str :=
  let json_string := json_dumps_sorted proprietes in
  match encode_utf8 json_string with
  | Some octets => Some (Sha256.hexdigest octets)
  | None => None
  end.

(** [calculer_hash_fichier], on the octets read from the file. *)
Definition calculer_hash_fichier (contenu : bytes) : str :=
  Sha256.hexdigest contenu.

End Valeurs.

(* ================================================================== *)
(** * [IFC_extractor_5.4.py]: field validation *)
(* ================================================================== *)

Section Validation.
Context {B : Builtins}.

(** [s.isdigit()] *)
Definition ch_isdigit (c : Z) : bool :=
  if c <? 128 then ascii_digit c else uni_isdigit c.

Definition isdigit (s : str) : bool :=
  match s with
  | [] => false
  | _ => forallb ch_isdigit s
  end.

(** [int(s)]: optional sign, then decimal digits in which single
    underscores may separate digits.  [None] is [ValueError]. *)
Definition decimal_value (c : Z) : option Z :=
  if c <? 128 then (if ascii_digit c then Some (c - 48) else None)
  else uni_decimal c.

Fixpoint int_digits (acc : Z) (after_digit : bool) (s : str) : option Z :=
  match s with
  | [] => if after_digit then Some acc else None
  | c :: r =>
    if c =? 95 then (if after_digit then int_digits acc false r else None)
    else
      match decimal_value c with
      | Some d => int_digits (10 * acc + d) true r
      | None => None
      end
  end.

Definition py_int (s : str) : option Z :=
  match strip s with
  | [] => None
  | c :: r =>
    if c =? 43 then int_digits 0 false r
    else if c =? 45 then option_map Z.opp (int_digits 0 false r)
    else int_digits 0 false (c :: r)
  end.

(** [datetime(annee, mois, jour)] succeeds exactly on the dates of the
    proleptic Gregorian calendar with a year in [1, 9999]. *)
Definition is_leap (y : Z) : bool :=
  ((y mod 4 =? 0) && negb (y mod 100 =? 0)) || (y mod 400 =? 0).

Definition days_in_month (y m : Z) : Z :=
  if m =? 2 then (if is_leap y then 29 else 28)
  else if (m =? 4) || (m =? 6) || (m =? 9) || (m =? 11) then 30
  else 31.

Definition datetime_ok (y m d : Z) : bool :=
  (1 <=? y) && (y <=? 9999) && (1 <=? m) && (m <=? 12)
  && (1 <=? d) && (d <=? days_in_month y m).

(** The messages of [valider_format]. *)
Definition msg_manquante (nom : str) : str :=
  lit "La propriété '" ++ nom ++ lit "' est manquante ou nulle".

Definition msg_chiffres (nom valeur_str : str) : str :=
  lit "'" ++ nom ++ lit "' doit contenir uniquement des chiffres, reçu: '"
  ++ valeur_str ++ lit "'".

Definition msg_longueur (nom : str) (n : Z) (valeur_str : str) : str :=
  lit "'" ++ nom ++ lit "' doit contenir exactement " ++ str_of_int n
  ++ lit " chiffres, reçu: " ++ str_of_int (len valeur_str)
  ++ lit " chiffres".

Definition msg_lettres (nom valeur_str : str) : str :=
  lit "'" ++ nom ++ lit "' doit contenir des lettres, reçu: '"
  ++ valeur_str ++ lit "'".

Definition msg_nombre (nom valeur_str : str) : str :=
  lit "'" ++ nom ++ lit "' doit être un nombre, reçu: '"
  ++ valeur_str ++ lit "'".

Definition msg_date_format (nom valeur_str : str) : str :=
  lit "'" ++ nom ++ lit "' doit être au format JJ MM AAAA, reçu: '"
  ++ valeur_str ++ lit "'".

Definition msg_date_invalide (nom valeur_str : str) : str :=
  lit "'" ++ nom ++ lit "' date invalide, reçu: '" ++ valeur_str ++ lit "'".

Definition msg_vide (nom : str) : str :=
  lit "'" ++ nom ++ lit "' ne peut pas être vide".

(** The branch shared by ["16_chiffres"] and ["12_chiffres"]. *)
Definition valider_chiffres (n : Z) (valeur_str nom : str) : bool * jval :=
  if negb (isdigit valeur_str)
  then (false, JStr (msg_chiffres nom valeur_str))
  else if negb (len valeur_str =? n)
  then (false, JStr (msg_longueur nom n valeur_str))
  else (true, JStr valeur_str).

(** The ["date"] branch. *)
Definition valider_date (valeur_str nom : str) : bool * jval :=
  let date_clean := replace_char 47 32 (replace_char 45 32 valeur_str) in
  let parts := split date_clean in
  match parts with
  | [jour; mois; annee] =>
    match py_int annee with
    | None => (false, JStr (msg_date_invalide nom valeur_str))
    | Some a =>
      match py_int mois with
      | None => (false, JStr (msg_date_invalide nom valeur_str))
      | Some m =>
        match py_int jour with
        | None => (false, JStr (msg_date_invalide nom valeur_str))
        | Some j =>
          if datetime_ok a m j
          then (true, JStr (jour ++ [32] ++ mois ++ [32] ++ annee))
          else (false, JStr (msg_date_invalide nom valeur_str))
        end
      end
    end
  | _ => (false, JStr (msg_date_format nom valeur_str))
  end.

(** [valider_format(valeur, format_attendu, nom_propriete)]:
    [(True, valeur_formatee)] or [(False, message_erreur)]. *)
Definition valider_format (valeur : option pyval)
  (format_attendu nom_propriete : str) : bool * jval :=
  match valeur with
  | None => (false, JStr (msg_manquante nom_propriete))
  | Some v =>
    let valeur_str := str_of v in
    if str_eqb format_attendu (lit "16_chiffres")
    then valider_chiffres 16 valeur_str nom_propriete
    else if str_eqb format_attendu (lit "12_chiffres")
    then valider_chiffres 12 valeur_str nom_propriete
    else if str_eqb format_attendu (lit "lettres")
    then
      let nom_clean := sub_non_lettres valeur_str in
      match nom_clean with
      | [] => (false, JStr (msg_lettres nom_propriete valeur_str))
      | _ => (true, JStr (strip nom_clean))
      end
    else if str_eqb format_attendu (lit "nombre")
    then
      match float_of_str valeur_str with
      | Some x => (true, JNum x)
      | None => (false, JStr (msg_nombre nom_propriete valeur_str))
      end
    else if str_eqb format_attendu (lit "date")
    then valider_date valeur_str nom_propriete
    else if str_eqb format_attendu (lit "texte")
    then
      if est_vide valeur_str || est_vide (strip valeur_str)
      then (false, JStr (msg_vide nom_propriete))
      else (true, JStr valeur_str)
    else (true, JStr valeur_str)
  end.

End Validation.

(* ================================================================== *)
(** * [IFC_extractor_5.4.py]: record extraction *)
(* ================================================================== *)

(** Exceptions are results. *)
Inductive exn :=
| ValueError (message : str)
| AutreException (message : str).

Inductive result (A : Type) :=
| Return (a : A)
| Raise (e : exn).
Arguments Return {A} a.
Arguments Raise {A} e.

(** [str(e)] *)
Definition str_of_exn (e : exn) : str :=
  match e with
  | ValueError m => m
  | AutreException m => m
  end.

Section Extraction.
Context {B : Builtins}.

(** An [IfcPropertySingleValue]: its [Name] and, when it has a
    [NominalValue], the wrapped value. *)
Record propriete := mkPropriete {
  Name : str;
  NominalValue : option pyval
}.

(** The single-value properties of one [IfcPropertySet]. *)
Definition property_set := list propriete.

(** An element, seen through the property sets that its [IsDefinedBy]
    relations of kind [IfcRelDefinesByProperties] lead to. *)
Record element := mkElement {
  IsDefinedBy : list property_set
}.

Inductive pytype := type_str | type_float.

Record config := mkConfig {
  type : pytype;
  format : str;
  description : str
}.

Definition parametres_obligatoires : list (str * config) :=
  [ (lit "NOM",
     mkConfig type_str (lit "lettres")
              (lit "Nom de l'objet (lettres uniquement)"));
    (lit "ID",
     mkConfig type_str (lit "16_chiffres") (lit "ID à 16 chiffres"));
    (lit "ID_maquette",
     mkConfig type_str (lit "12_chiffres")
              (lit "ID maquette à 12 chiffres"));
    (lit "Longueur_m",
     mkConfig type_float (lit "nombre") (lit "Longueur en mètres"));
    (lit "Caracteristique_Materiau",
     mkConfig type_str (lit "texte") (lit "Caractéristique du matériau"));
    (lit "Materiau",
     mkConfig type_str (lit "texte") (lit "Type de matériau"));
    (lit "Statut usage",
     mkConfig type_str (lit "texte")
              (lit "Statut d'usage (neuf/en usage/réemployé)"));
    (lit "Date de fabrication",
     mkConfig type_str (lit "date")
              (lit "Date de fabrication (JJ MM AAAA)"));
    (lit "date mise en service",
     mkConfig type_str (lit "date")
              (lit "date mise en service (JJ MM AAAA)"));
    (lit "Date de réemploye",
     mkConfig type_str (lit "date") (lit "Date de réemploi (JJ MM AAAA)"));
    (lit "Empreinte Carbonne",
     mkConfig type_float (lit "nombre") (lit "Empreinte carbone")) ].

(** [extraire_propriete_specifique]: the first property, in document
    order, with the requested name and a nominal value. *)
Fixpoint chercher_dans_pset (nom_propriete : str) (ps : property_set)
  : option pyval :=
  match ps with
  | [] => None
  | prop :: r =>
    if str_eqb (Name prop) nom_propriete
    then match NominalValue prop with
         | Some v => Some v
         | None => chercher_dans_pset nom_propriete r
         end
    else chercher_dans_pset nom_propriete r
  end.

Fixpoint chercher_dans_psets (nom_propriete : str) (l : list property_set)
  : option pyval :=
  match l with
  | [] => None
  | ps :: r =>
    match chercher_dans_pset nom_propriete ps with
    | Some v => Some v
    | None => chercher_dans_psets nom_propriete r
    end
  end.

Definition extraire_propriete_specifique (e : element) (nom_propriete : str)
  : option pyval :=
  chercher_dans_psets nom_propriete (IsDefinedBy e).

(** The name asked of the provider for a schema field: the [if]/[elif]
    chain of the source. *)
Definition nom_ifc_de (nom_prop : str) : str :=
  if str_eqb nom_prop (lit "Date de fabrication")
  then lit "Date de fabrication"
  else if str_eqb nom_prop (lit "date mise en service")
  then lit "date mise en service"
  else if str_eqb nom_prop (lit "Date de réemploye")
  then lit "Date de réemploye"
  else if str_eqb nom_prop (lit "ID_maquette") then lit "ID_maquette"
  else if str_eqb nom_prop (lit "Longueur_m") then lit "Longueur_m"
  else if str_eqb nom_prop (lit "Caracteristique_Materiau")
  then lit "Caracteristique_Materiau"
  else if str_eqb nom_prop (lit "Statut usage") then lit "Statut usage"
  else if str_eqb nom_prop (lit "Empreinte Carbonne")
  then lit "Empreinte Carbonne"
  else nom_prop.

Definition variantes (nom_ifc : str) : list str :=
  [ nom_ifc;
    replace_char 32 95 nom_ifc;
    replace_char 95 32 nom_ifc;
    (if contains (lit "réemploye") nom_ifc
     then lit "Date de réemploye" else nom_ifc);
    (if contains (lit "réemploye") nom_ifc
     then lit "Date de réemploye" else nom_ifc) ].

(** The [for variante in variantes] loop with its [break]. *)
Fixpoint essayer_variantes (e : element) (vs : list str) : option pyval :=
  match vs with
  | [] => None
  | variante :: r =>
    match extraire_propriete_specifique e variante with
    | Some v => Some v
    | None => essayer_variantes e r
    end
  end.

Definition chercher_valeur (e : element) (nom_prop : str) : option pyval :=
  let nom_ifc := nom_ifc_de nom_prop in
  match extraire_propriete_specifique e nom_ifc with
  | Some v => Some v
  | None =>
    if contains (lit "Date") nom_prop
    then essayer_variantes e (variantes nom_ifc)
    else None
  end.

Definition msg_propriete_manquante (nom_ifc desc : str) : str :=
  lit "❌ PROPRIÉTÉ MANQUANTE: '" ++ nom_ifc ++ lit "' (" ++ desc ++ lit ")".

Definition msg_format_invalide (resultat : jval) : str :=
  lit "❌ FORMAT INVALIDE: " ++ format_jval resultat.

(** One turn of the loop over the schema: the state is
    [(proprietes, erreurs)]. *)
Definition etape_propriete (e : element) (acc : dict * list str)
  (entree : str * config) : dict * list str :=
  let nom_prop := fst entree in
  let nom_ifc := nom_ifc_de nom_prop in
  match chercher_valeur e nom_prop with
  | None =>
    (fst acc,
     snd acc ++ [msg_propriete_manquante nom_ifc (description (snd entree))])
  | Some valeur =>
    let vr := valider_format (Some valeur) (format (snd entree)) nom_prop in
    if negb (fst vr)
    then (fst acc, snd acc ++ [msg_format_invalide (snd vr)])
    else if str_eqb nom_prop (lit "Date de réemploye")
    then (dict_set (lit "Date de réemploye") (snd vr) (fst acc), snd acc)
    else (dict_set nom_prop (snd vr) (fst acc), snd acc)
  end.

(** The state after the loop has gone through the whole schema. *)
Definition boucle_proprietes (e : element) : dict * list str :=
  fold_left (etape_propriete e) parametres_obligatoires ([], []).

Definition msg_extraction_echouee (erreurs : list str) : str :=
  lit "Extraction échouée: " ++ str_of_int (Z.of_nat (List.length erreurs))
  ++ lit " erreur(s)".

(** [extraire_toutes_proprietes_element]: with a non-empty failure list
    the function raises; the handler around the body re-raises. *)
Definition extraire_toutes_proprietes_element (e : element)
  : result (dict * list str) :=
  let etat := boucle_proprietes e in
  match snd etat with
  | [] => Return (fst etat, [])
  | _ :: _ => Raise (ValueError (msg_extraction_echouee (snd etat)))
  end.

End Extraction.

(* ================================================================== *)
(** * [IFC_extractor_5.4.py]: processing of source files *)
(* ================================================================== *)

Section Traitement.
Context {B : Builtins}.

(** What [ifcopenshell] gives for an opened file: the elements of each
    IFC type and every [IfcPropertySet] of the file. *)
Record modele_ifc := mkModele {
  by_type : str -> list element;
  property_sets : list property_set
}.

(** A source file: its path, its octets, and what [ifcopenshell.open]
    does on it (a model, or an exception). *)
Record fichier := mkFichier {
  chemin : str;
  contenu : bytes;
  ouverture : result modele_ifc
}.

(** What the operator types at the prompts of
    [collecter_metadonnees_maquette], and the two readings of the clock
    formatted by [strftime("%d %m %Y")]. *)
Record reponses := mkReponses {
  saisie_nom_maquette : str;
  saisie_nom_architecte : str;
  saisie_coordonnees : str;
  saisie_programme : str;
  saisie_date_livraison : str;
  horloge_livraison : str;
  horloge_depot : str
}.

(** The output tree: the files written so far, latest first. *)
Definition disque := list (str * bytes).

Definition ecrire (path : str) (octets : bytes) (d : disque) : disque :=
  (path, octets) :: d.


Definition objets_ifc_dir : str := lit "data/processed/objets_ifc".
Definition objets_json_dir : str := lit "data/processed/objets_json".
Definition maquettes_dir : str := lit "data/processed/maquettes".

(** [re.sub(r'[^\w\-]', '', s)] *)
Definition ch_isalnum (c : Z) : bool :=
  if c <? 128 then ascii_letter c || ascii_digit c else uni_isalnum c.

Definition sub_non_mot (s : str) : str :=
  filter (fun c => ch_isalnum c || (c =? 95) || (c =? 45)) s.

(** [x.strip() or defaut] *)
Definition strip_ou (x defaut : str) : str :=
  match strip x with
  | [] => defaut
  | s => s
  end.

(** ** [collecter_metadonnees_maquette] *)

(** The inner loop over the properties of one set, left by [break] at
    the first well-formed [ID_maquette]. *)
Fixpoint id_maquette_dans_pset (ps : property_set) : option str :=
  match ps with
  | [] => None
  | prop :: r =>
    if str_eqb (Name prop) (lit "ID_maquette")
    then match NominalValue prop with
         | Some v =>
           let value := str_of v in
           if isdigit value && (len value =? 12) then Some value
           else id_maquette_dans_pset r
         | None => id_maquette_dans_pset r
         end
    else id_maquette_dans_pset r
  end.

(** The outer loop goes on after the [break]: a later set overrides. *)
Definition chercher_id_maquette (l : list property_set) : option str :=
  fold_left
    (fun id_maquette ps =>
       match id_maquette_dans_pset ps with
       | Some v => Some v
       | None => id_maquette
       end) l None.

Definition collecter_metadonnees_maquette (m : modele_ifc) (rep : reponses)
  : result dict :=
  match chercher_id_maquette (property_sets m) with
  | None => Raise (ValueError (lit "ID_maquette manquant dans le fichier IFC"))
  | Some id_maquette =>
    Return
      [ (lit "ID_maquette", JStr id_maquette);
        (lit "nom_maquette",
         JStr (strip_ou (saisie_nom_maquette rep) (lit "Diogène")));
        (lit "nom_architecte",
         JStr (strip_ou (saisie_nom_architecte rep) (lit "Renzo Piano")));
        (lit "coordonnees_geographiques",
         JStr (strip_ou (saisie_coordonnees rep) (lit "46.5197/6.6323")));
        (lit "programme",
         JStr (strip_ou (saisie_programme rep) (lit "Logement")));
        (lit "date livraison",
         JStr (strip_ou (saisie_date_livraison rep) (horloge_livraison rep)));
        (lit "date depot", JStr (horloge_depot rep)) ]
  end.

(** ** The body of the loop over elements *)

(** The two digests: [hash_ifc] is stored first, [hash_json] is computed
    on the dictionary that already holds it and stored next. *)
Definition ajouter_hashes (cle_ifc cle_json : str) (octets_ifc : bytes)
  (proprietes : dict) : option dict :=
  let hash_ifc := calculer_hash_fichier octets_ifc in
  let avec_ifc := dict_set cle_ifc (JStr hash_ifc) proprietes in
  match calculer_hash_json avec_ifc with
  | Some hash_json => Some (dict_set cle_json (JStr hash_json) avec_ifc)
  | None => None
  end.

(** [f"{proprietes['ID']}_{proprietes['NOM'].replace(' ', '_')}"] cleaned
    by [re.sub]; [None] is the [KeyError] or [AttributeError]. *)
Definition nom_fichier_objet (proprietes : dict) : option str :=
  match dict_get (lit "ID") proprietes, dict_get (lit "NOM") proprietes with
  | Some id, Some (JStr nom) =>
    Some (sub_non_mot (format_jval id ++ [95] ++ replace_char 32 95 nom))
  | _, _ => None
  end.

Definition chemin_json (nom_fichier : str) : str :=
  objets_json_dir ++ [47] ++ nom_fichier ++ lit ".json".

Definition chemin_ifc (nom_fichier : str) : str :=
  objets_ifc_dir ++ [47] ++ nom_fichier ++ lit ".ifc".

(** Hashing, naming and writing of one extracted record; [Raise] is any
    exception of these statements.  A JSON file whose text cannot be
    encoded has been opened for writing and is left empty. *)
Definition enregistrer_objet (octets_ifc : bytes) (proprietes : dict)
  (d : disque) : result dict * disque :=
  match ajouter_hashes (lit "hash_ifc") (lit "hash_json") octets_ifc
                       proprietes with
  | None => (Raise (AutreException (lit "UnicodeEncodeError")), d)
  | Some complet =>
    match nom_fichier_objet complet with
    | None => (Raise (AutreException (lit "KeyError")), d)
    | Some nom_fichier =>
      match encode_utf8 (json_dump_indent2 complet) with
      | None =>
        (Raise (AutreException (lit "UnicodeEncodeError")),
         ecrire (chemin_json nom_fichier) [] d)
      | Some octets_json =>
        (Return complet,
         ecrire (chemin_ifc nom_fichier) octets_ifc
                (ecrire (chemin_json nom_fichier) octets_json d))
      end
    end
  end.

(** The running state of [traiter_fichier_maquette]. *)
Record etat := mkEtat {
  objets_crees : Z;
  erreurs_totales : Z;
  sorties : disque
}.

Definition compter_erreur (st : etat) (d : disque) : etat :=
  mkEtat (objets_crees st) (erreurs_totales st + 1) d.

(** One turn of [for idx, element in enumerate(elements, 1)]. *)
Definition traiter_element (octets_ifc : bytes) (st : etat) (e : element)
  : etat :=
  match extraire_toutes_proprietes_element e with
  | Raise _ => compter_erreur st (sorties st)
  | Return (proprietes, erreurs) =>
    match erreurs with
    | _ :: _ => compter_erreur st (sorties st)
    | [] =>
      match enregistrer_objet octets_ifc proprietes (sorties st) with
      | (Raise _, d) => compter_erreur st d
      | (Return _, d) =>
        mkEtat (objets_crees st + 1) (erreurs_totales st) d
      end
    end
  end.

Definition types_elements : list str :=
  [ lit "IfcProxy"; lit "IfcWall"; lit "IfcSlab"; lit "IfcBeam";
    lit "IfcColumn"; lit "IfcDoor"; lit "IfcWindow"; lit "IfcRoof";
    lit "IfcStair"; lit "IfcRailing"; lit "IfcBuildingElementProxy";
    lit "IfcFurnishingElement" ].

(** [elements.extend(self.model_ifc.by_type(type_element))] for each type. *)
Definition elements_du_modele (m : modele_ifc) : list element :=
  flat_map (by_type m) types_elements.

(** The dictionary returned by the two file-level operations. *)
Inductive resultat :=
| Succes (nb_objets_crees nb_erreurs : Z) (maquette_path : str)
| SuccesObjet
| Erreur (message : str).

Definition status_success (r : resultat) : bool :=
  match r with
  | Erreur _ => false
  | _ => true
  end.

Definition msg_aucun_objet (erreurs : Z) : str :=
  lit "Aucun objet valide créé! " ++ str_of_int erreurs
  ++ lit " erreurs rencontrées".

(** What follows the loop in [traiter_fichier_maquette]. *)
Definition finir_maquette (f : fichier) (metadonnees : dict)
  (dossier_maquette nom_maquette_clean : str) (st : etat)
  : resultat * disque :=
  if objets_crees st =? 0
  then (Erreur (msg_aucun_objet (erreurs_totales st)), sorties st)
  else
    let d1 := ecrire (dossier_maquette ++ [47] ++ nom_maquette_clean
                      ++ lit ".ifc") (contenu f) (sorties st) in
    match ajouter_hashes (lit "hash_maquette_ifc") (lit "hash_maquette_json")
                         (contenu f) metadonnees with
    | None => (Erreur (lit "UnicodeEncodeError"), d1)
    | Some complet =>
      let maquette_json_path :=
        dossier_maquette ++ [47] ++ nom_maquette_clean ++ lit ".json" in
      match encode_utf8 (json_dump_indent2 complet) with
      | None =>
        (Erreur (lit "UnicodeEncodeError"), ecrire maquette_json_path [] d1)
      | Some octets =>
        (Succes (objets_crees st) (erreurs_totales st) dossier_maquette,
         ecrire maquette_json_path octets d1)
      end
    end.

(** [traiter_fichier_maquette]: every exception ends in the handler that
    returns the error dictionary. *)
Definition traiter_fichier_maquette (f : fichier) (rep : reponses)
  (d : disque) : resultat * disque :=
  match ouverture f with
  | Raise e => (Erreur (str_of_exn e), d)
  | Return m =>
    match collecter_metadonnees_maquette m rep with
    | Raise e => (Erreur (str_of_exn e), d)
    | Return metadonnees =>
      match dict_get (lit "ID_maquette") metadonnees,
            dict_get (lit "nom_maquette") metadonnees with
      | Some id_maquette, Some (JStr nom_maquette) =>
        let nom_maquette_clean := sub_non_mot nom_maquette in
        let dossier_maquette :=
          maquettes_dir ++ [47] ++ lit "maquette_" ++ nom_maquette_clean
          ++ [95] ++ format_jval id_maquette in
        let st := fold_left (traiter_element (contenu f))
                            (elements_du_modele m) (mkEtat 0 0 d) in
        finir_maquette f metadonnees dossier_maquette nom_maquette_clean st
      | _, _ => (Erreur (lit "KeyError"), d)
      end
    end
  end.

(** ** [traiter_objet_unitaire] *)

(** The first element of the first non-empty type, else the first
    [IfcElement]. *)
Fixpoint premier_element (m : modele_ifc) (types : list str)
  : option element :=
  match types with
  | [] => None
  | type_element :: r =>
    match by_type m type_element with
    | e :: _ => Some e
    | [] => premier_element m r
    end
  end.

Definition choisir_element (m : modele_ifc) : option element :=
  match premier_element m [ lit "IfcProxy"; lit "IfcBuildingElementProxy";
                            lit "IfcBeam"; lit "IfcColumn" ] with
  | Some e => Some e
  | None =>
    match by_type m (lit "IfcElement") with
    | e :: _ => Some e
    | [] => None
    end
  end.

Definition traiter_objet_unitaire (f : fichier) (d : disque)
  : resultat * disque :=
  match ouverture f with
  | Raise e => (Erreur (str_of_exn e), d)
  | Return m =>
    match choisir_element m with
    | None => (Erreur (lit "Aucun élément IFC valide"), d)
    | Some e =>
      match extraire_toutes_proprietes_element e with
      | Raise ex => (Erreur (str_of_exn ex), d)
      | Return (proprietes, erreurs) =>
        match erreurs with
        | _ :: _ => (Erreur (lit "Propriétés manquantes ou invalides"), d)
        | [] =>
          match enregistrer_objet (contenu f) proprietes d with
          | (Raise ex, d') => (Erreur (str_of_exn ex), d')
          | (Return _, d') => (SuccesObjet, d')
          end
        end
      end
    end
  end.

(** ** [traiter_tous_fichiers] *)

Record stats := mkStats {
  total : Z;
  success : Z;
  errors : Z;
  stat_objets_crees : Z;
  objets_ignores : Z
}.

(** The answer to [demander_type_traitement]. *)
Inductive type_traitement := maquette | objets.

(** One turn of [for fichier in fichiers_ifc]; in mode [maquette] the
    operator answers the prompts of that file. *)
Definition traiter_un_fichier (choix : type_traitement)
  (acc : stats * disque) (fr : fichier * reponses) : stats * disque :=
  let s := fst acc in
  match choix with
  | maquette =>
    let rd := traiter_fichier_maquette (fst fr) (snd fr) (snd acc) in
    match fst rd with
    | Succes nb_crees nb_erreurs _ =>
      (mkStats (total s) (success s + 1) (errors s)
               (stat_objets_crees s + nb_crees)
               (objets_ignores s + nb_erreurs), snd rd)
    | SuccesObjet =>
      (mkStats (total s) (success s + 1) (errors s)
               (stat_objets_crees s) (objets_ignores s), snd rd)
    | Erreur _ =>
      (mkStats (total s) (success s) (errors s + 1)
               (stat_objets_crees s) (objets_ignores s), snd rd)
    end
  | objets =>
    let rd := traiter_objet_unitaire (fst fr) (snd acc) in
    if status_success (fst rd)
    then (mkStats (total s) (success s + 1) (errors s)
                  (stat_objets_crees s + 1) (objets_ignores s), snd rd)
    else (mkStats (total s) (success s) (errors s + 1)
                  (stat_objets_crees s) (objets_ignores s + 1), snd rd)
  end.

(** [traiter_tous_fichiers] on the files found by [glob]: the statistics
    it prints, or nothing when there is no file. *)
Definition traiter_tous_fichiers (fichiers_ifc : list (fichier * reponses))
  (choix : type_traitement) (d : disque) : option stats * disque :=
  match fichiers_ifc with
  | [] => (None, d)
  | _ =>
    let fin :=
      fold_left (traiter_un_fichier choix) fichiers_ifc
                (mkStats (Z.of_nat (List.length fichiers_ifc)) 0 0 0 0, d) in
    (Some (fst fin), snd fin)
  end.

End Traitement.

(* ================================================================== *)
(** * [ifc_r9_extractor.py]: the earlier extractor *)
(* ================================================================== *)

Module R9.
Section R9.
Context {B : Builtins}.

Inductive exn_r9 := ValidationError (message : str).

Definition parametres_obligatoires : list str :=
  [ lit "NOM"; lit "ID"; lit "ID_maquette"; lit "Longueur_m";
    lit "Caracteristique_Materiau"; lit "Materiau"; lit "Statut_usage";
    lit "Date_fabrication"; lit "Date_mise_en_service"; lit "Date_reemploi";
    lit "Empreinte_Carbone" ].

(** [\d] of [re] on a [str] pattern: a Unicode decimal digit. *)
Definition isdecimal (c : Z) : bool :=
  match decimal_value c with
  | Some _ => true
  | None => false
  end.

(** [re.match(r'^\d{2}-\d{2}-\d{4}$', s)]; [$] also matches before a final
    newline. *)
Definition motif_date (s : str) : bool :=
  match s with
  | d1 :: d2 :: t1 :: m1 :: m2 :: t2 :: y1 :: y2 :: y3 :: y4 :: fin =>
    isdecimal d1 && isdecimal d2 && (t1 =? 45)
    && isdecimal m1 && isdecimal m2 && (t2 =? 45)
    && isdecimal y1 && isdecimal y2 && isdecimal y3 && isdecimal y4
    && match fin with
       | [] => true
       | [nl] => nl =? 10
       | _ => false
       end
  | _ => false
  end.

(** [datetime.strptime(s, '%d-%m-%Y')] on a string accepted by
    [motif_date]: the directives match [3[0-1]|[1-2]\d|0[1-9]],
    [1[0-2]|0[1-9]] and [\d\d\d\d], nothing may remain, and the numbers
    must make a date. *)
Definition strptime_ok (s : str) : bool :=
  match s with
  | [d1; d2; _; m1; m2; _; y1; y2; y3; y4] =>
    (((d1 =? 51) && ((d2 =? 48) || (d2 =? 49)))
     || (((d1 =? 49) || (d1 =? 50)) && isdecimal d2)
     || ((d1 =? 48) && (49 <=? d2) && (d2 <=? 57)))
    && (((m1 =? 49) && (48 <=? m2) && (m2 <=? 50))
        || ((m1 =? 48) && (49 <=? m2) && (m2 <=? 57)))
    && match py_int [y1; y2; y3; y4], py_int [m1; m2], py_int [d1; d2] with
       | Some y, Some m, Some d => datetime_ok y m d
       | _, _, _ => false
       end
  | _ => false
  end.

Definition valider_format_date (date_str : str) : bool :=
  match date_str with
  | [] => false
  | _ =>
    if str_eqb date_str (lit "Non trouvé")
       || str_eqb date_str (lit "Non spécifié")
    then false
    else if negb (motif_date date_str) then false
    else strptime_ok date_str
  end.

Definition statuts_valides : list str :=
  [ lit "neuf"; lit "en usage"; lit "réemployé" ].

(** [s.lower()] *)
Definition lower (s : str) : str :=
  if forallb is_ascii s
  then map (fun c => if ascii_upper c then c + 32 else c) s
  else uni_lower s.

Definition msg_statut : str :=
  lit "Statut_usage doit être l'un de: ['neuf', 'en usage', 'réemployé']".

(** [valider_format_parametre(nom_param, valeur)]. *)
Definition valider_format_parametre (nom_param : str) (valeur : option pyval)
  : bool * str :=
  let vide :=
    (false, lit "Paramètre " ++ nom_param ++ lit " est vide ou non trouvé") in
  match valeur with
  | None => vide
  | Some v =>
    if match v with
       | PStr s => str_eqb s [] || str_eqb s (lit "Non trouvé")
       | _ => false
       end
    then vide
    else
      let valeur_str := strip (str_of v) in
      if str_eqb nom_param (lit "NOM") then
        if len valeur_str <? 1
        then (false, lit "NOM doit être une chaîne de caractères non vide")
        else (true, [])
      else if str_eqb nom_param (lit "ID") then
        if negb (isdigit valeur_str) || negb (len valeur_str =? 16)
        then (false, lit "ID doit être un entier de 16 chiffres exactement")
        else (true, [])
      else if str_eqb nom_param (lit "ID_maquette") then
        if negb (isdigit valeur_str) || negb (len valeur_str =? 12)
        then (false,
              lit "ID_maquette doit être un entier de 12 chiffres exactement")
        else (true, [])
      else if str_eqb nom_param (lit "Longueur_m") then
        match float_of_str valeur_str with
        | Some _ => (true, [])
        | None =>
          (false, lit "Longueur_m doit être un nombre décimal (ex: 12.23)")
        end
      else if str_eqb nom_param (lit "Statut_usage") then
        if negb (existsb (str_eqb (lower valeur_str)) statuts_valides)
        then (false, msg_statut)
        else (true, [])
      else if str_eqb nom_param (lit "Date_fabrication")
              || str_eqb nom_param (lit "Date_mise_en_service")
              || str_eqb nom_param (lit "Date_reemploi") then
        if negb (valider_format_date valeur_str)
        then (false, nom_param
                     ++ lit " doit être au format DD-MM-YYYY (ex: 13-01-2001)")
        else (true, [])
      else if str_eqb nom_param (lit "Empreinte_Carbone") then
        match float_of_str valeur_str with
        | Some _ => (true, [])
        | None =>
          (false,
           lit "Empreinte_Carbone doit être un nombre (kg CO2 équivalent)")
        end
      else (true, [])
  end.

(** An element as [extraire_proprietes_objet] reads it: its step id, and
    the five values the function derives from the element (name, the
    sixteen-digit identifier cut from the MD5 of the GlobalId, length,
    material characteristic, material); the other parameters are the
    constants of the source. *)
Record element_r9 := mkElementR9 {
  step_id : Z;
  lu_NOM : str;
  lu_ID : str;
  lu_Longueur_m : str;
  lu_Caracteristique : str;
  lu_Materiau : str
}.

Definition proprietes_r9 := list (str * pyval).

Definition extraire_proprietes_objet (e : element_r9) : proprietes_r9 :=
  [ (lit "NOM", PStr (lu_NOM e));
    (lit "ID", PStr (lu_ID e));
    (lit "ID_maquette", PStr (lit "000000000000"));
    (lit "Longueur_m", PStr (lu_Longueur_m e));
    (lit "Caracteristique_Materiau", PStr (lu_Caracteristique e));
    (lit "Materiau", PStr (lu_Materiau e));
    (lit "Statut_usage", PStr (lit "neuf"));
    (lit "Date_fabrication", PStr (lit "01-01-2020"));
    (lit "Date_mise_en_service", PStr (lit "01-06-2020"));
    (lit "Date_reemploi", PStr (lit "Non spécifié"));
    (lit "Empreinte_Carbone", PStr (lit "100.0")) ].

Fixpoint get_r9 (k : str) (p : proprietes_r9) : option pyval :=
  match p with
  | [] => None
  | (k', v) :: r => if str_eqb k' k then Some v else get_r9 k r
  end.

Fixpoint set_r9 (k : str) (v : pyval) (p : proprietes_r9) : proprietes_r9 :=
  match p with
  | [] => [(k, v)]
  | (k', v') :: r =>
    if str_eqb k' k then (k', v) :: r else (k', v') :: set_r9 k v r
  end.

(** The inner loop over the eleven parameters. *)
Definition erreurs_objet_de (e : element_r9) (p : proprietes_r9)
  : list str :=
  flat_map
    (fun param =>
       match get_r9 param p with
       | None => [lit "Paramètre manquant: " ++ param]
       | Some v =>
         let r := valider_format_parametre param (Some v) in
         if fst r then []
         else [lit "Objet " ++ str_of_int (step_id e) ++ lit ": " ++ snd r]
       end) parametres_obligatoires.

(** The state of the loop over elements (the [_metadata] entry added to a
    valid object plays no part in validation and is left out). *)
Record etat_r9 := mkEtatR9 {
  objets_valides : list proprietes_r9;
  erreurs_validation : list str;
  ids_extraits : list str
}.

Definition etape_objet (id_maquette : str) (st : etat_r9) (e : element_r9)
  : etat_r9 :=
  let p := set_r9 (lit "ID_maquette") (PStr id_maquette)
                  (extraire_proprietes_objet e) in
  let id_objet := lu_ID e in
  let erreurs_objet :=
    erreurs_objet_de e p
    ++ (if existsb (str_eqb id_objet) (ids_extraits st)
        then [lit "ID dupliqué détecté: " ++ id_objet] else []) in
  match erreurs_objet with
  | [] => mkEtatR9 (objets_valides st ++ [p]) (erreurs_validation st)
                   (ids_extraits st ++ [id_objet])
  | _ => mkEtatR9 (objets_valides st) (erreurs_validation st ++ erreurs_objet)
                  (ids_extraits st ++ [id_objet])
  end.

Definition ids_existants_simules : list str :=
  [ lit "1234567891234567"; lit "9876543210987654" ].

Definition simuler_verification_ids_reseau (ids : list str) : list str :=
  filter (fun id_obj => existsb (str_eqb id_obj) ids_existants_simules) ids.

(** [extraire_objets_avec_validation] on the elements in the order the
    types are enumerated. *)
Definition extraire_objets_avec_validation (id_maquette : str)
  (elements : list element_r9) : list proprietes_r9 + exn_r9 :=
  let st := fold_left (etape_objet id_maquette) elements
                      (mkEtatR9 [] [] []) in
  let erreurs :=
    erreurs_validation st
    ++ map (fun id_doublon => lit "ID déjà présent sur le réseau: "
                              ++ id_doublon)
           (simuler_verification_ids_reseau (ids_extraits st)) in
  match erreurs with
  | [] => inl (objets_valides st)
  | _ =>
    inr (ValidationError
           (lit "Validation échouée: "
            ++ str_of_int (Z.of_nat (List.length erreurs))
            ++ lit " erreurs détectées"))
  end.

End R9.
End R9.

(* ================================================================== *)
(** * Vocabulary of the statements *)
(* ================================================================== *)

(** A lowercase hexadecimal digit. *)
Definition hex_minuscule (c : Z) : bool :=
  ascii_digit c || ((97 <=? c) && (c <=? 102)).

(** A code point that UTF-8 can encode: a Unicode scalar value. *)
Definition scalaire (c : Z) : bool :=
  (0 <=? c) && (c <? 1114112) && negb ((55296 <=? c) && (c <=? 57343)).

Definition texte_unicode (s : str) : bool := forallb scalaire s.

Section Vocabulaire.
Context {B : Builtins}.

(** Every key and value of the record is text that UTF-8 can encode. *)
Definition jval_unicode (v : jval) : bool :=
  match v with
  | JStr s => texte_unicode s
  | JNum x => texte_unicode (json_of_float x)
  end.

Definition dict_unicode (d : dict) : bool :=
  forallb (fun kv => texte_unicode (fst kv) && jval_unicode (snd kv)) d.

(** The order of [sorted(d.items())]: strictly ascending keys. *)
Definition avant (a b : str * jval) : Prop := str_ltb (fst a) (fst b) = true.

(** The schema entry of a field fails on element [e]: no value is found,
    or the value found does not validate. *)
Definition champ_en_echec (e : element) (entree : str * config) : bool :=
  match chercher_valeur e (fst entree) with
  | None => true
  | Some valeur =>
    negb (fst (valider_format (Some valeur) (format (snd entree))
                              (fst entree)))
  end.

(** The message the loop appends for a failing field. *)
Definition message_echec (e : element) (entree : str * config) : str :=
  match chercher_valeur e (fst entree) with
  | None =>
    msg_propriete_manquante (nom_ifc_de (fst entree))
                            (description (snd entree))
  | Some valeur =>
    msg_format_invalide
      (snd (valider_format (Some valeur) (format (snd entree)) (fst entree)))
  end.

(** [k] decimal digits of [n], most significant first: the [DD], [MM] and
    [YYYY] of a date. *)
Fixpoint chiffres (k : nat) (n : Z) : str :=
  match k with
  | O => []
  | S k' => (48 + (n / 10 ^ Z.of_nat k') mod 10) :: chiffres k' n
  end.

(** The file-level operation chosen by the operator succeeds on a file
    taken alone, on an empty output tree. *)
Definition reussit (choix : type_traitement) (fr : fichier * reponses)
  : bool :=
  match choix with
  | maquette =>
    status_success (fst (traiter_fichier_maquette (fst fr) (snd fr) []))
  | objets => status_success (fst (traiter_objet_unitaire (fst fr) []))
  end.

(** The loop of [traiter_fichier_maquette] over the elements of a model. *)
Definition boucle_elements (f : fichier) (m : modele_ifc) (d : disque)
  : etat :=
  fold_left (traiter_element (contenu f)) (elements_du_modele m)
            (mkEtat 0 0 d).

(** Two states of the loop with the same counters. *)
Definition memes_compteurs (s1 s2 : etat) : Prop :=
  objets_crees s1 = objets_crees s2
  /\ erreurs_totales s1 = erreurs_totales s2.

(** The number written by a string of ASCII digits. *)
Definition valeur_decimale (s : str) : Z :=
  fold_left (fun acc c => 10 * acc + (c - 48)) s 0.

(** The separators a date may use. *)
Definition separateur (c : Z) : bool := (c =? 32) || (c =? 45) || (c =? 47).

End Vocabulaire.

(* ================================================================== *)
(** * A concrete runtime for the worked examples *)
(* ================================================================== *)

(** The examples run the definitions on a small instance of [Builtins]:
    the Unicode tables are those of Latin-1 (code points up to 255), and a
    float is recognised when its literal is the plain decimal form
    [digits.digits] that Python prints back unchanged (at most fifteen
    digits, no superfluous zero, not below 0.1 unless it is 0.0); it is
    then represented by that text. *)
Module Exemple.

Definition decimal_canonique (s : str) : bool :=
  match split_aux [] (replace_char 46 32 s) with
  | [ent; frac] =>
    (List.length s =? List.length ent + List.length frac + 1)%nat
    && forallb ascii_digit ent && forallb ascii_digit frac
    && (List.length ent + List.length frac <=? 15)%nat
    && (negb (startswith [48] ent) || str_eqb ent [48])
    && (negb (startswith [48] (rev frac)) || str_eqb frac [48])
    && (negb (str_eqb ent [48]) || negb (startswith [48] frac)
        || str_eqb frac [48])
  | _ => false
  end.

Definition latin1_isdigit (c : Z) : bool :=
  (c =? 178) || (c =? 179) || (c =? 185).

Definition latin1_isalpha (c : Z) : bool :=
  (c =? 170) || (c =? 181) || (c =? 186)
  || ((192 <=? c) && (c <=? 255) && negb (c =? 215) && negb (c =? 247)).

Definition latin1_isalnum (c : Z) : bool :=
  latin1_isalpha c || latin1_isdigit c || ((188 <=? c) && (c <=? 190)).

Definition latin1_lower (s : str) : str :=
  map (fun c =>
         if ascii_upper c then c + 32
         else if (192 <=? c) && (c <=? 222) && negb (c =? 215) then c + 32
         else c) s.

#[export] Instance runtime : Builtins := {
  pyfloat := str;
  float_of_str := fun s => if decimal_canonique s then Some s else None;
  str_of_float := fun x => x;
  json_of_float := fun x => x;
  uni_isdigit := latin1_isdigit;
  uni_isalnum := latin1_isalnum;
  uni_decimal := fun _ => None;
  uni_lower := latin1_lower
}.

(** The element of the end-to-end scenario, with the usage status and the
    identifier left open. *)
Definition prop (nom valeur : string) : propriete :=
  mkPropriete (lit nom) (Some (PStr (lit valeur))).

Definition poutre (id statut : string) : element :=
  mkElement
    [ [ prop "NOM" "poutre IPE 200";
        prop "ID" id;
        prop "ID_maquette" "123456789123";
        prop "Longueur_m" "12.23";
        prop "Materiau" "acier";
        prop "Statut usage" statut ];
      [ prop "Date de fabrication" "13 01 2011";
        prop "date mise en service" "14 02 2012";
        prop "Date de réemploye" "15 03 2023";
        prop "Empreinte Carbonne" "400.0";
        prop "Caracteristique_Materiau" "S355" ] ].

(** A source file holding the given beams and one property set carrying
    the model identifier. *)
Definition modele_de (poutres : list element) : modele_ifc :=
  mkModele
    (fun t => if str_eqb t (lit "IfcBeam") then poutres else [])
    [ [ prop "ID_maquette" "123456789123" ] ].

Definition fichier_de (nom : string) (poutres : list element) : fichier :=
  mkFichier (lit nom) (octets_of_string "ISO-10303-21;")
            (Return (modele_de poutres)).

Definition sans_reponse : reponses :=
  mkReponses [] [] [] [] [] (lit "04 11 2026") (lit "04 11 2026").

(** The beam of the end-to-end scenario, its record and the octets of the
    source file. *)
Definition poutre_scenario : element :=
  poutre "1111111111111111" "réemployé".

Definition octets_scenario : bytes := octets_of_string "ISO-10303-21;".

Definition record_scenario : dict := fst (boucle_proprietes poutre_scenario).

(** A batch of three files: one that [ifcopenshell] cannot open, one whose
    only element is rejected, one with the beam of the scenario. *)
Definition fichier_illisible : fichier :=
  mkFichier (lit "illisible.ifc") []
            (Raise (AutreException (lit "Unable to open file for reading"))).

Definition lot : list (fichier * reponses) :=
  [ (fichier_illisible, sans_reponse);
    (fichier_de "rejete.ifc" [poutre "11111" ""], sans_reponse);
    (fichier_de "bon.ifc" [poutre_scenario], sans_reponse) ].

(** Two elements as [ifc_r9_extractor.py] reads them, with the same
    identifier. *)
Definition jumeaux_r9 : list R9.element_r9 :=
  [ R9.mkElementR9 12 (lit "poutre") (lit "1111111111111111") (lit "12.23")
                   (lit "S355") (lit "acier");
    R9.mkElementR9 13 (lit "poteau") (lit "1111111111111111") (lit "3.0")
                   (lit "S235") (lit "acier") ].

Definition record_de (r : result dict) : dict :=
  match r with
  | Return x => x
  | Raise _ => []
  end.

(** The metadata collected for the files of the examples. *)
Definition metadonnees_exemple : dict :=
  Eval vm_compute in
    record_de (collecter_metadonnees_maquette (modele_de []) sans_reponse).

Definition complet_scenario : dict :=
  Eval vm_compute in
    record_de (fst (enregistrer_objet octets_scenario record_scenario [])).

End Exemple.


(* ================================================================== *)
(** * Further functions of the two extractors *)
(* ================================================================== *)

Section Saisies.
Context {B : Builtins}.

(** [demander_type_traitement] of [IFC_extractor_5.4.py], on the lines the
    operator types at the prompt: the loop asks again until a line is [1]
    or [2] once trimmed; [None] is the end of the input ([EOFError]). *)
Fixpoint demander_type_traitement (saisies : list str)
  : option type_traitement :=
  match saisies with
  | [] => None
  | ligne :: r =>
    let choix := strip ligne in
    if str_eqb choix (lit "1") then Some maquette
    else if str_eqb choix (lit "2") then Some objets
    else demander_type_traitement r
  end.

(** [ifc_r9_extractor.py]: the metadata of a model are a dictionary of
    strings. *)
Definition metadonnees_r9 := list (str * str).

Fixpoint get_meta (k : str) (md : metadonnees_r9) : option str :=
  match md with
  | [] => None
  | (k', v) :: r => if str_eqb k' k then Some v else get_meta k r
  end.

Definition parametres_maquette_obligatoires : list str :=
  [ lit "nom_maquette"; lit "ID_maquette"; lit "nom_architecte";
    lit "coordonnees_geographiques"; lit "programme"; lit "date_livraison";
    lit "date_depot" ].

(** What the operator types in [demander_metadonnees_maquette]. *)
Record saisie_r9 := mkSaisieR9 {
  r9_nom_maquette : str;
  r9_nom_architecte : str;
  r9_latitude : str;
  r9_longitude : str;
  r9_programme : str;
  r9_date_livraison : str
}.

(** [demander_metadonnees_maquette]: [id_maquette] is the string of the
    number drawn by [random.randint], [date_depot] the reading of the
    clock formatted by [strftime("%d-%m-%Y")]. *)
Definition demander_metadonnees_maquette (id_maquette : str)
  (s : saisie_r9) (date_depot : str) : metadonnees_r9 :=
  [ (lit "nom_maquette", strip (r9_nom_maquette s));
    (lit "ID_maquette", id_maquette);
    (lit "nom_architecte", strip (r9_nom_architecte s));
    (lit "coordonnees_geographiques",
     strip (r9_latitude s) ++ lit ", " ++ strip (r9_longitude s));
    (lit "programme", strip (r9_programme s));
    (lit "date_livraison", strip (r9_date_livraison s));
    (lit "date_depot", date_depot) ].

(** The first loop of [valider_metadonnees_maquette]: a parameter is
    missing, or present and blank. *)
Definition erreur_parametre_maquette (md : metadonnees_r9) (param : str)
  : list str :=
  match get_meta param md with
  | None => [lit "Paramètre maquette manquant: " ++ param]
  | Some valeur =>
    if est_vide valeur || est_vide (strip valeur)
    then [lit "Paramètre maquette vide: " ++ param]
    else []
  end.

(** [valider_metadonnees_maquette]: the list of errors. *)
Definition valider_metadonnees_maquette (md : metadonnees_r9) : list str :=
  flat_map (erreur_parametre_maquette md) parametres_maquette_obligatoires
  ++ match get_meta (lit "date_livraison") md with
     | Some d =>
       if negb (R9.valider_format_date d)
       then [lit "date_livraison doit être au format DD-MM-YYYY"]
       else []
     | None => []
     end
  ++ match get_meta (lit "coordonnees_geographiques") md with
     | Some coords =>
       if negb (contains [44] coords)
       then [lit "coordonnees_geographiques doivent être au format 'latitude, longitude'"]
       else []
     | None => []
     end.

(** ** Vocabulary of the further statements *)

(** No whitespace character in [s]. *)
Definition sans_blanc (s : str) : bool :=
  forallb (fun c => negb (isspace c)) s.

(** Some character of [s] is not whitespace. *)
Definition a_un_non_blanc (s : str) : bool :=
  existsb (fun c => negb (isspace c)) s.

(** The record that the loop over the schema builds when nothing fails. *)
Definition record_valide (e : element) : dict :=
  map (fun entree =>
         (fst entree,
          snd (valider_format (chercher_valeur e (fst entree))
                              (format (snd entree)) (fst entree))))
      parametres_obligatoires.

(** No string occurs twice in [l]. *)
Fixpoint sans_doublon (l : list str) : bool :=
  match l with
  | [] => true
  | x :: r => negb (existsb (str_eqb x) r) && sans_doublon r
  end.

(** No property named [nom] in [ps] carries a value. *)
Definition sans_valeur (nom : str) (ps : property_set) : Prop :=
  forall prop, In prop ps -> Name prop = nom -> NominalValue prop = None.

(** A property of element [e] named [nom] that carries a value. *)
Definition porte (e : element) (nom : str) (v : pyval) : Prop :=
  exists ps prop,
    In ps (IsDefinedBy e) /\ In prop ps
    /\ Name prop = nom /\ NominalValue prop = Some v.

(** Property set [ps] holds a well-formed model identifier [id]: a
    property named [ID_maquette] whose value reads as twelve digits. *)
Definition porte_id_maquette (ps : property_set) (id : str) : Prop :=
  exists prop v,
    In prop ps /\ Name prop = lit "ID_maquette"
    /\ NominalValue prop = Some v /\ str_of v = id
    /\ isdigit id = true /\ len id = 12.


(** The lines of a prompt that are neither [1] nor [2]. *)
Definition choix_invalide (ligne : str) : bool :=
  negb (str_eqb (strip ligne) (lit "1"))
  && negb (str_eqb (strip ligne) (lit "2")).

End Saisies.

(** Further worked examples. *)
Module Cas.

(** An element whose manufacturing date is filed under the name written
    with underscores. *)
Definition poutre_soulignee : element :=
  mkElement
    [ [ Exemple.prop "Date_de_fabrication" "13 01 2011";
        Exemple.prop "date_mise_en_service" "14 02 2012" ] ].

End Cas.

(* ================================================================== *)
(** * Properties: strings and dictionaries *)
(* ================================================================== *)

Lemma str_eqb_eq (a b : str) : str_eqb a b = true <-> a = b.
Proof.
  revert b; induction a as [|x a IH]; intros [|y b]; simpl; split;
    try congruence; try discriminate; auto.
  - intros H. apply andb_true_iff in H as [H1 H2].
    apply Z.eqb_eq in H1. apply IH in H2. congruence.
  - intros H. injection H as -> ->. rewrite Z.eqb_refl. simpl.
    now apply IH.
Qed.

Lemma str_eqb_refl (a : str) : str_eqb a a = true.
Proof. now apply str_eqb_eq. Qed.

Lemma str_eqb_neq (a b : str) : str_eqb a b = false <-> a <> b.
Proof.
  split.
  - intros H E. apply str_eqb_eq in E. congruence.
  - intros H. destruct (str_eqb a b) eqn:E; [|reflexivity].
    apply str_eqb_eq in E. contradiction.
Qed.

Lemma str_ltb_irrefl (a : str) : str_ltb a a = false.
Proof.
  induction a as [|x a IH]; simpl; [reflexivity|].
  rewrite Z.ltb_irrefl, Z.eqb_refl. simpl. exact IH.
Qed.

Lemma str_ltb_trans (a b c : str) :
  str_ltb a b = true -> str_ltb b c = true -> str_ltb a c = true.
Proof.
  revert b c; induction a as [|x a IH]; intros [|y b] [|z c]; simpl;
    try discriminate; auto.
  intros H1 H2.
  apply orb_true_iff in H1. apply orb_true_iff in H2. apply orb_true_iff.
  destruct H1 as [H1|H1], H2 as [H2|H2].
  - left. apply Z.ltb_lt in H1, H2. apply Z.ltb_lt. lia.
  - apply andb_true_iff in H2 as [H2 _]. apply Z.eqb_eq in H2. subst.
    now left.
  - apply andb_true_iff in H1 as [H1 _]. apply Z.eqb_eq in H1. subst.
    now left.
  - apply andb_true_iff in H1 as [E1 L1]. apply andb_true_iff in H2 as [E2 L2].
    apply Z.eqb_eq in E1, E2. subst. right.
    rewrite Z.eqb_refl. simpl. eapply IH; eauto.
Qed.

Lemma str_ltb_total (a b : str) :
  str_ltb a b = false -> str_ltb b a = false -> a = b.
Proof.
  revert b; induction a as [|x a IH]; intros [|y b]; simpl;
    try discriminate; auto.
  intros H1 H2.
  apply orb_false_iff in H1 as [L1 R1]. apply orb_false_iff in H2 as [L2 R2].
  apply Z.ltb_ge in L1, L2. assert (x = y) by lia. subst.
  rewrite Z.eqb_refl in R1, R2. simpl in R1, R2.
  f_equal. now apply IH.
Qed.

Section ProprietesDict.
Context {B : Builtins}.

Lemma dict_get_In (k : str) (d : dict) :
  dict_get k d <> None <-> In k (keys d).
Proof.
  induction d as [|[k' v] d IH]; simpl.
  - split; [congruence | tauto].
  - destruct (str_eqb k' k) eqn:E.
    + apply str_eqb_eq in E. split; [auto | discriminate].
    + apply str_eqb_neq in E. rewrite IH. split; [auto | intros [?|?]; tauto].
Qed.

Lemma dict_get_None (k : str) (d : dict) :
  dict_get k d = None <-> ~ In k (keys d).
Proof.
  rewrite <- dict_get_In. destruct (dict_get k d); split; try congruence.
  intros H. exfalso. apply H. discriminate.
Qed.

Lemma dict_get_set (k k' : str) (v : jval) (d : dict) :
  dict_get k (dict_set k' v d)
  = if str_eqb k' k then Some v else dict_get k d.
Proof.
  induction d as [|[k0 v0] d IH]; simpl.
  - reflexivity.
  - destruct (str_eqb k0 k') eqn:E0; simpl.
    + apply str_eqb_eq in E0. subst k0.
      destruct (str_eqb k' k); reflexivity.
    + destruct (str_eqb k0 k) eqn:E1.
      * apply str_eqb_eq in E1. subst k0.
        now rewrite (proj2 (str_eqb_neq k' k))
          by (apply str_eqb_neq in E0; congruence).
      * exact IH.
Qed.

(** Storing under an absent key appends the item. *)
Lemma dict_set_absent (k : str) (v : jval) (d : dict) :
  ~ In k (keys d) -> dict_set k v d = d ++ [(k, v)].
Proof.
  induction d as [|[k0 v0] d IH]; simpl; intros H; [reflexivity|].
  rewrite (proj2 (str_eqb_neq k0 k)) by tauto.
  rewrite IH by tauto. reflexivity.
Qed.

Lemma keys_dict_set (k : str) (v : jval) (d : dict) :
  forall x, In x (keys (dict_set k v d)) <-> x = k \/ In x (keys d).
Proof.
  intros x. induction d as [|[k0 v0] d IH]; simpl.
  - split; intros [?|?]; auto; tauto.
  - destruct (str_eqb k0 k) eqn:E; simpl.
    + apply str_eqb_eq in E. subst. intuition congruence.
    + rewrite IH. tauto.
Qed.

Lemma NoDup_keys_dict_set (k : str) (v : jval) (d : dict) :
  NoDup (keys d) -> NoDup (keys (dict_set k v d)).
Proof.
  induction d as [|[k0 v0] d IH]; simpl; intros H.
  - constructor; [tauto | constructor].
  - inversion H as [|? ? Hn Hd]; subst.
    destruct (str_eqb k0 k) eqn:E; simpl.
    + constructor; assumption.
    + constructor; [|auto]. rewrite keys_dict_set. apply str_eqb_neq in E.
      intros [->|?]; tauto.
Qed.

Lemma dict_sans_absent (k : str) (d : dict) :
  ~ In k (keys d) -> dict_sans k d = d.
Proof.
  unfold dict_sans. induction d as [|[k0 v0] d IH]; simpl; intros H;
    [reflexivity|].
  rewrite (proj2 (str_eqb_neq k0 k)) by tauto. simpl.
  rewrite IH by tauto. reflexivity.
Qed.

Lemma dict_sans_dernier (k : str) (v : jval) (d : dict) :
  ~ In k (keys d) -> dict_sans k (d ++ [(k, v)]) = d.
Proof.
  intros H. unfold dict_sans. rewrite filter_app. simpl.
  rewrite str_eqb_refl. simpl. rewrite app_nil_r.
  now apply dict_sans_absent.
Qed.

(** ** Sorting by key *)

Lemma dict_get_insert_item (k : str) (kv : str * jval) (l : dict) :
  dict_get k (insert_item kv l)
  = if str_eqb (fst kv) k then Some (snd kv) else dict_get k l.
Proof.
  destruct kv as [k0 v0]. simpl.
  induction l as [|[k1 v1] l IH]; simpl; [reflexivity|].
  destruct (str_ltb k1 k0) eqn:L; simpl; [|reflexivity].
  destruct (str_eqb k1 k) eqn:E1.
  - apply str_eqb_eq in E1. subst k1.
    destruct (str_eqb k0 k) eqn:E0; [|reflexivity].
    apply str_eqb_eq in E0. subst. now rewrite str_ltb_irrefl in L.
  - exact IH.
Qed.

Lemma dict_get_sorted_items (k : str) (d : dict) :
  dict_get k (sorted_items d) = dict_get k d.
Proof.
  induction d as [|[k0 v0] d IH]; simpl; [reflexivity|].
  rewrite dict_get_insert_item. simpl. now rewrite IH.
Qed.

Lemma In_insert_item (x kv : str * jval) (l : dict) :
  In x (insert_item kv l) <-> x = kv \/ In x l.
Proof.
  induction l as [|a l IH]; simpl.
  - split; intros [?|?]; auto; tauto.
  - destruct (str_ltb (fst a) (fst kv)); simpl.
    + rewrite IH. split; intros [?|[?|?]]; auto.
    + split; intros [?|[?|?]]; auto.
Qed.

Lemma In_sorted_items (x : str * jval) (d : dict) :
  In x (sorted_items d) <-> In x d.
Proof.
  induction d as [|a d IH]; simpl; [tauto|].
  rewrite In_insert_item, IH. split; intros [?|?]; auto.
Qed.

Lemma insert_item_sorted (kv : str * jval) (l : dict) :
  ~ In (fst kv) (keys l) ->
  StronglySorted avant l -> StronglySorted avant (insert_item kv l).
Proof.
  intros Hn Hs. induction Hs as [|a l Hs IH Ha]; simpl.
  - repeat constructor.
  - simpl in Hn. destruct (str_ltb (fst a) (fst kv)) eqn:L.
    + constructor; [apply IH; tauto|].
      apply Forall_forall. intros x Hx. apply In_insert_item in Hx.
      destruct Hx as [->|Hx]; [exact L|].
      rewrite Forall_forall in Ha. now apply Ha.
    + assert (Hlt : str_ltb (fst kv) (fst a) = true).
      { destruct (str_ltb (fst kv) (fst a)) eqn:L'; [reflexivity|].
        exfalso. apply Hn. left. now apply str_ltb_total. }
      constructor; [constructor; assumption|].
      constructor; [exact Hlt|].
      rewrite Forall_forall in Ha |- *. intros x Hx.
      eapply str_ltb_trans; [exact Hlt | now apply Ha].
Qed.

Lemma sorted_items_sorted (d : dict) :
  NoDup (keys d) -> StronglySorted avant (sorted_items d).
Proof.
  induction d as [|[k v] d IH]; simpl; intros H.
  - constructor.
  - inversion H as [|? ? Hn Hd]; subst.
    apply insert_item_sorted; [|auto]. simpl.
    rewrite <- dict_get_In, dict_get_sorted_items, dict_get_In. exact Hn.
Qed.

(** A key below the head of a sorted list is not in the list. *)
Lemma dict_get_sous_tete (k : str) (a : str * jval) (l : dict) :
  str_ltb k (fst a) = true -> Forall (avant a) l -> dict_get k (a :: l) = None.
Proof.
  intros L Ha. apply dict_get_None. simpl. intros [E|Hin].
  - subst k. now rewrite str_ltb_irrefl in L.
  - apply in_map_iff in Hin as [x [Hk Hin]]. subst k.
    rewrite Forall_forall in Ha. specialize (Ha _ Hin). unfold avant in Ha.
    pose proof (str_ltb_trans _ _ _ L Ha) as C.
    now rewrite str_ltb_irrefl in C.
Qed.

Lemma dict_get_apres_tete (a : str * jval) (l : dict) :
  Forall (avant a) l -> dict_get (fst a) l = None.
Proof.
  intros Ha. apply dict_get_None. intros Hin.
  apply in_map_iff in Hin as [x [Hk Hin]].
  rewrite Forall_forall in Ha. specialize (Ha _ Hin). unfold avant in Ha.
  rewrite Hk in Ha. now rewrite str_ltb_irrefl in Ha.
Qed.

(** Two strictly sorted association lists with the same look-ups are the
    same list. *)
Lemma sorted_unique (l1 l2 : dict) :
  StronglySorted avant l1 -> StronglySorted avant l2 ->
  (forall k, dict_get k l1 = dict_get k l2) -> l1 = l2.
Proof.
  intros H1. revert l2.
  induction H1 as [|[k1 v1] l1 Hs1 IH Ha1]; intros l2 H2 Hget.
  - destruct l2 as [|[k2 v2] l2]; [reflexivity|].
    specialize (Hget k2). simpl in Hget. rewrite str_eqb_refl in Hget.
    discriminate.
  - destruct H2 as [|[k2 v2] l2 Hs2 Ha2].
    + specialize (Hget k1). simpl in Hget. rewrite str_eqb_refl in Hget.
      discriminate.
    + assert (Hk : k1 = k2).
      { apply str_ltb_total.
        - destruct (str_ltb k1 k2) eqn:L; [|reflexivity]. exfalso.
          specialize (Hget k1).
          rewrite (dict_get_sous_tete k1 (k2, v2) l2 L Ha2) in Hget.
          simpl in Hget. rewrite str_eqb_refl in Hget. discriminate.
        - destruct (str_ltb k2 k1) eqn:L; [|reflexivity]. exfalso.
          specialize (Hget k2).
          rewrite (dict_get_sous_tete k2 (k1, v1) l1 L Ha1) in Hget.
          simpl in Hget. rewrite str_eqb_refl in Hget. discriminate. }
      subst k2.
      assert (Hv : v1 = v2).
      { specialize (Hget k1). simpl in Hget. rewrite str_eqb_refl in Hget.
        congruence. }
      subst v2. f_equal. apply IH; [assumption|].
      intros k. specialize (Hget k). simpl in Hget.
      destruct (str_eqb k1 k) eqn:E; [|exact Hget].
      apply str_eqb_eq in E. subst k.
      pose proof (dict_get_apres_tete (k1, v1) l1 Ha1) as E1.
      pose proof (dict_get_apres_tete (k1, v1) l2 Ha2) as E2.
      simpl in E1, E2. congruence.
Qed.

End ProprietesDict.

(* ================================================================== *)
(** * Properties: encoding and digests *)
(* ================================================================== *)

Example sha256_abc :
  Sha256.hexdigest [97; 98; 99]
  = lit "ba7816bf8f01cfea414140de5dae2223b00361a396177a9cb410ff61f20015ad".
Proof. vm_compute. reflexivity. Qed.

Example sha256_vide :
  Sha256.hexdigest []
  = lit "e3b0c44298fc1c149afbf4c8996fb92427ae41e4649b934ca495991b7852b855".
Proof. vm_compute. reflexivity. Qed.

Example sha256_deux_blocs :
  Sha256.hexdigest
    (octets_of_string "abcdbcdecdefdefgefghfghighijhijkijkljklmklmnlmnomnopnopq")
  = lit "248d6a61d20638b8e5c026930c3e6039a33ce45964ff2167f6ecedd419db06c1".
Proof. vm_compute. reflexivity. Qed.

Lemma hex_digit_minuscule (n : Z) :
  0 <= n < 16 -> hex_minuscule (Sha256.hex_digit n) = true.
Proof.
  intros H. unfold hex_minuscule, Sha256.hex_digit, ascii_digit.
  destruct (n <? 10) eqn:E.
  - apply Z.ltb_lt in E. apply orb_true_iff. left.
    apply andb_true_iff. split; apply Z.leb_le; lia.
  - apply Z.ltb_ge in E. apply orb_true_iff. right.
    apply andb_true_iff. split; apply Z.leb_le; lia.
Qed.

Lemma hex_word_length (n : nat) (x : Z) :
  List.length (Sha256.hex_word n x) = n.
Proof. induction n; simpl; congruence. Qed.

Lemma hex_word_minuscule (n : nat) (x : Z) :
  forallb hex_minuscule (Sha256.hex_word n x) = true.
Proof.
  induction n as [|n IH]; simpl; [reflexivity|].
  rewrite IH, andb_true_r. apply hex_digit_minuscule.
  apply Z.mod_pos_bound. lia.
Qed.

(** A digest is always sixty-four lowercase hexadecimal characters. *)
Lemma hexdigest_forme (m : bytes) :
  len (Sha256.hexdigest m) = 64
  /\ forallb hex_minuscule (Sha256.hexdigest m) = true.
Proof.
  unfold Sha256.hexdigest, Sha256.hex_state, len. split.
  - rewrite !length_app, !hex_word_length. reflexivity.
  - rewrite !forallb_app, !hex_word_minuscule. reflexivity.
Qed.

Lemma encode_utf8_app (a b : str) :
  encode_utf8 (a ++ b)
  = match encode_utf8 a, encode_utf8 b with
    | Some x, Some y => Some (x ++ y)
    | _, _ => None
    end.
Proof.
  induction a as [|c a IH]; simpl.
  - destruct (encode_utf8 b); reflexivity.
  - rewrite IH. destruct (utf8_char c); [|reflexivity].
    destruct (encode_utf8 a); [|reflexivity].
    destruct (encode_utf8 b); [|reflexivity].
    now rewrite app_assoc.
Qed.

Lemma utf8_char_scalaire (c : Z) :
  scalaire c = true -> exists o, utf8_char c = Some o.
Proof.
  unfold scalaire, utf8_char. intros H.
  apply andb_true_iff in H as [H H3]. apply andb_true_iff in H as [H1 H2].
  apply Z.leb_le in H1. apply Z.ltb_lt in H2.
  rewrite (proj2 (Z.ltb_ge c 0)) by lia.
  destruct (c <? 128); [eauto|].
  destruct (c <? 2048); [eauto|].
  destruct (c <? 65536).
  - apply negb_true_iff in H3. rewrite H3. eauto.
  - rewrite (proj2 (Z.ltb_lt c 1114112)) by lia. eauto.
Qed.

(** Text made of scalar values always encodes. *)
Lemma encode_utf8_total (s : str) :
  texte_unicode s = true -> exists o, encode_utf8 s = Some o.
Proof.
  induction s as [|c s IH]; simpl; intros H; [eauto|].
  apply andb_true_iff in H as [Hc Hs].
  destruct (utf8_char_scalaire c Hc) as [o ->].
  destruct (IH Hs) as [o' ->]. eauto.
Qed.

Section ProprietesJson.
Context {B : Builtins}.

Lemma texte_unicode_app (a b : str) :
  texte_unicode (a ++ b) = texte_unicode a && texte_unicode b.
Proof. apply forallb_app. Qed.

Lemma hex_minuscule_scalaire (c : Z) :
  hex_minuscule c = true -> scalaire c = true.
Proof.
  unfold hex_minuscule, ascii_digit, scalaire. intros H.
  apply orb_true_iff in H as [H|H]; apply andb_true_iff in H as [H1 H2];
    apply Z.leb_le in H1, H2;
    rewrite (proj2 (Z.leb_le 0 c)), (proj2 (Z.ltb_lt c 1114112)),
      (proj2 (Z.leb_gt 55296 c)) by lia; reflexivity.
Qed.

Lemma json_escape_unicode (c : Z) :
  scalaire c = true -> texte_unicode (json_escape c) = true.
Proof.
  intros Hc. unfold json_escape.
  repeat match goal with
         | |- context [if ?b then _ else _] => destruct b eqn:?
         end; try reflexivity.
  - match goal with
    | H : (_ && _)%bool = true |- _ =>
      apply andb_true_iff in H as [H1 H2]; apply Z.leb_le in H1, H2
    end.
    simpl. rewrite !hex_minuscule_scalaire; [reflexivity| |].
    + apply hex_digit_minuscule. apply Z.mod_pos_bound. lia.
    + apply hex_digit_minuscule. split.
      * apply Z.div_pos; lia.
      * apply Z.div_lt_upper_bound; lia.
  - simpl. now rewrite Hc.
Qed.

Lemma json_str_unicode (s : str) :
  texte_unicode s = true -> texte_unicode (json_str s) = true.
Proof.
  intros H. unfold json_str.
  change (34 :: flat_map json_escape s ++ [34])
    with ([34] ++ flat_map json_escape s ++ [34]).
  rewrite !texte_unicode_app. simpl. rewrite andb_true_r.
  induction s as [|c s IH]; simpl; [reflexivity|].
  simpl in H. apply andb_true_iff in H as [Hc Hs].
  rewrite texte_unicode_app, (json_escape_unicode c Hc). simpl. now apply IH.
Qed.

Lemma json_item_unicode (kv : str * jval) :
  texte_unicode (fst kv) && jval_unicode (snd kv) = true ->
  texte_unicode (json_item kv) = true.
Proof.
  intros H. apply andb_true_iff in H as [Hk Hv]. unfold json_item.
  rewrite !texte_unicode_app, (json_str_unicode _ Hk). simpl.
  destruct (snd kv); simpl in *; [now apply json_str_unicode | exact Hv].
Qed.

Lemma join_str_unicode (sep : str) (parts : list str) :
  texte_unicode sep = true -> forallb texte_unicode parts = true ->
  texte_unicode (join_str sep parts) = true.
Proof.
  intros Hsep. induction parts as [|p r IH]; simpl; intros H; [reflexivity|].
  apply andb_true_iff in H as [Hp Hr]. destruct r as [|q r]; [exact Hp|].
  rewrite !texte_unicode_app, Hp, Hsep. simpl. now apply IH.
Qed.

Lemma json_dumps_sorted_unicode (d : dict) :
  dict_unicode d = true -> texte_unicode (json_dumps_sorted d) = true.
Proof.
  intros H. unfold json_dumps_sorted.
  rewrite !texte_unicode_app. simpl. rewrite andb_true_r.
  apply join_str_unicode; [reflexivity|].
  apply forallb_forall. intros t Hin.
  apply in_map_iff in Hin as [kv [<- Hin]].
  apply json_item_unicode. apply (proj1 (In_sorted_items _ _)) in Hin.
  unfold dict_unicode in H. rewrite forallb_forall in H.
  exact (H kv Hin).
Qed.

(** The canonical text of a dictionary depends on its mapping only. *)
Lemma sorted_items_ext (d1 d2 : dict) :
  NoDup (keys d1) -> NoDup (keys d2) ->
  (forall k, dict_get k d1 = dict_get k d2) ->
  sorted_items d1 = sorted_items d2.
Proof.
  intros N1 N2 H. apply sorted_unique.
  - now apply sorted_items_sorted.
  - now apply sorted_items_sorted.
  - intros k. now rewrite !dict_get_sorted_items.
Qed.

(** C1: two records with the same field-to-value mapping, whatever the
    order in which their keys were inserted, have the same canonical text,
    hence the same octets and the same result of [calculer_hash_json];
    and when the text of the record is encodable Unicode the digest exists
    and is sixty-four lowercase hexadecimal characters, the same for both
    (and the same at every call, [calculer_hash_json] being a function). *)
Theorem canonicalisation_independante_de_l_ordre (d1 d2 : dict) :
  NoDup (keys d1) -> NoDup (keys d2) ->
  (forall k, dict_get k d1 = dict_get k d2) ->
  json_dumps_sorted d1 = json_dumps_sorted d2
  /\ encode_utf8 (json_dumps_sorted d1) = encode_utf8 (json_dumps_sorted d2)
  /\ calculer_hash_json d1 = calculer_hash_json d2
  /\ (dict_unicode d1 = true ->
      exists h, calculer_hash_json d1 = Some h
                /\ calculer_hash_json d2 = Some h
                /\ len h = 64 /\ forallb hex_minuscule h = true).
Proof.
  intros N1 N2 H.
  assert (E : json_dumps_sorted d1 = json_dumps_sorted d2).
  { unfold json_dumps_sorted. now rewrite (sorted_items_ext d1 d2). }
  repeat split.
  - exact E.
  - now rewrite E.
  - unfold calculer_hash_json. now rewrite E.
  - intros U. unfold calculer_hash_json. rewrite <- E.
    destruct (encode_utf8_total _ (json_dumps_sorted_unicode d1 U)) as [o ->].
    exists (Sha256.hexdigest o).
    destruct (hexdigest_forme o) as [Hl Hh]. auto.
Qed.

End ProprietesJson.

Section ExempleJson.
Local Existing Instance Exemple.runtime.

(** The two insertion orders of one mapping, on the concrete runtime. *)
Lemma canonicalisation_temoin :
  let d1 := [ (lit "b", JStr (lit "1")); (lit "a", JStr (lit "2")) ] in
  let d2 := [ (lit "a", JStr (lit "2")); (lit "b", JStr (lit "1")) ] in
  json_dumps_sorted d1 = json_dumps_sorted d2
  /\ encode_utf8 (json_dumps_sorted d1) = encode_utf8 (json_dumps_sorted d2)
  /\ calculer_hash_json d1 = calculer_hash_json d2
  /\ (dict_unicode d1 = true ->
      exists h, calculer_hash_json d1 = Some h
                /\ calculer_hash_json d2 = Some h
                /\ len h = 64 /\ forallb hex_minuscule h = true).
Proof.
  apply (@canonicalisation_independante_de_l_ordre Exemple.runtime).
  - repeat constructor; simpl; intuition discriminate.
  - repeat constructor; simpl; intuition discriminate.
  - intros k. cbn [dict_get].
    destruct (str_eqb (lit "b") k) eqn:Eb, (str_eqb (lit "a") k) eqn:Ea;
      try reflexivity.
    apply str_eqb_eq in Eb, Ea. subst k. discriminate.
Defined.

End ExempleJson.

(* ================================================================== *)
(** * Properties: field validation *)
(* ================================================================== *)

Section ProprietesValidation.
Context {B : Builtins}.

(** The branch taken for each format name. *)
Lemma valider_format_16 (v : pyval) (nom : str) :
  valider_format (Some v) (lit "16_chiffres") nom
  = valider_chiffres 16 (str_of v) nom.
Proof. reflexivity. Qed.

Lemma valider_format_12 (v : pyval) (nom : str) :
  valider_format (Some v) (lit "12_chiffres") nom
  = valider_chiffres 12 (str_of v) nom.
Proof. reflexivity. Qed.

Lemma valider_format_lettres (v : pyval) (nom : str) :
  valider_format (Some v) (lit "lettres") nom
  = match sub_non_lettres (str_of v) with
    | [] => (false, JStr (msg_lettres nom (str_of v)))
    | _ => (true, JStr (strip (sub_non_lettres (str_of v))))
    end.
Proof. reflexivity. Qed.

Lemma valider_format_nombre (v : pyval) (nom : str) :
  valider_format (Some v) (lit "nombre") nom
  = match float_of_str (str_of v) with
    | Some x => (true, JNum x)
    | None => (false, JStr (msg_nombre nom (str_of v)))
    end.
Proof. reflexivity. Qed.

Lemma valider_format_date (v : pyval) (nom : str) :
  valider_format (Some v) (lit "date") nom = valider_date (str_of v) nom.
Proof. reflexivity. Qed.

Lemma valider_format_texte (v : pyval) (nom : str) :
  valider_format (Some v) (lit "texte") nom
  = if est_vide (str_of v) || est_vide (strip (str_of v))
    then (false, JStr (msg_vide nom))
    else (true, JStr (str_of v)).
Proof. reflexivity. Qed.

(** ** Digit strings *)

Lemma isdigit_spec (s : str) :
  isdigit s = true <-> s <> [] /\ Forall (fun c => ch_isdigit c = true) s.
Proof.
  destruct s as [|c s].
  - simpl. split; [discriminate | intros [H _]; now elim H].
  - unfold isdigit. rewrite forallb_forall, Forall_forall.
    split; [intros H; split; [discriminate | exact H] | tauto].
Qed.

Lemma msg_chiffres_n_est_pas_msg_longueur (nom s : str) (n : Z) :
  msg_chiffres nom s <> msg_longueur nom n s.
Proof.
  unfold msg_chiffres, msg_longueur. intros H.
  apply app_inv_head in H. apply app_inv_head in H.
  vm_compute in H. discriminate.
Qed.

(** C7, amended: on the string form [s] of the value, the sixteen-digit
    format succeeds exactly when [s] is a non-empty string of digits (in
    the sense of [str.isdigit]) of length sixteen, and then returns [s]
    unchanged; a digit string of another length fails with the message
    that states the expected and the actual length; a string that is empty
    or holds a non-digit fails with the message that quotes the text
    received, which is a different message. *)
Theorem identifiant_seize_chiffres (v : pyval) (nom : str) :
  (fst (valider_format (Some v) (lit "16_chiffres") nom) = true
   <-> str_of v <> [] /\ Forall (fun c => ch_isdigit c = true) (str_of v)
       /\ len (str_of v) = 16)
  /\ (fst (valider_format (Some v) (lit "16_chiffres") nom) = true ->
      valider_format (Some v) (lit "16_chiffres") nom
      = (true, JStr (str_of v)))
  /\ (isdigit (str_of v) = true -> len (str_of v) <> 16 ->
      valider_format (Some v) (lit "16_chiffres") nom
      = (false, JStr (msg_longueur nom 16 (str_of v))))
  /\ (isdigit (str_of v) = false ->
      valider_format (Some v) (lit "16_chiffres") nom
      = (false, JStr (msg_chiffres nom (str_of v)))
      /\ msg_chiffres nom (str_of v) <> msg_longueur nom 16 (str_of v)).
Proof.
  rewrite valider_format_16. unfold valider_chiffres.
  destruct (isdigit (str_of v)) eqn:D; simpl.
  - apply isdigit_spec in D as [Hne Hall].
    destruct (len (str_of v) =? 16) eqn:L; simpl.
    + apply Z.eqb_eq in L. repeat split; auto; try discriminate.
      intros _ C. contradiction.
    + apply Z.eqb_neq in L. repeat split; auto; try discriminate.
      intros (_ & _ & C). contradiction.
  - repeat split; try discriminate.
    + intros (Hne & Hall & _).
      assert (isdigit (str_of v) = true) by (apply isdigit_spec; auto).
      congruence.
    + apply msg_chiffres_n_est_pas_msg_longueur.
Qed.

(** ** Whitespace *)

Lemma lstrip_blanc (s : str) : forallb isspace s = true -> lstrip s = [].
Proof.
  induction s as [|c s IH]; simpl; [reflexivity|].
  intros H. apply andb_true_iff in H as [-> Hs]. now apply IH.
Qed.

Lemma strip_blanc (s : str) : forallb isspace s = true -> strip s = [].
Proof. intros H. unfold strip. now rewrite lstrip_blanc. Qed.

(** C8, at the inputs where it fails: when what remains of the value
    after the non-letters are removed is not empty but is whitespace only,
    the letters-only format succeeds and its canonical value is the empty
    string. *)
Theorem lettres_residu_blanc (v : pyval) (nom : str) :
  sub_non_lettres (str_of v) <> [] ->
  forallb isspace (sub_non_lettres (str_of v)) = true ->
  valider_format (Some v) (lit "lettres") nom = (true, JStr []).
Proof.
  intros Hne Hsp. rewrite valider_format_lettres.
  destruct (sub_non_lettres (str_of v)) as [|c r] eqn:E; [now elim Hne|].
  now rewrite strip_blanc.
Qed.

End ProprietesValidation.

Section ExemplesValidation.
Local Existing Instance Exemple.runtime.

(** C7, as stated, fails on a value holding a non-digit: the message does
    not state the lengths. *)
Lemma identifiant_non_numerique_sans_longueur :
  valider_format (Some (PStr (lit "12a"))) (lit "16_chiffres") (lit "ID")
  = (false,
     JStr (lit "'ID' doit contenir uniquement des chiffres, reçu: '12a'"))
  /\ valider_format (Some (PStr (lit "12a"))) (lit "16_chiffres") (lit "ID")
     <> (false, JStr (msg_longueur (lit "ID") 16 (lit "12a"))).
Proof. split; [reflexivity | vm_compute; discriminate]. Qed.

Lemma identifiant_seize_chiffres_temoin :
  valider_format (Some (PStr (lit "1111111111111111")))
                 (lit "16_chiffres") (lit "ID")
  = (true, JStr (lit "1111111111111111"))
  /\ valider_format (Some (PStr (lit "12345"))) (lit "16_chiffres") (lit "ID")
     = (false,
        JStr (lit "'ID' doit contenir exactement 16 chiffres, reçu: 5 chiffres")).
Proof.
  split.
  - apply (proj1 (proj2 (identifiant_seize_chiffres
                           (PStr (lit "1111111111111111")) (lit "ID")))).
    reflexivity.
  - apply (proj1 (proj2 (proj2 (identifiant_seize_chiffres
                                  (PStr (lit "12345")) (lit "ID"))))).
    + reflexivity.
    + vm_compute. discriminate.
Defined.

(** The failing input of C8: digits around one space. *)
Lemma lettres_residu_blanc_temoin :
  valider_format (Some (PStr (lit "12 34"))) (lit "lettres") (lit "NOM")
  = (true, JStr []).
Proof.
  apply lettres_residu_blanc.
  - vm_compute. discriminate.
  - reflexivity.
Defined.

End ExemplesValidation.

(* ================================================================== *)
(** * Properties: dates *)
(* ================================================================== *)

Section ProprietesDates.
Context {B : Builtins}.

Lemma ascii_digit_bornes (c : Z) : ascii_digit c = true <-> 48 <= c <= 57.
Proof.
  unfold ascii_digit. rewrite andb_true_iff, !Z.leb_le. tauto.
Qed.

Lemma ascii_digit_pas_blanc (c : Z) : ascii_digit c = true -> isspace c = false.
Proof.
  intros H. apply ascii_digit_bornes in H. unfold isspace.
  repeat match goal with
         | |- context [?a <=? ?b] =>
           destruct (Z.leb_spec a b); try lia
         | |- context [?a =? ?b] =>
           destruct (Z.eqb_spec a b); try lia
         end; reflexivity.
Qed.

Lemma chiffres_ascii (k : nat) (n : Z) :
  forallb ascii_digit (chiffres k n) = true.
Proof.
  induction k as [|k IH]; cbn [chiffres forallb]; [reflexivity|].
  rewrite IH, andb_true_r. apply ascii_digit_bornes.
  match goal with
  | |- context [?x mod 10] =>
    pose proof (Z.mod_pos_bound x 10 ltac:(lia))
  end. lia.
Qed.

Lemma replace_char_chiffres (o n : Z) (s : str) :
  forallb ascii_digit s = true -> ascii_digit o = false ->
  replace_char o n s = s.
Proof.
  intros Hs Ho. induction s as [|c s IH]; simpl; [reflexivity|].
  simpl in Hs. apply andb_true_iff in Hs as [Hc Hs].
  destruct (Z.eqb_spec c o) as [->|_]; [congruence|].
  f_equal. now apply IH.
Qed.

Lemma replace_char_app (o n : Z) (a b : str) :
  replace_char o n (a ++ b) = replace_char o n a ++ replace_char o n b.
Proof. apply map_app. Qed.

(** Whatever the two separators, the cleaned text has spaces. *)
Lemma date_clean_composantes (jour mois annee : str) (s1 s2 : Z) :
  forallb ascii_digit jour = true -> forallb ascii_digit mois = true ->
  forallb ascii_digit annee = true ->
  separateur s1 = true -> separateur s2 = true ->
  replace_char 47 32
    (replace_char 45 32 (jour ++ [s1] ++ mois ++ [s2] ++ annee))
  = jour ++ [32] ++ mois ++ [32] ++ annee.
Proof.
  intros Hj Hm Ha H1 H2.
  assert (Hsep : forall c, separateur c = true ->
            replace_char 47 32 (replace_char 45 32 [c]) = [32]).
  { intros c Hc. unfold separateur in Hc.
    apply orb_true_iff in Hc as [Hc|Hc];
      [apply orb_true_iff in Hc as [Hc|Hc]|];
      apply Z.eqb_eq in Hc; subst c; reflexivity. }
  rewrite !replace_char_app, (Hsep s1 H1), (Hsep s2 H2).
  rewrite !(replace_char_chiffres 45), !(replace_char_chiffres 47)
    by (assumption || reflexivity).
  reflexivity.
Qed.

(** ** [split] on words *)

Lemma split_aux_mot (w cur reste : str) :
  forallb ascii_digit w = true ->
  split_aux cur (w ++ reste) = split_aux (rev w ++ cur) reste.
Proof.
  revert cur. induction w as [|c w IH]; intros cur H; simpl; [reflexivity|].
  simpl in H. apply andb_true_iff in H as [Hc Hw].
  rewrite (ascii_digit_pas_blanc c Hc), IH by assumption.
  now rewrite <- app_assoc.
Qed.

Lemma split_aux_espace (cur reste : str) :
  cur <> [] -> split_aux cur (32 :: reste) = rev cur :: split_aux [] reste.
Proof. intros H. simpl. destruct cur; [now elim H | reflexivity]. Qed.

Lemma split_trois_mots (a b c : str) :
  a <> [] -> b <> [] -> c <> [] ->
  forallb ascii_digit a = true -> forallb ascii_digit b = true ->
  forallb ascii_digit c = true ->
  split (a ++ [32] ++ b ++ [32] ++ c) = [a; b; c].
Proof.
  intros Na Nb Nc Ha Hb Hc.
  assert (Hrev : forall w : str, w <> [] -> rev w ++ [] <> []).
  { intros w Hw E. rewrite app_nil_r in E.
    apply (f_equal (@rev Z)) in E. rewrite rev_involutive in E. auto. }
  change (split_aux [] (a ++ 32 :: b ++ 32 :: c) = [a; b; c]).
  rewrite (split_aux_mot a), split_aux_espace by auto.
  rewrite (split_aux_mot b), split_aux_espace by auto.
  replace c with (c ++ []) at 1 by apply app_nil_r.
  rewrite (split_aux_mot c) by assumption. simpl.
  rewrite !app_nil_r, !rev_involutive.
  destruct (rev c) eqn:E; [|reflexivity].
  apply (f_equal (@rev Z)) in E. rewrite rev_involutive in E. now elim Nc.
Qed.

(** ** [int] on digit strings *)

Lemma int_digits_chiffres (s : str) (acc : Z) :
  forallb ascii_digit s = true ->
  int_digits acc true s
  = Some (fold_left (fun a c => 10 * a + (c - 48)) s acc).
Proof.
  revert acc. induction s as [|c s IH]; intros acc H; simpl; [reflexivity|].
  simpl in H. apply andb_true_iff in H as [Hc Hs].
  pose proof (proj1 (ascii_digit_bornes c) Hc) as Hb.
  destruct (Z.eqb_spec c 95); [lia|].
  unfold decimal_value. destruct (Z.ltb_spec c 128); [|lia].
  rewrite Hc. now apply IH.
Qed.

Lemma lstrip_chiffres (s : str) :
  forallb ascii_digit s = true -> lstrip s = s.
Proof.
  destruct s as [|c s]; simpl; [reflexivity|]. intros H.
  apply andb_true_iff in H as [Hc _].
  now rewrite (ascii_digit_pas_blanc c Hc).
Qed.

Lemma strip_chiffres (s : str) :
  forallb ascii_digit s = true -> strip s = s.
Proof.
  intros H. unfold strip, rstrip. rewrite (lstrip_chiffres s H).
  rewrite lstrip_chiffres, rev_involutive; [reflexivity|].
  rewrite forallb_forall in H |- *. intros x Hx. apply H.
  now apply in_rev.
Qed.

Lemma py_int_chiffres (s : str) :
  s <> [] -> forallb ascii_digit s = true ->
  py_int s = Some (valeur_decimale s).
Proof.
  intros Hne H. unfold py_int. rewrite (strip_chiffres s H).
  destruct s as [|c s]; [now elim Hne|].
  pose proof H as H'. simpl in H'. apply andb_true_iff in H' as [Hc Hs].
  pose proof (proj1 (ascii_digit_bornes c) Hc) as Hb.
  destruct (Z.eqb_spec c 43); [lia|]. destruct (Z.eqb_spec c 45); [lia|].
  simpl. destruct (Z.eqb_spec c 95); [lia|].
  unfold decimal_value. destruct (Z.ltb_spec c 128); [|lia].
  rewrite Hc. unfold valeur_decimale. simpl.
  now apply int_digits_chiffres.
Qed.

(** Three digit strings that name a date, joined by any two separators,
    validate to the same strings joined by spaces. *)
Lemma valider_date_composantes (jour mois annee : str) (s1 s2 : Z)
  (nom : str) :
  jour <> [] -> mois <> [] -> annee <> [] ->
  forallb ascii_digit jour = true -> forallb ascii_digit mois = true ->
  forallb ascii_digit annee = true ->
  separateur s1 = true -> separateur s2 = true ->
  datetime_ok (valeur_decimale annee) (valeur_decimale mois)
              (valeur_decimale jour) = true ->
  valider_date (jour ++ [s1] ++ mois ++ [s2] ++ annee) nom
  = (true, JStr (jour ++ [32] ++ mois ++ [32] ++ annee)).
Proof.
  intros Nj Nm Na Hj Hm Ha H1 H2 Hd. unfold valider_date.
  rewrite date_clean_composantes, split_trois_mots by assumption.
  rewrite !py_int_chiffres by assumption. now rewrite Hd.
Qed.

Lemma valeur_chiffres_2 (n : Z) :
  0 <= n < 100 -> valeur_decimale (chiffres 2 n) = n.
Proof.
  intros H. unfold valeur_decimale, chiffres, fold_left.
  change (10 ^ Z.of_nat 1) with 10. change (10 ^ Z.of_nat 0) with 1.
  Z.to_euclidean_division_equations. lia.
Qed.

Lemma valeur_chiffres_4 (n : Z) :
  0 <= n < 10000 -> valeur_decimale (chiffres 4 n) = n.
Proof.
  intros H. unfold valeur_decimale, chiffres, fold_left.
  change (10 ^ Z.of_nat 3) with 1000. change (10 ^ Z.of_nat 2) with 100.
  change (10 ^ Z.of_nat 1) with 10. change (10 ^ Z.of_nat 0) with 1.
  Z.to_euclidean_division_equations. lia.
Qed.

Lemma datetime_ok_bornes (a m j : Z) :
  datetime_ok a m j = true ->
  1 <= a <= 9999 /\ 1 <= m <= 12 /\ 1 <= j <= 31.
Proof.
  unfold datetime_ok, days_in_month. intros H.
  repeat (apply andb_true_iff in H as [H ?]).
  repeat match goal with
         | H : (_ <=? _) = true |- _ => apply Z.leb_le in H
         end.
  repeat split; try lia.
  repeat match goal with
         | H : context [if ?b then _ else _] |- _ => destruct b
         end; lia.
Qed.

(** The converse: a date is accepted only when its cleaned text splits
    into exactly three components that [int] reads and that make a date;
    the canonical form is those components joined by spaces. *)
Lemma valider_date_inversion (s nom : str) (r : jval) :
  valider_date s nom = (true, r) ->
  exists jour mois annee j m a,
    split (replace_char 47 32 (replace_char 45 32 s)) = [jour; mois; annee]
    /\ py_int jour = Some j /\ py_int mois = Some m /\ py_int annee = Some a
    /\ datetime_ok a m j = true
    /\ r = JStr (jour ++ [32] ++ mois ++ [32] ++ annee).
Proof.
  unfold valider_date.
  destruct (split (replace_char 47 32 (replace_char 45 32 s)))
    as [|jour [|mois [|annee [|x l]]]]; try discriminate.
  destruct (py_int annee) as [a|] eqn:Ea; [|discriminate].
  destruct (py_int mois) as [m|] eqn:Em; [|discriminate].
  destruct (py_int jour) as [j|] eqn:Ej; [|discriminate].
  destruct (datetime_ok a m j) eqn:D; [|discriminate].
  intros H. injection H as <-.
  exists jour, mois, annee, j, m, a. repeat split; auto.
Qed.

(** C6: every calendar date written [DD MM YYYY] with spaces, hyphens or
    slashes between the components is accepted and its canonical form is
    the three components joined by spaces; a value is accepted only when
    it splits into exactly three numeric components that make a calendar
    date; ["31 02 2020"] is rejected and ["13 01 2011"] is accepted with
    canonical form ["13 01 2011"]. *)
Theorem validation_des_dates :
  (forall (j m a s1 s2 : Z) (nom : str),
      datetime_ok a m j = true ->
      separateur s1 = true -> separateur s2 = true ->
      valider_format
        (Some (PStr (chiffres 2 j ++ [s1] ++ chiffres 2 m ++ [s2]
                     ++ chiffres 4 a)))
        (lit "date") nom
      = (true,
         JStr (chiffres 2 j ++ [32] ++ chiffres 2 m ++ [32] ++ chiffres 4 a)))
  /\ (forall (v : pyval) (nom : str) (r : jval),
         valider_format (Some v) (lit "date") nom = (true, r) ->
         exists jour mois annee j m a,
           split (replace_char 47 32 (replace_char 45 32 (str_of v)))
           = [jour; mois; annee]
           /\ py_int jour = Some j /\ py_int mois = Some m
           /\ py_int annee = Some a /\ datetime_ok a m j = true
           /\ r = JStr (jour ++ [32] ++ mois ++ [32] ++ annee))
  /\ fst (valider_format (Some (PStr (lit "31 02 2020"))) (lit "date")
                         (lit "Date de fabrication")) = false
  /\ valider_format (Some (PStr (lit "13 01 2011"))) (lit "date")
                    (lit "Date de fabrication")
     = (true, JStr (lit "13 01 2011")).
Proof.
  split; [|split; [|split]].
  - intros j m a s1 s2 nom Hd H1 H2. rewrite valider_format_date.
    destruct (datetime_ok_bornes a m j Hd) as (Ba & Bm & Bj).
    apply valider_date_composantes; try assumption;
      try apply chiffres_ascii; try (simpl; discriminate).
    rewrite !valeur_chiffres_2, valeur_chiffres_4 by lia. exact Hd.
  - intros v nom r H. rewrite (valider_format_date v nom) in H.
    exact (valider_date_inversion _ nom r H).
  - reflexivity.
  - reflexivity.
Qed.

End ProprietesDates.

Section ExemplesDates.
Local Existing Instance Exemple.runtime.

(** 29 February of a leap year, written with a slash and a hyphen. *)
Lemma validation_des_dates_temoin :
  datetime_ok 2024 2 29 = true
  /\ valider_format (Some (PStr (lit "29/02-2024"))) (lit "date")
                    (lit "Date de fabrication")
     = (true, JStr (lit "29 02 2024")).
Proof.
  split; [reflexivity|].
  apply (proj1 validation_des_dates 29 2 2024 47 45); reflexivity.
Defined.

End ExemplesDates.

(* ================================================================== *)
(** * Properties: record extraction *)
(* ================================================================== *)

Section ProprietesExtraction.
Context {B : Builtins}.

(** Every branch of the [if]/[elif] chain assigns the schema name. *)
Lemma nom_ifc_de_identite (nom_prop : str) : nom_ifc_de nom_prop = nom_prop.
Proof.
  unfold nom_ifc_de.
  repeat match goal with
         | |- context [if str_eqb ?a ?b then _ else _] =>
           destruct (str_eqb a b) eqn:Heq;
           [apply str_eqb_eq in Heq; now subst | clear Heq]
         end.
  reflexivity.
Qed.

(** The key under which a validated value is stored is the schema name. *)
Lemma etape_propriete_cas (e : element) (acc : dict * list str)
  (entree : str * config) :
  etape_propriete e acc entree
  = if champ_en_echec e entree
    then (fst acc, snd acc ++ [message_echec e entree])
    else (dict_set (fst entree)
                   (snd (valider_format (chercher_valeur e (fst entree))
                                        (format (snd entree)) (fst entree)))
                   (fst acc), snd acc).
Proof.
  unfold etape_propriete, champ_en_echec, message_echec.
  destruct (chercher_valeur e (fst entree)) as [valeur|]; [|reflexivity].
  destruct (fst (valider_format (Some valeur) (format (snd entree))
                                (fst entree))); simpl; [|reflexivity].
  destruct (str_eqb (fst entree) (lit "Date de réemploye")) eqn:E;
    [|reflexivity].
  apply str_eqb_eq in E. now rewrite <- E.
Qed.

(** The failure list after any part of the schema: one message for each
    failing field, in schema order. *)
Lemma boucle_erreurs (e : element) (l : list (str * config))
  (acc : dict * list str) :
  snd (fold_left (etape_propriete e) l acc)
  = snd acc ++ map (message_echec e) (filter (champ_en_echec e) l).
Proof.
  revert acc. induction l as [|entree l IH]; intros acc; simpl.
  - now rewrite app_nil_r.
  - rewrite IH, etape_propriete_cas.
    destruct (champ_en_echec e entree); simpl; [|reflexivity].
    now rewrite <- app_assoc.
Qed.

(** The record only ever holds schema fields. *)
Lemma boucle_cles (e : element) (l : list (str * config))
  (acc : dict * list str) (k : str) :
  In k (keys (fst (fold_left (etape_propriete e) l acc))) ->
  In k (keys (fst acc)) \/ In k (map fst l).
Proof.
  revert acc. induction l as [|entree l IH]; intros acc; simpl; [auto|].
  intros H. apply IH in H. destruct H as [H|H]; [|auto].
  rewrite etape_propriete_cas in H.
  destruct (champ_en_echec e entree); simpl in H; [auto|].
  apply keys_dict_set in H. destruct H as [->|H]; auto.
Qed.

Lemma boucle_proprietes_cles (e : element) (k : str) :
  In k (keys (fst (boucle_proprietes e))) ->
  In k (map fst parametres_obligatoires).
Proof.
  unfold boucle_proprietes. intros H.
  destruct (boucle_cles e parametres_obligatoires ([], []) k H) as [F|H'].
  - destruct F.
  - exact H'.
Qed.

Lemma boucle_NoDup (e : element) (l : list (str * config))
  (acc : dict * list str) :
  NoDup (keys (fst acc)) ->
  NoDup (keys (fst (fold_left (etape_propriete e) l acc))).
Proof.
  revert acc. induction l as [|entree l IH]; intros acc H; simpl; [exact H|].
  apply IH. rewrite etape_propriete_cas.
  destruct (champ_en_echec e entree); simpl; [exact H|].
  now apply NoDup_keys_dict_set.
Qed.

(** The digest fields are not schema fields. *)
Lemma hash_hors_schema (k : str) :
  In k (map fst parametres_obligatoires) ->
  k <> lit "hash_ifc" /\ k <> lit "hash_json".
Proof.
  intros H. simpl in H.
  repeat (destruct H as [<-|H]; [split; discriminate|]). elim H.
Qed.

Lemma extraction_retour (e : element) (p : dict) (erreurs : list str) :
  extraire_toutes_proprietes_element e = Return (p, erreurs) ->
  p = fst (boucle_proprietes e) /\ erreurs = []
  /\ snd (boucle_proprietes e) = [].
Proof.
  unfold extraire_toutes_proprietes_element.
  destruct (snd (boucle_proprietes e)) eqn:E; [|discriminate].
  intros H. injection H as <- <-. auto.
Qed.

(** C4, amended: the extractor goes through every schema field and its
    failure list holds exactly one message for each field that is missing
    or malformed, in schema order; with an empty list it returns the
    record; with a non-empty list it returns nothing: it raises a
    [ValueError] whose message gives the number of failures, the caller
    [traiter_element] counts one rejection and leaves the output tree as it
    was, so that no partial record is written. *)
Theorem extraction_tout_ou_rien (e : element) :
  snd (boucle_proprietes e)
  = map (message_echec e)
        (filter (champ_en_echec e) parametres_obligatoires)
  /\ (snd (boucle_proprietes e) = [] ->
      extraire_toutes_proprietes_element e
      = Return (fst (boucle_proprietes e), []))
  /\ (snd (boucle_proprietes e) <> [] ->
      extraire_toutes_proprietes_element e
      = Raise (ValueError (msg_extraction_echouee (snd (boucle_proprietes e))))
      /\ forall (octets_ifc : bytes) (st : etat),
          traiter_element octets_ifc st e
          = mkEtat (objets_crees st) (erreurs_totales st + 1) (sorties st)).
Proof.
  split; [|split].
  - unfold boucle_proprietes. now rewrite boucle_erreurs.
  - intros H. unfold extraire_toutes_proprietes_element. now rewrite H.
  - intros H.
    assert (E : extraire_toutes_proprietes_element e
                = Raise (ValueError
                           (msg_extraction_echouee
                              (snd (boucle_proprietes e))))).
    { unfold extraire_toutes_proprietes_element.
      destruct (snd (boucle_proprietes e)); [now elim H | reflexivity]. }
    split; [exact E|]. intros octets_ifc st.
    unfold traiter_element. now rewrite E.
Qed.

End ProprietesExtraction.

Section ExemplesExtraction.
Local Existing Instance Exemple.runtime.

(** C4, as stated, fails: with two failing fields the extractor does not
    return the report, it raises. *)
Lemma extraction_leve_une_exception :
  snd (boucle_proprietes (Exemple.poutre "11111" ""))
  = [ lit "❌ FORMAT INVALIDE: 'ID' doit contenir exactement 16 chiffres, reçu: 5 chiffres";
      lit "❌ FORMAT INVALIDE: 'Statut usage' ne peut pas être vide" ]
  /\ extraire_toutes_proprietes_element (Exemple.poutre "11111" "")
     = Raise (ValueError (lit "Extraction échouée: 2 erreur(s)")).
Proof. split; vm_compute; reflexivity. Qed.

Lemma extraction_tout_ou_rien_temoin :
  snd (boucle_proprietes (Exemple.poutre "11111" "")) <> []
  /\ extraire_toutes_proprietes_element (Exemple.poutre "11111" "")
     = Raise (ValueError
                (msg_extraction_echouee
                   (snd (boucle_proprietes (Exemple.poutre "11111" "")))))
  /\ traiter_element [] (mkEtat 0 0 []) (Exemple.poutre "11111" "")
     = mkEtat 0 1 [].
Proof.
  assert (H : snd (boucle_proprietes (Exemple.poutre "11111" "")) <> [])
    by (vm_compute; discriminate).
  destruct (proj2 (proj2 (extraction_tout_ou_rien
                            (Exemple.poutre "11111" ""))) H) as [E T].
  split; [exact H|]. split; [exact E|]. exact (T [] (mkEtat 0 0 [])).
Defined.

End ExemplesExtraction.

(* ================================================================== *)
(** * Properties: the two digests of a record *)
(* ================================================================== *)

Section ProprietesHashes.
Context {B : Builtins}.

(** What [ajouter_hashes] builds when the second digest key is new: the
    first digest is stored, the second is computed on that dictionary and
    appended to it. *)
Lemma ajouter_hashes_deux_passes (cle_ifc cle_json : str) (octets : bytes)
  (p r : dict) :
  cle_ifc <> cle_json -> ~ In cle_json (keys p) ->
  ajouter_hashes cle_ifc cle_json octets p = Some r ->
  exists h,
    calculer_hash_json
      (dict_set cle_ifc (JStr (calculer_hash_fichier octets)) p) = Some h
    /\ r = dict_set cle_ifc (JStr (calculer_hash_fichier octets)) p
           ++ [(cle_json, JStr h)]
    /\ dict_sans cle_json r
       = dict_set cle_ifc (JStr (calculer_hash_fichier octets)) p
    /\ dict_get cle_json
         (dict_set cle_ifc (JStr (calculer_hash_fichier octets)) p) = None
    /\ dict_get cle_ifc r = Some (JStr (calculer_hash_fichier octets))
    /\ dict_get cle_json r = Some (JStr h).
Proof.
  intros Hne Hn. unfold ajouter_hashes.
  set (avec_ifc := dict_set cle_ifc (JStr (calculer_hash_fichier octets)) p).
  assert (Habs : ~ In cle_json (keys avec_ifc)).
  { unfold avec_ifc. rewrite keys_dict_set. intros [E|E]; auto. }
  destruct (calculer_hash_json avec_ifc) as [h|]; [|discriminate].
  intros H. injection H as <-. exists h.
  rewrite (dict_set_absent cle_json (JStr h) avec_ifc Habs).
  repeat split.
  - now apply dict_sans_dernier.
  - now apply dict_get_None.
  - rewrite <- (dict_set_absent cle_json (JStr h) avec_ifc Habs).
    rewrite dict_get_set.
    rewrite (proj2 (str_eqb_neq cle_json cle_ifc)) by auto.
    unfold avec_ifc. now rewrite dict_get_set, str_eqb_refl.
  - rewrite <- (dict_set_absent cle_json (JStr h) avec_ifc Habs).
    now rewrite dict_get_set, str_eqb_refl.
Qed.

(** What [enregistrer_objet] does when it returns a record. *)
Lemma enregistrer_objet_retour (octets_ifc : bytes) (p r : dict)
  (d d' : disque) :
  enregistrer_objet octets_ifc p d = (Return r, d') ->
  exists nom_fichier octets_json,
    ajouter_hashes (lit "hash_ifc") (lit "hash_json") octets_ifc p = Some r
    /\ nom_fichier_objet r = Some nom_fichier
    /\ encode_utf8 (json_dump_indent2 r) = Some octets_json
    /\ d' = ecrire (chemin_ifc nom_fichier) octets_ifc
                   (ecrire (chemin_json nom_fichier) octets_json d).
Proof.
  unfold enregistrer_objet.
  destruct (ajouter_hashes (lit "hash_ifc") (lit "hash_json") octets_ifc p)
    as [complet|] eqn:Eh; [|discriminate].
  destruct (nom_fichier_objet complet) as [nom|] eqn:En; [|discriminate].
  destruct (encode_utf8 (json_dump_indent2 complet)) as [o|] eqn:Eo;
    [|discriminate].
  intros H. injection H as <- <-. exists nom, o. auto.
Qed.

Lemma metadonnees_cles (m : modele_ifc) (rep : reponses) (md : dict) :
  collecter_metadonnees_maquette m rep = Return md ->
  ~ In (lit "hash_maquette_json") (keys md).
Proof.
  unfold collecter_metadonnees_maquette.
  destruct (chercher_id_maquette (property_sets m)); [|discriminate].
  intros H. injection H as <-. simpl.
  intros H. repeat (destruct H as [H|H]; [discriminate|]). exact H.
Qed.

(** The two passes on the record of an accepted entity. *)
Lemma objet_deux_passes (e : element) (octets_ifc : bytes) (p r : dict)
  (erreurs : list str) (d d' : disque) :
  extraire_toutes_proprietes_element e = Return (p, erreurs) ->
  enregistrer_objet octets_ifc p d = (Return r, d') ->
  exists h,
    calculer_hash_json
      (dict_set (lit "hash_ifc") (JStr (Sha256.hexdigest octets_ifc)) p)
    = Some h
    /\ r = dict_set (lit "hash_ifc") (JStr (Sha256.hexdigest octets_ifc)) p
           ++ [(lit "hash_json", JStr h)]
    /\ dict_sans (lit "hash_json") r
       = dict_set (lit "hash_ifc") (JStr (Sha256.hexdigest octets_ifc)) p
    /\ dict_get (lit "hash_json")
         (dict_set (lit "hash_ifc") (JStr (Sha256.hexdigest octets_ifc)) p)
       = None
    /\ dict_get (lit "hash_ifc") r
       = Some (JStr (Sha256.hexdigest octets_ifc))
    /\ dict_get (lit "hash_json") r = Some (JStr h).
Proof.
  intros Hex Hen.
  apply extraction_retour in Hex as (-> & _ & _).
  apply enregistrer_objet_retour in Hen as (nom & o & Hh & _).
  apply ajouter_hashes_deux_passes in Hh; [exact Hh | discriminate |].
  intros Hin. apply boucle_proprietes_cles in Hin.
  apply hash_hors_schema in Hin. now destruct Hin as [_ Hin].
Qed.

(** C2: for an accepted entity the digests are made in two passes:
    [hash_ifc], the digest of the octets of the source file, is stored in
    the record first; [hash_json] is then computed on that record, which
    holds [hash_ifc] and has no [hash_json] field, and stored last; the
    record without its [hash_json] field is exactly the input of that
    computation.  The metadata of the model are treated alike with
    [hash_maquette_ifc] and [hash_maquette_json]. *)
Theorem hachage_en_deux_passes :
  (forall (e : element) (octets_ifc : bytes) (p r : dict)
          (erreurs : list str) (d d' : disque),
      extraire_toutes_proprietes_element e = Return (p, erreurs) ->
      enregistrer_objet octets_ifc p d = (Return r, d') ->
      exists h,
        calculer_hash_json
          (dict_set (lit "hash_ifc") (JStr (Sha256.hexdigest octets_ifc)) p)
        = Some h
        /\ r = dict_set (lit "hash_ifc") (JStr (Sha256.hexdigest octets_ifc)) p
               ++ [(lit "hash_json", JStr h)]
        /\ dict_sans (lit "hash_json") r
           = dict_set (lit "hash_ifc") (JStr (Sha256.hexdigest octets_ifc)) p
        /\ dict_get (lit "hash_json")
             (dict_set (lit "hash_ifc") (JStr (Sha256.hexdigest octets_ifc)) p)
           = None
        /\ dict_get (lit "hash_ifc") r
           = Some (JStr (Sha256.hexdigest octets_ifc))
        /\ dict_get (lit "hash_json") r = Some (JStr h))
  /\ (forall (m : modele_ifc) (rep : reponses) (octets_ifc : bytes)
             (md r : dict),
         collecter_metadonnees_maquette m rep = Return md ->
         ajouter_hashes (lit "hash_maquette_ifc") (lit "hash_maquette_json")
                        octets_ifc md = Some r ->
         exists h,
           calculer_hash_json
             (dict_set (lit "hash_maquette_ifc")
                       (JStr (Sha256.hexdigest octets_ifc)) md) = Some h
           /\ dict_sans (lit "hash_maquette_json") r
              = dict_set (lit "hash_maquette_ifc")
                         (JStr (Sha256.hexdigest octets_ifc)) md
           /\ dict_get (lit "hash_maquette_json")
                (dict_set (lit "hash_maquette_ifc")
                          (JStr (Sha256.hexdigest octets_ifc)) md) = None
           /\ dict_get (lit "hash_maquette_json") r = Some (JStr h)).
Proof.
  split.
  - intros e octets_ifc p r erreurs d d' Hex Hen.
    exact (objet_deux_passes e octets_ifc p r erreurs d d' Hex Hen).
  - intros m rep octets_ifc md r Hmd Hh.
    apply ajouter_hashes_deux_passes in Hh;
      [| discriminate | now apply (metadonnees_cles m rep)].
    destruct Hh as (h & H1 & _ & H3 & H4 & _ & H6). exists h. auto.
Qed.

(** ** The text that is hashed and the text that is written *)









End ProprietesHashes.

Section ExemplesHashes.
Local Existing Instance Exemple.runtime.

Lemma scenario_extrait :
  extraire_toutes_proprietes_element Exemple.poutre_scenario
  = Return (Exemple.record_scenario, []).
Proof. vm_compute. reflexivity. Qed.

Lemma scenario_enregistre :
  enregistrer_objet Exemple.octets_scenario Exemple.record_scenario []
  = (Return Exemple.complet_scenario,
     snd (enregistrer_objet Exemple.octets_scenario Exemple.record_scenario [])).
Proof. vm_compute. reflexivity. Qed.

Lemma hachage_en_deux_passes_temoin :
  exists h,
    calculer_hash_json
      (dict_set (lit "hash_ifc") (JStr (Sha256.hexdigest Exemple.octets_scenario))
                Exemple.record_scenario) = Some h
    /\ dict_sans (lit "hash_json") Exemple.complet_scenario
       = dict_set (lit "hash_ifc") (JStr (Sha256.hexdigest Exemple.octets_scenario))
                  Exemple.record_scenario
    /\ dict_get (lit "hash_json") Exemple.complet_scenario = Some (JStr h).
Proof.
  destruct (proj1 hachage_en_deux_passes Exemple.poutre_scenario Exemple.octets_scenario
                  Exemple.record_scenario Exemple.complet_scenario [] []
                  (snd (enregistrer_objet Exemple.octets_scenario Exemple.record_scenario []))
                  scenario_extrait scenario_enregistre)
    as (h & H1 & _ & H3 & _ & _ & H6).
  exists h. auto.
Defined.


End ExemplesHashes.

(* ================================================================== *)
(** * Properties: files and batches *)
(* ================================================================== *)

Section ProprietesFichiers.
Context {B : Builtins}.

(** The outcome of recording an object does not depend on the files
    already written. *)
Lemma enregistrer_objet_resultat (octets_ifc : bytes) (p : dict)
  (d1 d2 : disque) :
  fst (enregistrer_objet octets_ifc p d1)
  = fst (enregistrer_objet octets_ifc p d2).
Proof.
  unfold enregistrer_objet.
  destruct (ajouter_hashes _ _ octets_ifc p) as [complet|]; [|reflexivity].
  destruct (nom_fichier_objet complet); [|reflexivity].
  destruct (encode_utf8 (json_dump_indent2 complet)); reflexivity.
Qed.

Lemma traiter_element_compteurs (octets_ifc : bytes) (s1 s2 : etat)
  (e : element) :
  memes_compteurs s1 s2 ->
  memes_compteurs (traiter_element octets_ifc s1 e)
                  (traiter_element octets_ifc s2 e).
Proof.
  intros [H1 H2]. unfold traiter_element, memes_compteurs, compter_erreur.
  destruct (extraire_toutes_proprietes_element e) as [[p erreurs]|ex];
    [|simpl; split; congruence].
  destruct erreurs; [|simpl; split; congruence].
  pose proof (enregistrer_objet_resultat octets_ifc p (sorties s1)
                                         (sorties s2)) as E.
  destruct (enregistrer_objet octets_ifc p (sorties s1)) as [r1 d1].
  destruct (enregistrer_objet octets_ifc p (sorties s2)) as [r2 d2].
  simpl in E. subst r2. destruct r1; simpl; split; congruence.
Qed.

(** A property of the counters kept by every turn is kept by the loop. *)
Lemma fold_compteurs {A : Type} (f : etat -> A -> etat) :
  (forall s1 s2 x, memes_compteurs s1 s2 ->
                   memes_compteurs (f s1 x) (f s2 x)) ->
  forall l s1 s2, memes_compteurs s1 s2 ->
                  memes_compteurs (fold_left f l s1) (fold_left f l s2).
Proof.
  intros Hf l. induction l as [|x l IH]; intros s1 s2 H; [exact H|].
  exact (IH _ _ (Hf s1 s2 x H)).
Qed.

Lemma fold_croissant {A : Type} (f : etat -> A -> etat) :
  (forall s x, objets_crees s <= objets_crees (f s x)) ->
  forall l s, objets_crees s <= objets_crees (fold_left f l s).
Proof.
  intros Hf l. induction l as [|x l IH]; intros s; [apply Z.le_refl|].
  exact (Z.le_trans _ _ _ (Hf s x) (IH (f s x))).
Qed.

Lemma boucle_compteurs (octets_ifc : bytes) (l : list element)
  (s1 s2 : etat) :
  memes_compteurs s1 s2 ->
  memes_compteurs (fold_left (traiter_element octets_ifc) l s1)
                  (fold_left (traiter_element octets_ifc) l s2).
Proof.
  apply (fold_compteurs (traiter_element octets_ifc)).
  intros t1 t2 e. apply traiter_element_compteurs.
Qed.

(** The counters only grow. *)
Lemma traiter_element_croissant (octets_ifc : bytes) (st : etat)
  (e : element) :
  objets_crees st <= objets_crees (traiter_element octets_ifc st e).
Proof.
  unfold traiter_element, compter_erreur.
  destruct (extraire_toutes_proprietes_element e) as [[p erreurs]|ex];
    [|simpl; lia].
  destruct erreurs; [|simpl; lia].
  destruct (enregistrer_objet octets_ifc p (sorties st)) as [[r|ex] d];
    simpl; lia.
Qed.

Lemma boucle_croissante (octets_ifc : bytes) (l : list element)
  (st : etat) :
  objets_crees st <= objets_crees (fold_left (traiter_element octets_ifc) l st).
Proof.
  apply (fold_croissant (traiter_element octets_ifc)).
  intros s e. apply traiter_element_croissant.
Qed.

Lemma boucle_elements_positif (f : fichier) (m : modele_ifc) (d : disque) :
  0 <= objets_crees (boucle_elements f m d).
Proof.
  exact (boucle_croissante (contenu f) (elements_du_modele m) (mkEtat 0 0 d)).
Qed.

Lemma collecter_retour (m : modele_ifc) (rep : reponses) (md : dict) :
  collecter_metadonnees_maquette m rep = Return md ->
  exists id_maquette,
    dict_get (lit "ID_maquette") md = Some (JStr id_maquette)
    /\ dict_get (lit "nom_maquette") md
       = Some (JStr (strip_ou (saisie_nom_maquette rep) (lit "Diogène"))).
Proof.
  unfold collecter_metadonnees_maquette.
  destruct (chercher_id_maquette (property_sets m)) as [id|]; [|discriminate].
  intros H. injection H as <-. exists id. split; reflexivity.
Qed.

(** [traiter_fichier_maquette] once the file is open and its metadata are
    collected. *)
Lemma traiter_fichier_maquette_ouvert (f : fichier) (rep : reponses)
  (d : disque) (m : modele_ifc) (md : dict) :
  ouverture f = Return m ->
  collecter_metadonnees_maquette m rep = Return md ->
  exists dossier nom_clean,
    traiter_fichier_maquette f rep d
    = finir_maquette f md dossier nom_clean (boucle_elements f m d).
Proof.
  intros Ho Hc. unfold traiter_fichier_maquette. rewrite Ho, Hc.
  destruct (collecter_retour m rep md Hc) as (id & -> & ->).
  unfold boucle_elements. eauto.
Qed.

Lemma finir_maquette_resultat (f : fichier) (md : dict)
  (dossier nom_clean : str) (s1 s2 : etat) :
  memes_compteurs s1 s2 ->
  fst (finir_maquette f md dossier nom_clean s1)
  = fst (finir_maquette f md dossier nom_clean s2).
Proof.
  intros [H1 H2]. unfold finir_maquette. rewrite H1, H2.
  destruct (objets_crees s2 =? 0); [reflexivity|].
  destruct (ajouter_hashes _ _ (contenu f) md) as [complet|]; [|reflexivity].
  destruct (encode_utf8 (json_dump_indent2 complet)); reflexivity.
Qed.

(** The result of a file does not depend on what earlier files left in
    the output tree. *)
Lemma traiter_fichier_maquette_resultat (f : fichier) (rep : reponses)
  (d1 d2 : disque) :
  fst (traiter_fichier_maquette f rep d1)
  = fst (traiter_fichier_maquette f rep d2).
Proof.
  unfold traiter_fichier_maquette.
  destruct (ouverture f) as [m|ex]; [|reflexivity].
  destruct (collecter_metadonnees_maquette m rep) as [md|ex]; [|reflexivity].
  destruct (dict_get (lit "ID_maquette") md) as [id|]; [|reflexivity].
  destruct (dict_get (lit "nom_maquette") md) as [[nom|x]|]; try reflexivity.
  apply finir_maquette_resultat. apply boucle_compteurs. split; reflexivity.
Qed.

Lemma traiter_objet_unitaire_resultat (f : fichier) (d1 d2 : disque) :
  fst (traiter_objet_unitaire f d1) = fst (traiter_objet_unitaire f d2).
Proof.
  unfold traiter_objet_unitaire.
  destruct (ouverture f) as [m|ex]; [|reflexivity].
  destruct (choisir_element m) as [e|]; [|reflexivity].
  destruct (extraire_toutes_proprietes_element e) as [[p erreurs]|ex];
    [|reflexivity].
  destruct erreurs; [|reflexivity].
  pose proof (enregistrer_objet_resultat (contenu f) p d1 d2) as E.
  destruct (enregistrer_objet (contenu f) p d1) as [r1 x1].
  destruct (enregistrer_objet (contenu f) p d2) as [r2 x2].
  simpl in E. subst r2. destruct r1; reflexivity.
Qed.

(** One turn of the batch loop: the file is counted as a success or as an
    error according to its own processing. *)
Lemma traiter_un_fichier_compte (choix : type_traitement)
  (acc : stats * disque) (fr : fichier * reponses) :
  let s := fst acc in
  let s' := fst (traiter_un_fichier choix acc fr) in
  total s' = total s
  /\ success s' = success s + (if reussit choix fr then 1 else 0)
  /\ errors s' = errors s + (if reussit choix fr then 0 else 1).
Proof.
  destruct acc as [s d]. unfold traiter_un_fichier, reussit. simpl fst.
  simpl snd. destruct choix.
  - rewrite (traiter_fichier_maquette_resultat (fst fr) (snd fr) [] d).
    destruct (fst (traiter_fichier_maquette (fst fr) (snd fr) d));
      simpl; repeat split; lia.
  - rewrite (traiter_objet_unitaire_resultat (fst fr) [] d).
    destruct (status_success (fst (traiter_objet_unitaire (fst fr) d)));
      simpl; repeat split; lia.
Qed.

Lemma lot_compte (choix : type_traitement) (l : list (fichier * reponses))
  (acc : stats * disque) :
  let s' := fst (fold_left (traiter_un_fichier choix) l acc) in
  total s' = total (fst acc)
  /\ success s'
     = success (fst acc) + Z.of_nat (List.length (filter (reussit choix) l))
  /\ errors s'
     = errors (fst acc)
       + Z.of_nat (List.length
                     (filter (fun fr => negb (reussit choix fr)) l)).
Proof.
  revert acc. induction l as [|fr l IH]; intros acc; cbn zeta.
  - simpl. repeat split; lia.
  - cbn [fold_left filter].
    destruct (IH (traiter_un_fichier choix acc fr)) as (T & S & E).
    destruct (traiter_un_fichier_compte choix acc fr) as (T' & S' & E').
    rewrite T, S, E, T', S', E'.
    destruct (reussit choix fr); cbn [negb List.length]; repeat split; lia.
Qed.

Lemma filter_partition_length {A : Type} (f : A -> bool) (l : list A) :
  (List.length (filter f l)
   + List.length (filter (fun x => negb (f x)) l))%nat = List.length l.
Proof.
  induction l as [|x l IH]; simpl; [reflexivity|].
  destruct (f x); simpl; lia.
Qed.

(** C9: a file whose loop over the elements ends with no object created
    is reported with the error status, so that a file reported as a
    success created at least one object; and in a batch every file is
    processed and counted, as a success or as an error (unreadable file,
    missing model identifier, no valid object) according to its own
    processing alone, whatever happened to the files before it. *)
Theorem fichier_sans_objet_signale_et_lot_poursuivi :
  (forall (f : fichier) (rep : reponses) (d : disque) (m : modele_ifc)
          (md : dict),
      ouverture f = Return m ->
      collecter_metadonnees_maquette m rep = Return md ->
      objets_crees (boucle_elements f m d) = 0 ->
      fst (traiter_fichier_maquette f rep d)
      = Erreur (msg_aucun_objet (erreurs_totales (boucle_elements f m d))))
  /\ (forall (f : fichier) (rep : reponses) (d : disque) (n k : Z)
             (chemin_maquette : str),
         fst (traiter_fichier_maquette f rep d) = Succes n k chemin_maquette ->
         1 <= n)
  /\ (forall (f : fichier) (rep : reponses) (d : disque) (ex : exn),
         ouverture f = Raise ex ->
         traiter_fichier_maquette f rep d = (Erreur (str_of_exn ex), d))
  /\ (forall (fichiers_ifc : list (fichier * reponses))
             (choix : type_traitement) (d : disque),
         fichiers_ifc <> [] ->
         exists s,
           fst (traiter_tous_fichiers fichiers_ifc choix d) = Some s
           /\ total s = Z.of_nat (List.length fichiers_ifc)
           /\ success s
              = Z.of_nat (List.length (filter (reussit choix) fichiers_ifc))
           /\ errors s
              = Z.of_nat
                  (List.length
                     (filter (fun fr => negb (reussit choix fr))
                             fichiers_ifc))
           /\ success s + errors s = total s).
Proof.
  split; [|split; [|split]].
  - intros f rep d m md Ho Hc Hz.
    destruct (traiter_fichier_maquette_ouvert f rep d m md Ho Hc)
      as (dossier & nom_clean & ->).
    unfold finir_maquette. now rewrite Hz.
  - intros f rep d n k chemin_maquette H.
    unfold traiter_fichier_maquette in H.
    destruct (ouverture f) as [m|ex]; [|discriminate].
    destruct (collecter_metadonnees_maquette m rep) as [md|ex];
      [|discriminate].
    destruct (dict_get (lit "ID_maquette") md) as [id|]; [|discriminate].
    destruct (dict_get (lit "nom_maquette") md) as [[nom|x]|];
      try discriminate.
    fold (boucle_elements f m d) in H.
    pose proof (boucle_elements_positif f m d) as Hc.
    unfold finir_maquette in H.
    destruct (Z.eqb_spec (objets_crees (boucle_elements f m d)) 0)
      as [E|E]; [discriminate|].
    destruct (ajouter_hashes _ _ (contenu f) md) as [complet|];
      [|discriminate].
    destruct (encode_utf8 (json_dump_indent2 complet)); [|discriminate].
    cbn [fst] in H. injection H as <- _ _. lia.
  - intros f rep d ex Ho. unfold traiter_fichier_maquette. now rewrite Ho.
  - intros fichiers_ifc choix d Hne.
    destruct (lot_compte choix fichiers_ifc
                (mkStats (Z.of_nat (List.length fichiers_ifc)) 0 0 0 0, d))
      as (T & S & E).
    cbn [fst total success errors] in T, S, E.
    exists (fst (fold_left (traiter_un_fichier choix) fichiers_ifc
                   (mkStats (Z.of_nat (List.length fichiers_ifc)) 0 0 0 0,
                    d))).
    split; [destruct fichiers_ifc; [now elim Hne | reflexivity]|].
    pose proof (filter_partition_length (reussit choix) fichiers_ifc) as P.
    rewrite T, S, E. repeat split; lia.
Qed.

End ProprietesFichiers.

(* ================================================================== *)
(** * Properties: usage status and duplicate identifiers *)
(* ================================================================== *)

Section ProprietesStatut.
Context {B : Builtins}.

(** In [IFC_extractor_5.4.py] the usage status has the format ["texte"]:
    any value whose string form is not blank validates, unchanged. *)
Lemma statut_usage_texte_libre (v : pyval) :
  strip (str_of v) <> [] ->
  option_map format
    (option_map snd
       (find (fun entree => str_eqb (fst entree) (lit "Statut usage"))
             parametres_obligatoires)) = Some (lit "texte")
  /\ valider_format (Some v) (lit "texte") (lit "Statut usage")
     = (true, JStr (str_of v)).
Proof.
  intros H. split; [reflexivity|]. rewrite valider_format_texte.
  destruct (str_of v) as [|c s] eqn:E; [now elim H|].
  destruct (strip (c :: s)); [now elim H | reflexivity].
Qed.

(** In [ifc_r9_extractor.py] a usage status validates exactly when its
    trimmed, lower-cased string form is one of the three allowed values. *)
Lemma statut_usage_r9 (v : pyval) :
  v <> PStr [] -> v <> PStr (lit "Non trouvé") ->
  fst (R9.valider_format_parametre (lit "Statut_usage") (Some v)) = true
  <-> In (R9.lower (strip (str_of v))) R9.statuts_valides.
Proof.
  intros H1 H2. unfold R9.valider_format_parametre.
  assert (E : match v with
              | PStr s => str_eqb s [] || str_eqb s (lit "Non trouvé")
              | _ => false
              end = false).
  { destruct v as [s| | |]; try reflexivity.
    apply orb_false_iff. split; apply str_eqb_neq; congruence. }
  rewrite E.
  change (str_eqb (lit "Statut_usage") (lit "NOM")) with false.
  change (str_eqb (lit "Statut_usage") (lit "ID")) with false.
  change (str_eqb (lit "Statut_usage") (lit "ID_maquette")) with false.
  change (str_eqb (lit "Statut_usage") (lit "Longueur_m")) with false.
  change (str_eqb (lit "Statut_usage") (lit "Statut_usage")) with true.
  cbv iota.
  destruct (existsb (str_eqb (R9.lower (strip (str_of v))))
                    R9.statuts_valides) eqn:X; simpl.
  - split; [intros _|reflexivity].
    apply existsb_exists in X as [x [Hin Hx]].
    apply str_eqb_eq in Hx. now subst.
  - split; [discriminate|]. intros Hin. exfalso.
    assert (existsb (str_eqb (R9.lower (strip (str_of v))))
                    R9.statuts_valides = true).
    { apply existsb_exists. eexists. split; [exact Hin|].
      apply str_eqb_refl. }
    congruence.
Qed.

End ProprietesStatut.

Section ExemplesTraitement.
Local Existing Instance Exemple.runtime.

(** C5, at the failing input: the element of the end-to-end scenario
    with the usage status ["demoli"] goes through the extractor without
    any failure and the file is reported with one object created and no
    rejection, whereas the validator of [ifc_r9_extractor.py] rejects the
    same value with the message that lists the allowed set. *)
Theorem statut_demoli_accepte :
  snd (boucle_proprietes (Exemple.poutre "1111111111111111" "demoli")) = []
  /\ fst (traiter_fichier_maquette
            (Exemple.fichier_de "maquette.ifc"
               [Exemple.poutre "1111111111111111" "demoli"])
            Exemple.sans_reponse [])
     = Succes 1 0
         (lit "data/processed/maquettes/maquette_Diogène_123456789123")
  /\ R9.valider_format_parametre (lit "Statut_usage")
                                 (Some (PStr (lit "demoli")))
     = (false,
        lit "Statut_usage doit être l'un de: ['neuf', 'en usage', 'réemployé']").
Proof. repeat split; vm_compute; reflexivity. Qed.

(** C3, at the failing input: two valid elements with the identifier
    ["1111111111111111"] are both accepted, two objects are created and
    none is rejected; the document of the second replaces the document of
    the first, both being written to the same path. *)
Theorem identifiant_duplique_accepte :
  fst (traiter_fichier_maquette
         (Exemple.fichier_de "maquette.ifc"
            [Exemple.poutre "1111111111111111" "neuf";
             Exemple.poutre "1111111111111111" "réemployé"])
         Exemple.sans_reponse [])
  = Succes 2 0 (lit "data/processed/maquettes/maquette_Diogène_123456789123")
  /\ map fst
       (snd (traiter_fichier_maquette
               (Exemple.fichier_de "maquette.ifc"
                  [Exemple.poutre "1111111111111111" "neuf";
                   Exemple.poutre "1111111111111111" "réemployé"])
               Exemple.sans_reponse []))
     = [ lit "data/processed/maquettes/maquette_Diogène_123456789123/Diogène.json";
         lit "data/processed/maquettes/maquette_Diogène_123456789123/Diogène.ifc";
         lit "data/processed/objets_ifc/1111111111111111_poutre_IPE.ifc";
         lit "data/processed/objets_json/1111111111111111_poutre_IPE.json";
         lit "data/processed/objets_ifc/1111111111111111_poutre_IPE.ifc";
         lit "data/processed/objets_json/1111111111111111_poutre_IPE.json" ].
Proof. split; vm_compute; reflexivity. Qed.

End ExemplesTraitement.

(* ================================================================== *)
(** * Properties: the earlier extractor and the examples of a batch *)
(* ================================================================== *)

Section ProprietesR9.
Context {B : Builtins}.

(** The placeholder stored for [Date_reemploi] never validates. *)
Lemma date_reemploi_placeholder :
  R9.valider_format_parametre (lit "Date_reemploi")
                              (Some (PStr (lit "Non spécifié")))
  = (false,
     lit "Date_reemploi doit être au format DD-MM-YYYY (ex: 13-01-2001)").
Proof. vm_compute. reflexivity. Qed.

Lemma get_date_reemploi (e : R9.element_r9) (id_maquette : str) :
  R9.get_r9 (lit "Date_reemploi")
            (R9.set_r9 (lit "ID_maquette") (PStr id_maquette)
                       (R9.extraire_proprietes_objet e))
  = Some (PStr (lit "Non spécifié")).
Proof. vm_compute. reflexivity. Qed.

Lemma date_reemploi_invalide (e : R9.element_r9) (id_maquette : str) :
  In (lit "Objet " ++ str_of_int (R9.step_id e) ++ lit ": "
      ++ lit "Date_reemploi doit être au format DD-MM-YYYY (ex: 13-01-2001)")
     (R9.erreurs_objet_de e
        (R9.set_r9 (lit "ID_maquette") (PStr id_maquette)
                   (R9.extraire_proprietes_objet e))).
Proof.
  unfold R9.erreurs_objet_de. apply in_flat_map.
  exists (lit "Date_reemploi"). split.
  - unfold R9.parametres_obligatoires.
    do 9 right. left. reflexivity.
  - rewrite get_date_reemploi, date_reemploi_placeholder.
    left. reflexivity.
Qed.

Lemma etape_objet_erreur (id_maquette : str) (st : R9.etat_r9)
  (e : R9.element_r9) :
  R9.erreurs_validation (R9.etape_objet id_maquette st e) <> [].
Proof.
  unfold R9.etape_objet.
  pose proof (date_reemploi_invalide e id_maquette) as H.
  destruct (R9.erreurs_objet_de e _) as [|x l]; [destruct H|].
  simpl. intros E. apply app_eq_nil in E as [_ E]. discriminate.
Qed.

(** What every turn of a loop establishes holds after a loop of at least
    one turn. *)
Lemma fold_left_etabli {A S : Type} (P : S -> Prop) (f : S -> A -> S) :
  (forall s x, P (f s x)) -> forall l x s, P (fold_left f (x :: l) s).
Proof.
  intros Hf l. induction l as [|y l IH]; intros x s.
  - apply Hf.
  - exact (IH y (f s x)).
Qed.

(** In [ifc_r9_extractor.py] every run over at least one element ends
    with [ValidationError]: no object is ever accepted there. *)
Lemma extraction_r9_echoue (id_maquette : str) (e : R9.element_r9)
  (l : list R9.element_r9) :
  exists message,
    R9.extraire_objets_avec_validation id_maquette (e :: l)
    = inr (R9.ValidationError message).
Proof.
  unfold R9.extraire_objets_avec_validation.
  pose proof (fold_left_etabli
                (fun st => R9.erreurs_validation st <> [])
                (R9.etape_objet id_maquette)
                (etape_objet_erreur id_maquette) l e
                (R9.mkEtatR9 [] [] [])) as H.
  cbv beta in H.
  destruct (R9.erreurs_validation
              (fold_left (R9.etape_objet id_maquette) (e :: l)
                         (R9.mkEtatR9 [] [] [])))
    as [|x r]; [now elim H|].
  cbn [app]. eauto.
Qed.

End ProprietesR9.

Section ExemplesLot.
Local Existing Instance Exemple.runtime.

(** [ifc_r9_extractor.py] on two elements with one identifier: the second
    gets the duplicate message, and the run as a whole is refused. *)
Lemma doublon_r9_detecte :
  In (lit "ID dupliqué détecté: 1111111111111111")
     (R9.erreurs_validation
        (fold_left (R9.etape_objet (lit "123456789123")) Exemple.jumeaux_r9
                   (R9.mkEtatR9 [] [] [])))
  /\ R9.extraire_objets_avec_validation (lit "123456789123")
                                        Exemple.jumeaux_r9
     = inr (R9.ValidationError
              (lit "Validation échouée: 3 erreurs détectées")).
Proof. split; vm_compute; auto. Qed.

(** The older date validator only takes hyphens. *)
Lemma date_r9_tirets :
  R9.valider_format_date (lit "13-01-2011") = true
  /\ R9.valider_format_date (lit "13 01 2011") = false
  /\ R9.valider_format_date (lit "31-02-2020") = false.
Proof. repeat split; reflexivity. Qed.

(** The batch of three files: the unreadable file and the file without a
    valid object are counted as errors, the third file is still processed
    and succeeds. *)
Lemma fichier_sans_objet_signale_et_lot_poursuivi_temoin :
  fst (traiter_fichier_maquette
         (Exemple.fichier_de "rejete.ifc" [Exemple.poutre "11111" ""])
         Exemple.sans_reponse [])
  = Erreur (lit "Aucun objet valide créé! 1 erreurs rencontrées")
  /\ exists s,
      fst (traiter_tous_fichiers Exemple.lot maquette []) = Some s
      /\ total s = 3 /\ success s = 1 /\ errors s = 2.
Proof.
  split.
  - refine (eq_trans
              (proj1 fichier_sans_objet_signale_et_lot_poursuivi
                 (Exemple.fichier_de "rejete.ifc" [Exemple.poutre "11111" ""])
                 Exemple.sans_reponse []
                 (Exemple.modele_de [Exemple.poutre "11111" ""])
                 Exemple.metadonnees_exemple _ _ _) _).
    + reflexivity.
    + vm_compute. reflexivity.
    + vm_compute. reflexivity.
    + vm_compute. reflexivity.
  - destruct (proj2 (proj2 (proj2 fichier_sans_objet_signale_et_lot_poursuivi))
                    Exemple.lot maquette [])
      as (s & Hs & Ht & Hsu & He & _).
    + discriminate.
    + exists s. split; [exact Hs|]. rewrite Ht, Hsu, He.
      repeat split; vm_compute; reflexivity.
Defined.

End ExemplesLot.

(* ================================================================== *)
(** * Further properties: whitespace and the text formats *)
(* ================================================================== *)

Section ProprietesBlancs.
Context {B : Builtins}.

Lemma lstrip_decomposition (s : str) :
  exists b, s = b ++ lstrip s /\ forallb isspace b = true.
Proof.
  induction s as [|c s IH]; simpl.
  - exists []. auto.
  - destruct (isspace c) eqn:E.
    + destruct IH as (b & Hs & Hb). exists (c :: b). simpl.
      rewrite E, Hb. split; [now f_equal | reflexivity].
    + exists []. auto.
Qed.

Lemma lstrip_tete (s : str) (c : Z) (r : str) :
  lstrip s = c :: r -> isspace c = false.
Proof.
  induction s as [|x s IH]; simpl; [discriminate|].
  destruct (isspace x) eqn:E; [exact IH|].
  intros H. injection H as <- _. exact E.
Qed.

Lemma lstrip_vide (s : str) :
  lstrip s = [] <-> forallb isspace s = true.
Proof.
  split; [|apply lstrip_blanc].
  induction s as [|c s IH]; simpl; [reflexivity|].
  destruct (isspace c); [exact IH | discriminate].
Qed.

Lemma lstrip_fixe (s : str) :
  lstrip s = s <-> s = [] \/ exists c r, s = c :: r /\ isspace c = false.
Proof.
  split.
  - intros H. destruct s as [|c r]; [now left|]. right.
    exists c, r. split; [reflexivity|]. now apply (lstrip_tete (c :: r) c r).
  - intros [->|(c & r & -> & E)]; simpl; [reflexivity|]. now rewrite E.
Qed.

Lemma forallb_rev {A : Type} (f : A -> bool) (l : list A) :
  forallb f (rev l) = forallb f l.
Proof.
  induction l as [|x l IH]; simpl; [reflexivity|].
  rewrite forallb_app, IH. simpl. rewrite andb_true_r. apply andb_comm.
Qed.

(** [strip] gives the empty string exactly on whitespace-only text. *)
Lemma strip_vide (s : str) : strip s = [] <-> forallb isspace s = true.
Proof.
  split; [|apply strip_blanc].
  unfold strip, rstrip. intros H.
  apply (f_equal (@rev Z)) in H. rewrite rev_involutive in H. simpl in H.
  apply lstrip_vide in H. rewrite forallb_rev in H.
  destruct (lstrip_decomposition s) as (b & Hs & Hb).
  rewrite Hs, forallb_app, Hb, H. reflexivity.
Qed.

Lemma a_un_non_blanc_spec (s : str) :
  a_un_non_blanc s = negb (forallb isspace s).
Proof.
  unfold a_un_non_blanc. induction s as [|c s IH]; simpl; [reflexivity|].
  rewrite IH. destruct (isspace c); reflexivity.
Qed.

Lemma est_vide_spec (s : str) : est_vide s = true <-> s = [].
Proof. destruct s; simpl; split; congruence. Qed.

Lemma texte_test (s : str) :
  est_vide s || est_vide (strip s) = negb (a_un_non_blanc s).
Proof.
  rewrite a_un_non_blanc_spec, negb_involutive.
  destruct (forallb isspace s) eqn:E.
  - rewrite (proj2 (est_vide_spec (strip s)))
      by (now apply strip_vide). apply orb_true_r.
  - apply orb_false_iff. split.
    + destruct s; [discriminate | reflexivity].
    + destruct (est_vide (strip s)) eqn:V; [|reflexivity].
      apply est_vide_spec, strip_vide in V. congruence.
Qed.

(** X1: the free-text format accepts a value exactly when its string form
    holds a character that is not whitespace; the canonical value is then
    the string form itself, surrounding whitespace included; otherwise
    the value is refused as empty. *)
Theorem texte_accepte_si_non_blanc (v : pyval) (nom : str) :
  (fst (valider_format (Some v) (lit "texte") nom) = true
   <-> a_un_non_blanc (str_of v) = true)
  /\ (a_un_non_blanc (str_of v) = true ->
      valider_format (Some v) (lit "texte") nom = (true, JStr (str_of v)))
  /\ (a_un_non_blanc (str_of v) = false ->
      valider_format (Some v) (lit "texte") nom
      = (false, JStr (msg_vide nom))).
Proof.
  rewrite valider_format_texte, texte_test.
  destruct (a_un_non_blanc (str_of v)); simpl; repeat split;
    congruence.
Qed.

(** ** What [strip] returns *)

Lemma strip_forme (s : str) :
  lstrip (strip s) = strip s /\ lstrip (rev (strip s)) = rev (strip s).
Proof.
  unfold strip, rstrip. rewrite rev_involutive. set (t := lstrip s).
  assert (Ht : lstrip t = t).
  { unfold t. apply lstrip_fixe. destruct (lstrip s) as [|c r] eqn:E;
      [now left|]. right. exists c, r. split; [reflexivity|].
    now apply (lstrip_tete s c r). }
  set (u := lstrip (rev t)).
  assert (Hu : lstrip u = u).
  { unfold u. apply lstrip_fixe. destruct (lstrip (rev t)) as [|c r] eqn:E;
      [now left|]. right. exists c, r. split; [reflexivity|].
    now apply (lstrip_tete (rev t) c r). }
  split; [|exact Hu].
  destruct (lstrip_decomposition (rev t)) as (b & Hb1 & Hb2). fold u in Hb1.
  apply (f_equal (@rev Z)) in Hb1. rewrite rev_involutive, rev_app_distr in Hb1.
  apply lstrip_fixe. apply lstrip_fixe in Ht.
  destruct (rev u) as [|c r] eqn:E; [now left|]. right.
  exists c, r. split; [reflexivity|].
  destruct Ht as [Ht|(c' & r' & Ht & Hc)].
  - rewrite Ht in Hb1. destruct (rev u); discriminate.
  - rewrite Ht in Hb1. simpl in Hb1. injection Hb1 as -> _. exact Hc.
Qed.

(** Trimming twice is trimming once. *)
Lemma strip_idempotent (s : str) : strip (strip s) = strip s.
Proof.
  destruct (strip_forme s) as [H1 H2].
  unfold strip at 1, rstrip. now rewrite H1, H2, rev_involutive.
Qed.

Lemma In_lstrip (c : Z) (s : str) : In c (lstrip s) -> In c s.
Proof.
  destruct (lstrip_decomposition s) as (b & Hs & _). intros H.
  rewrite Hs. apply in_or_app. now right.
Qed.

Lemma In_strip (c : Z) (s : str) : In c (strip s) -> In c s.
Proof.
  unfold strip, rstrip. intros H. apply in_rev in H.
  apply In_lstrip in H. apply in_rev in H. now apply In_lstrip in H.
Qed.

Lemma sub_non_lettres_vide (s : str) :
  sub_non_lettres s = []
  <-> forallb (fun c => negb (ascii_letter c || isspace c)) s = true.
Proof.
  unfold sub_non_lettres. induction s as [|x s IH]; simpl; [tauto|].
  destruct (ascii_letter x || isspace x); simpl; [|exact IH].
  split; discriminate.
Qed.

(** X2: when the letters-only format accepts a value, its canonical value
    holds only ASCII letters and whitespace, neither begins nor ends with
    whitespace, and every one of its characters comes from the value; the
    format refuses exactly the values that hold no ASCII letter and no
    whitespace. *)
Theorem lettres_forme_canonique (v : pyval) (nom : str) :
  (fst (valider_format (Some v) (lit "lettres") nom) = false
   <-> forallb (fun c => negb (ascii_letter c || isspace c)) (str_of v)
       = true)
  /\ (forall c : str,
         valider_format (Some v) (lit "lettres") nom = (true, JStr c) ->
         forallb (fun x => ascii_letter x || isspace x) c = true
         /\ strip c = c
         /\ (forall x, In x c -> In x (str_of v))).
Proof.
  rewrite valider_format_lettres. split.
  - rewrite <- sub_non_lettres_vide.
    destruct (sub_non_lettres (str_of v)); simpl; split;
      congruence.
  - intros c H.
    destruct (sub_non_lettres (str_of v)) as [|x r] eqn:E; [discriminate|].
    injection H as <-. rewrite <- E. repeat split.
    + apply forallb_forall. intros y Hy. apply In_strip in Hy.
      unfold sub_non_lettres in Hy. now apply filter_In in Hy.
    + apply strip_idempotent.
    + intros y Hy. apply In_strip in Hy. unfold sub_non_lettres in Hy.
      now apply filter_In in Hy.
Qed.

End ProprietesBlancs.

(* ================================================================== *)
(** * Further properties: dates and canonical forms *)
(* ================================================================== *)

Section ProprietesCanoniques.
Context {B : Builtins}.

(** ** What [split] returns *)

Lemma split_aux_mots (s cur : str) (w : str) :
  sans_blanc cur = true -> In w (split_aux cur s) ->
  w <> [] /\ sans_blanc w = true /\ (forall c, In c w -> In c cur \/ In c s).
Proof.
  revert cur. induction s as [|x s IH]; intros cur Hcur; simpl.
  - destruct cur as [|y cur]; [intros []|]. intros [<-|[]].
    repeat split.
    + intros E. apply (f_equal (@List.length Z)) in E.
      rewrite length_rev in E. discriminate.
    + unfold sans_blanc. now rewrite forallb_rev.
    + intros c Hc. left. now apply in_rev.
  - destruct (isspace x) eqn:E.
    + destruct cur as [|y cur].
      * intros H. destruct (IH [] eq_refl H) as (H1 & H2 & H3).
        repeat split; auto. intros c Hc.
        destruct (H3 c Hc) as [[]|?]. auto.
      * intros [<-|H].
        -- repeat split.
           ++ intros E'. apply (f_equal (@List.length Z)) in E'.
              rewrite length_rev in E'. discriminate.
           ++ unfold sans_blanc. now rewrite forallb_rev.
           ++ intros c Hc. left. now apply in_rev.
        -- destruct (IH [] eq_refl H) as (H1 & H2 & H3).
           repeat split; auto. intros c Hc.
           destruct (H3 c Hc) as [[]|?]. auto.
    + intros H.
      assert (Hcur' : sans_blanc (x :: cur) = true)
        by (simpl; now rewrite E, Hcur).
      destruct (IH (x :: cur) Hcur' H) as (H1 & H2 & H3).
      repeat split; auto. intros c Hc.
      destruct (H3 c Hc) as [[<-|?]|?]; auto.
Qed.

(** Every word given by [split] is non-empty, free of whitespace, and
    made of characters of the text. *)
Lemma split_mots (s w : str) :
  In w (split s) ->
  w <> [] /\ sans_blanc w = true /\ (forall c, In c w -> In c s).
Proof.
  intros H. destruct (split_aux_mots s [] w eq_refl H) as (H1 & H2 & H3).
  repeat split; auto. intros c Hc. destruct (H3 c Hc) as [[]|?]. auto.
Qed.

Lemma split_aux_mot_general (w cur reste : str) :
  sans_blanc w = true ->
  split_aux cur (w ++ reste) = split_aux (rev w ++ cur) reste.
Proof.
  revert cur. induction w as [|c w IH]; intros cur H; simpl; [reflexivity|].
  simpl in H. apply andb_true_iff in H as [Hc Hw].
  apply negb_true_iff in Hc. rewrite Hc, IH by assumption.
  now rewrite <- app_assoc.
Qed.

(** Three words joined by single spaces split back into themselves. *)
Lemma split_trois_mots_general (a b c : str) :
  a <> [] -> b <> [] -> c <> [] ->
  sans_blanc a = true -> sans_blanc b = true -> sans_blanc c = true ->
  split (a ++ [32] ++ b ++ [32] ++ c) = [a; b; c].
Proof.
  intros Na Nb Nc Ha Hb Hc.
  assert (Hrev : forall w : str, w <> [] -> rev w ++ [] <> []).
  { intros w Hw E. rewrite app_nil_r in E.
    apply (f_equal (@rev Z)) in E. rewrite rev_involutive in E. auto. }
  change (split_aux [] (a ++ 32 :: b ++ 32 :: c) = [a; b; c]).
  rewrite (split_aux_mot_general a), split_aux_espace by auto.
  rewrite (split_aux_mot_general b), split_aux_espace by auto.
  replace c with (c ++ []) at 1 by apply app_nil_r.
  rewrite (split_aux_mot_general c) by assumption. simpl.
  rewrite !app_nil_r, !rev_involutive.
  destruct (rev c) eqn:E; [|reflexivity].
  apply (f_equal (@rev Z)) in E. rewrite rev_involutive in E. now elim Nc.
Qed.

Lemma replace_char_absent (o n : Z) (s : str) :
  ~ In o s -> replace_char o n s = s.
Proof.
  induction s as [|c s IH]; simpl; intros H; [reflexivity|].
  destruct (Z.eqb_spec c o) as [->|_]; [tauto|].
  f_equal. apply IH. tauto.
Qed.

Lemma replace_char_efface (o n : Z) (s : str) :
  o <> n -> ~ In o (replace_char o n s).
Proof.
  intros Hne. induction s as [|c s IH]; simpl; [tauto|].
  destruct (Z.eqb_spec c o) as [->|Hc]; intros [E|E]; auto; congruence.
Qed.

Lemma In_replace_char (o n x : Z) (s : str) :
  In x (replace_char o n s) -> x = n \/ (In x s /\ x <> o).
Proof.
  induction s as [|c s IH]; simpl; [tauto|].
  destruct (Z.eqb_spec c o) as [->|Hc]; intros [E|E]; auto.
  - destruct (IH E) as [?|[? ?]]; auto.
  - subst. auto.
  - destruct (IH E) as [?|[? ?]]; auto.
Qed.

(** The cleaned text of a date holds neither hyphen nor slash. *)
Lemma date_clean_sans_separateur (s : str) (x : Z) :
  In x (replace_char 47 32 (replace_char 45 32 s)) -> x <> 45 /\ x <> 47.
Proof.
  intros H. apply In_replace_char in H as [->|[H Hx]]; [lia|].
  split; [|exact Hx]. intros ->.
  now apply (replace_char_efface 45 32 s) in H.
Qed.

(** The canonical form of an accepted date is accepted again, unchanged. *)
Lemma valider_date_point_fixe (s nom nom' : str) (c : str) :
  valider_date s nom = (true, JStr c) ->
  valider_date c nom' = (true, JStr c).
Proof.
  intros H.
  destruct (valider_date_inversion s nom (JStr c) H)
    as (jour & mois & annee & j & m & a & Hs & Hj & Hm & Ha & Hd & Hc).
  injection Hc as ->.
  assert (Hw : forall w, In w [jour; mois; annee] ->
                 w <> [] /\ sans_blanc w = true
                 /\ ~ In 45 w /\ ~ In 47 w).
  { intros w Hin. rewrite <- Hs in Hin.
    destruct (split_mots _ w Hin) as (H1 & H2 & H3).
    repeat split; auto; intros C; apply H3 in C;
      apply date_clean_sans_separateur in C; lia. }
  destruct (Hw jour ltac:(simpl; auto)) as (Nj & Sj & Aj & Bj).
  destruct (Hw mois ltac:(simpl; auto)) as (Nm & Sm & Am & Bm).
  destruct (Hw annee ltac:(simpl; auto)) as (Na & Sa & Aa & Ba).
  unfold valider_date.
  assert (Hclean : replace_char 47 32
                     (replace_char 45 32
                        (jour ++ [32] ++ mois ++ [32] ++ annee))
                   = jour ++ [32] ++ mois ++ [32] ++ annee).
  { rewrite (replace_char_absent 45), (replace_char_absent 47);
      [reflexivity| |];
      intros C; repeat (apply in_app_or in C as [C|C]); auto;
        simpl in C; destruct C as [C|[]]; discriminate. }
  change (jour ++ 32 :: mois ++ 32 :: annee)
    with (jour ++ [32] ++ mois ++ [32] ++ annee).
  rewrite Hclean, split_trois_mots_general by assumption.
  now rewrite Ha, Hm, Hj, Hd.
Qed.

(** X3: for the identifier, free-text and date formats the canonical
    value is a fixed point of validation: a canonical value returned for
    a field validates again, under the same format, to itself. *)
Theorem forme_canonique_point_fixe (v : pyval) (format_attendu nom c : str) :
  In format_attendu
     [lit "16_chiffres"; lit "12_chiffres"; lit "texte"; lit "date"] ->
  valider_format (Some v) format_attendu nom = (true, JStr c) ->
  valider_format (Some (PStr c)) format_attendu nom = (true, JStr c).
Proof.
  intros Hf H. simpl in Hf.
  destruct Hf as [<-|[<-|[<-|[<-|[]]]]].
  - rewrite valider_format_16 in *. unfold valider_chiffres in *.
    destruct (isdigit (str_of v)) eqn:D; [|discriminate].
    destruct (len (str_of v) =? 16) eqn:L; [|discriminate].
    simpl in H. injection H as <-. simpl str_of. now rewrite D, L.
  - rewrite valider_format_12 in *. unfold valider_chiffres in *.
    destruct (isdigit (str_of v)) eqn:D; [|discriminate].
    destruct (len (str_of v) =? 12) eqn:L; [|discriminate].
    simpl in H. injection H as <-. simpl str_of. now rewrite D, L.
  - rewrite valider_format_texte in *.
    destruct (est_vide (str_of v) || est_vide (strip (str_of v))) eqn:T;
      [discriminate|].
    injection H as <-. simpl str_of. now rewrite T.
  - rewrite valider_format_date in *. simpl str_of.
    now apply (valider_date_point_fixe (str_of v) nom nom).
Qed.


End ProprietesCanoniques.

Section ExemplesCanoniques.
Local Existing Instance Exemple.runtime.

Lemma forme_canonique_point_fixe_temoin :
  valider_format (Some (PStr (lit "29/02-2024"))) (lit "date")
                 (lit "Date de fabrication")
  = (true, JStr (lit "29 02 2024"))
  /\ valider_format (Some (PStr (lit "29 02 2024"))) (lit "date")
                    (lit "Date de fabrication")
     = (true, JStr (lit "29 02 2024")).
Proof.
  assert (H : valider_format (Some (PStr (lit "29/02-2024"))) (lit "date")
                             (lit "Date de fabrication")
              = (true, JStr (lit "29 02 2024"))) by reflexivity.
  split; [exact H|].
  apply (forme_canonique_point_fixe (PStr (lit "29/02-2024")) (lit "date")
                                    (lit "Date de fabrication")
                                    (lit "29 02 2024")).
  - simpl. auto.
  - exact H.
Defined.


End ExemplesCanoniques.

(* ================================================================== *)
(** * Further properties: looking up and extracting *)
(* ================================================================== *)

Section ProprietesRecherche.
Context {B : Builtins}.

Lemma chercher_dans_pset_spec (nom : str) (ps : property_set) :
  match chercher_dans_pset nom ps with
  | Some v =>
    exists p1 prop p2,
      ps = p1 ++ prop :: p2 /\ Name prop = nom
      /\ NominalValue prop = Some v /\ sans_valeur nom p1
  | None => sans_valeur nom ps
  end.
Proof.
  induction ps as [|q ps IH]; simpl.
  - intros prop [].
  - destruct (str_eqb (Name q) nom) eqn:E.
    + apply str_eqb_eq in E. destruct (NominalValue q) as [v|] eqn:V.
      * exists [], q, ps. repeat split; auto. intros prop [].
      * destruct (chercher_dans_pset nom ps) as [v|].
        -- destruct IH as (p1 & prop & p2 & -> & H1 & H2 & H3).
           exists (q :: p1), prop, p2. repeat split; auto.
           intros x [<-|Hx] Hn; auto.
        -- intros x [<-|Hx] Hn; auto.
    + apply str_eqb_neq in E.
      destruct (chercher_dans_pset nom ps) as [v|].
      * destruct IH as (p1 & prop & p2 & -> & H1 & H2 & H3).
        exists (q :: p1), prop, p2. repeat split; auto.
        intros x [<-|Hx] Hn; [contradiction | auto].
      * intros x [<-|Hx] Hn; [contradiction | auto].
Qed.

Lemma chercher_dans_psets_spec (nom : str) (l : list property_set) :
  match chercher_dans_psets nom l with
  | Some v =>
    exists l1 ps l2 p1 prop p2,
      l = l1 ++ ps :: l2 /\ ps = p1 ++ prop :: p2 /\ Name prop = nom
      /\ NominalValue prop = Some v
      /\ Forall (sans_valeur nom) l1 /\ sans_valeur nom p1
  | None => Forall (sans_valeur nom) l
  end.
Proof.
  induction l as [|ps l IH]; simpl; [constructor|].
  pose proof (chercher_dans_pset_spec nom ps) as Hps.
  destruct (chercher_dans_pset nom ps) as [v|].
  - destruct Hps as (p1 & prop & p2 & H0 & H1 & H2 & H3).
    exists [], ps, l, p1, prop, p2. repeat split; auto.
  - destruct (chercher_dans_psets nom l) as [v|].
    + destruct IH as (l1 & ps' & l2 & p1 & prop & p2 & -> & H).
      exists (ps :: l1), ps', l2, p1, prop, p2.
      destruct H as (H0 & H1 & H2 & H3 & H4). repeat split; auto.
    + constructor; assumption.
Qed.

(** X5: [extraire_propriete_specifique] returns the value of the first
    property, in the order of the property sets and of the properties in
    a set, that has the requested name and carries a value; properties of
    that name without a value are passed over; it returns nothing exactly
    when no property of that name carries a value. *)
Theorem propriete_premiere_valeur (e : element) (nom : str) :
  (forall v,
      extraire_propriete_specifique e nom = Some v ->
      exists l1 ps l2 p1 prop p2,
        IsDefinedBy e = l1 ++ ps :: l2 /\ ps = p1 ++ prop :: p2
        /\ Name prop = nom /\ NominalValue prop = Some v
        /\ Forall (sans_valeur nom) l1 /\ sans_valeur nom p1)
  /\ (extraire_propriete_specifique e nom = None
      <-> forall v, ~ porte e nom v).
Proof.
  unfold extraire_propriete_specifique.
  pose proof (chercher_dans_psets_spec nom (IsDefinedBy e)) as H.
  destruct (chercher_dans_psets nom (IsDefinedBy e)) as [v|].
  - split.
    + intros v' E. injection E as <-. exact H.
    + split; [discriminate|]. intros Hn. exfalso.
      destruct H as (l1 & ps & l2 & p1 & prop & p2 & H0 & H1 & H2 & H3 & _).
      apply (Hn v). exists ps, prop. repeat split; auto.
      * rewrite H0. apply in_or_app. right. now left.
      * rewrite H1. apply in_or_app. right. now left.
  - split; [discriminate|]. split; [|reflexivity].
    intros _ v (ps & prop & Hps & Hprop & Hn & Hv).
    rewrite Forall_forall in H. specialize (H ps Hps prop Hprop Hn).
    congruence.
Qed.

(** ** Name variants *)

Lemma essayer_variantes_cas (e : element) (nom : str) :
  extraire_propriete_specifique e nom = None ->
  essayer_variantes e [nom; replace_char 32 95 nom; nom; nom; nom]
  = extraire_propriete_specifique e (replace_char 32 95 nom).
Proof.
  intros H. simpl. rewrite H.
  destruct (extraire_propriete_specifique e (replace_char 32 95 nom));
    reflexivity.
Qed.

Lemma chercher_valeur_date (e : element) (nom : str) :
  nom_ifc_de nom = nom -> contains (lit "Date") nom = true ->
  variantes nom = [nom; replace_char 32 95 nom; nom; nom; nom] ->
  chercher_valeur e nom
  = match extraire_propriete_specifique e nom with
    | Some v => Some v
    | None => extraire_propriete_specifique e (replace_char 32 95 nom)
    end.
Proof.
  intros H1 H2 H3. unfold chercher_valeur. rewrite H1, H2, H3.
  destruct (extraire_propriete_specifique e nom) eqn:E; [reflexivity|].
  now apply essayer_variantes_cas.
Qed.

(** X6: for the two date fields whose name holds [Date], a value that is
    not found under the schema name is looked for under the name written
    with underscores for spaces, and nowhere else; for every other field,
    [date mise en service] included, only the schema name is tried. *)
Theorem variantes_de_nom (e : element) :
  chercher_valeur e (lit "Date de fabrication")
  = match extraire_propriete_specifique e (lit "Date de fabrication") with
    | Some v => Some v
    | None => extraire_propriete_specifique e (lit "Date_de_fabrication")
    end
  /\ chercher_valeur e (lit "Date de réemploye")
     = match extraire_propriete_specifique e (lit "Date de réemploye") with
       | Some v => Some v
       | None => extraire_propriete_specifique e (lit "Date_de_réemploye")
       end
  /\ (forall nom,
         In nom (map fst parametres_obligatoires) ->
         nom <> lit "Date de fabrication" ->
         nom <> lit "Date de réemploye" ->
         chercher_valeur e nom = extraire_propriete_specifique e nom).
Proof.
  split; [|split].
  - apply (chercher_valeur_date e (lit "Date de fabrication"));
      vm_compute; reflexivity.
  - apply (chercher_valeur_date e (lit "Date de réemploye"));
      vm_compute; reflexivity.
  - intros nom Hin N1 N2. unfold chercher_valeur.
    rewrite nom_ifc_de_identite.
    destruct (extraire_propriete_specifique e nom); [reflexivity|].
    simpl in Hin.
    repeat (destruct Hin as [<-|Hin];
            [first [reflexivity | now elim N1 | now elim N2]|]).
    destruct Hin.
Qed.

End ProprietesRecherche.

Section ExemplesRecherche.
Local Existing Instance Exemple.runtime.

Lemma propriete_premiere_valeur_temoin :
  extraire_propriete_specifique Cas.poutre_soulignee
                                (lit "Date_de_fabrication")
  = Some (PStr (lit "13 01 2011"))
  /\ exists l1 ps l2 p1 prop p2,
      IsDefinedBy Cas.poutre_soulignee = l1 ++ ps :: l2
      /\ ps = p1 ++ prop :: p2
      /\ Name prop = lit "Date_de_fabrication"
      /\ NominalValue prop = Some (PStr (lit "13 01 2011"))
      /\ Forall (sans_valeur (lit "Date_de_fabrication")) l1
      /\ sans_valeur (lit "Date_de_fabrication") p1.
Proof.
  split; [reflexivity|].
  apply (proj1 (propriete_premiere_valeur Cas.poutre_soulignee
                  (lit "Date_de_fabrication"))).
  reflexivity.
Defined.

Lemma variantes_de_nom_temoin :
  chercher_valeur Cas.poutre_soulignee (lit "Date de fabrication")
  = Some (PStr (lit "13 01 2011"))
  /\ chercher_valeur Cas.poutre_soulignee (lit "date mise en service")
     = extraire_propriete_specifique Cas.poutre_soulignee
                                     (lit "date mise en service")
  /\ extraire_propriete_specifique Cas.poutre_soulignee
                                   (lit "date mise en service") = None.
Proof.
  split; [reflexivity|]. split; [|reflexivity].
  apply (proj2 (proj2 (variantes_de_nom Cas.poutre_soulignee))).
  - do 8 right. left. reflexivity.
  - vm_compute. discriminate.
  - vm_compute. discriminate.
Defined.

End ExemplesRecherche.

(* ================================================================== *)
(** * Further properties: the accepted record *)
(* ================================================================== *)

Section ProprietesRecord.
Context {B : Builtins}.

Lemma sans_doublon_NoDup (l : list str) : sans_doublon l = true -> NoDup l.
Proof.
  induction l as [|x l IH]; simpl; intros H; [constructor|].
  apply andb_true_iff in H as [H1 H2]. constructor; [|auto].
  intros Hin. apply negb_true_iff in H1.
  assert (existsb (str_eqb x) l = true).
  { apply existsb_exists. exists x. split; [exact Hin | apply str_eqb_refl]. }
  congruence.
Qed.

Lemma schema_sans_doublon : NoDup (map fst parametres_obligatoires).
Proof. apply sans_doublon_NoDup. vm_compute. reflexivity. Qed.

(** With no failing field the loop appends one validated value per
    schema entry. *)
Lemma boucle_sans_echec (e : element) (l : list (str * config))
  (acc : dict * list str) :
  NoDup (map fst l) ->
  (forall k, In k (map fst l) -> ~ In k (keys (fst acc))) ->
  forallb (fun entree => negb (champ_en_echec e entree)) l = true ->
  fst (fold_left (etape_propriete e) l acc)
  = fst acc
    ++ map (fun entree =>
              (fst entree,
               snd (valider_format (chercher_valeur e (fst entree))
                                   (format (snd entree)) (fst entree)))) l.
Proof.
  revert acc. induction l as [|entree l IH]; intros acc Hnd Hfresh Hok.
  - simpl. now rewrite app_nil_r.
  - cbn [fold_left map forallb] in *.
    apply andb_true_iff in Hok as [H1 H2]. apply negb_true_iff in H1.
    inversion Hnd as [|? ? Hnotin Hnd']; subst.
    rewrite IH; try assumption.
    + rewrite etape_propriete_cas, H1. cbn [fst].
      rewrite dict_set_absent by (apply Hfresh; now left).
      now rewrite <- app_assoc.
    + intros k Hk. rewrite etape_propriete_cas, H1. cbn [fst].
      rewrite keys_dict_set. intros [->|Hin]; [contradiction|].
      apply (Hfresh k); [now right | exact Hin].
Qed.

Lemma filter_vide_forallb {A : Type} (f : A -> bool) (l : list A) :
  filter f l = [] -> forallb (fun x => negb (f x)) l = true.
Proof.
  induction l as [|x l IH]; simpl; [reflexivity|].
  destruct (f x); [discriminate | exact IH].
Qed.

Lemma boucle_depuis_vide (e : element) (l : list (str * config)) :
  NoDup (map fst l) ->
  snd (fold_left (etape_propriete e) l ([], [])) = [] ->
  forallb (fun entree => negb (champ_en_echec e entree)) l = true
  /\ fst (fold_left (etape_propriete e) l ([], []))
     = map (fun entree =>
              (fst entree,
               snd (valider_format (chercher_valeur e (fst entree))
                                   (format (snd entree)) (fst entree)))) l.
Proof.
  intros Hnd Herr. rewrite boucle_erreurs in Herr. cbn [snd app] in Herr.
  apply map_eq_nil in Herr. apply filter_vide_forallb in Herr.
  split; [exact Herr|].
  rewrite boucle_sans_echec; [reflexivity | exact Hnd | | exact Herr].
  intros k _ [].
Qed.

Lemma boucle_proprietes_depliee (e : element) :
  boucle_proprietes e
  = fold_left (etape_propriete e) parametres_obligatoires ([], []).
Proof. unfold boucle_proprietes. reflexivity. Qed.

Lemma record_valide_deplie (e : element) :
  record_valide e
  = map (fun entree =>
           (fst entree,
            snd (valider_format (chercher_valeur e (fst entree))
                                (format (snd entree)) (fst entree))))
        parametres_obligatoires.
Proof. unfold record_valide. reflexivity. Qed.

Lemma extraction_acceptee (e : element) (p : dict) (erreurs : list str) :
  extraire_toutes_proprietes_element e = Return (p, erreurs) ->
  p = record_valide e /\ erreurs = []
  /\ forallb (fun entree => negb (champ_en_echec e entree))
             parametres_obligatoires = true.
Proof.
  intros H. apply extraction_retour in H as (Hp & He & Herr).
  rewrite boucle_proprietes_depliee in Hp, Herr.
  destruct (boucle_depuis_vide e parametres_obligatoires
                               schema_sans_doublon Herr) as [Hok Hfst].
  split; [|split; [exact He | exact Hok]].
  rewrite record_valide_deplie. exact (eq_trans Hp Hfst).
Qed.

Lemma keys_record_valide (e : element) :
  keys (record_valide e) = map fst parametres_obligatoires.
Proof.
  rewrite record_valide_deplie. unfold keys. rewrite map_map.
  apply map_ext. reflexivity.
Qed.

Lemma dict_get_membre (d : dict) (k : str) (v : jval) :
  NoDup (keys d) -> In (k, v) d -> dict_get k d = Some v.
Proof.
  induction d as [|[k0 v0] d IH]; intros Hnd Hmem; [destruct Hmem|].
  simpl in Hnd. inversion Hnd as [|? ? Hnotin Hnd']; subst.
  simpl. destruct Hmem as [E|Hmem].
  - injection E as E1 E2. subst. now rewrite str_eqb_refl.
  - destruct (str_eqb k0 k) eqn:Ek; [|auto].
    apply str_eqb_eq in Ek. subst k0. exfalso. apply Hnotin.
    apply in_map_iff. exists (k, v). auto.
Qed.

Lemma record_extrait_champ (e : element) (p : dict) (erreurs : list str)
  (nom : str) (cfg : config) :
  extraire_toutes_proprietes_element e = Return (p, erreurs) ->
  In (nom, cfg) parametres_obligatoires ->
  exists valeur canonique,
    chercher_valeur e nom = Some valeur
    /\ valider_format (Some valeur) (format cfg) nom = (true, canonique)
    /\ dict_get nom p = Some canonique.
Proof.
  intros H Hin. apply extraction_acceptee in H as (-> & -> & Hok).
  rewrite forallb_forall in Hok. specialize (Hok _ Hin).
  apply negb_true_iff in Hok. unfold champ_en_echec in Hok. cbn [fst snd] in Hok.
  destruct (chercher_valeur e nom) as [valeur|] eqn:Ev; [|discriminate].
  apply negb_false_iff in Hok.
  destruct (valider_format (Some valeur) (format cfg) nom) as [ok c] eqn:Vf.
  cbn [fst] in Hok. subst ok. exists valeur, c.
  split; [reflexivity|]. split; [exact Vf|].
  assert (Hnd : NoDup (keys (record_valide e))).
  { rewrite keys_record_valide. apply schema_sans_doublon. }
  assert (Hmem : In (nom, c) (record_valide e)).
  { rewrite record_valide_deplie. apply in_map_iff. exists (nom, cfg).
    cbn [fst snd]. rewrite Ev, Vf. auto. }
  now apply dict_get_membre.
Qed.

(** X7: a record returned by the extractor holds exactly the eleven
    schema fields, in schema order, no more and no fewer; each field holds
    the canonical value that [valider_format] returned, with success, for
    the value found for it in the element; the failure list returned with
    it is empty. *)
Theorem record_extrait_complet (e : element) (p : dict)
  (erreurs : list str) :
  extraire_toutes_proprietes_element e = Return (p, erreurs) ->
  erreurs = []
  /\ keys p = map fst parametres_obligatoires
  /\ List.length p = 11%nat
  /\ forall nom cfg,
      In (nom, cfg) parametres_obligatoires ->
      exists valeur canonique,
        chercher_valeur e nom = Some valeur
        /\ valider_format (Some valeur) (format cfg) nom = (true, canonique)
        /\ dict_get nom p = Some canonique.
Proof.
  intros H. split; [|split; [|split]].
  - now apply extraction_acceptee in H as (_ & -> & _).
  - apply extraction_acceptee in H as (-> & _ & _).
    apply keys_record_valide.
  - apply extraction_acceptee in H as (-> & _ & _).
    rewrite record_valide_deplie. now rewrite length_map.
  - intros nom cfg Hin. exact (record_extrait_champ e p erreurs nom cfg H Hin).
Qed.

Lemma keys_app (d1 d2 : dict) : keys (d1 ++ d2) = keys d1 ++ keys d2.
Proof. apply map_app. Qed.

Lemma calculer_hash_json_forme (d : dict) (h : str) :
  calculer_hash_json d = Some h ->
  len h = 64 /\ forallb hex_minuscule h = true.
Proof.
  unfold calculer_hash_json.
  destruct (encode_utf8 (json_dumps_sorted d)) as [o|]; [|discriminate].
  intros H. injection H as <-. apply hexdigest_forme.
Qed.

Lemma record_extrait_cles (e : element) (p : dict) (erreurs : list str) :
  extraire_toutes_proprietes_element e = Return (p, erreurs) ->
  keys p = map fst parametres_obligatoires /\ List.length p = 11%nat.
Proof.
  intros H. apply extraction_acceptee in H as (-> & _ & _).
  split; [apply keys_record_valide|].
  rewrite record_valide_deplie. now rewrite length_map.
Qed.

(** X8: the record of an accepted entity, as it is written, holds the
    eleven schema fields followed by [hash_ifc] and [hash_json], thirteen
    fields in all; both digests are strings of sixty-four lowercase
    hexadecimal characters and [hash_ifc] is the digest of the octets of
    the source file. *)
Theorem record_ecrit_treize_champs (e : element) (octets_ifc : bytes)
  (p r : dict) (erreurs : list str) (d d' : disque) :
  extraire_toutes_proprietes_element e = Return (p, erreurs) ->
  enregistrer_objet octets_ifc p d = (Return r, d') ->
  keys r = map fst parametres_obligatoires
           ++ [lit "hash_ifc"; lit "hash_json"]
  /\ List.length r = 13%nat
  /\ exists h_ifc h_json,
      dict_get (lit "hash_ifc") r = Some (JStr h_ifc)
      /\ dict_get (lit "hash_json") r = Some (JStr h_json)
      /\ h_ifc = Sha256.hexdigest octets_ifc
      /\ len h_ifc = 64 /\ forallb hex_minuscule h_ifc = true
      /\ len h_json = 64 /\ forallb hex_minuscule h_json = true.
Proof.
  intros Hex Hen.
  destruct (objet_deux_passes e octets_ifc p r erreurs d d' Hex Hen)
    as (h & Hh & Hr & _ & _ & Hgi & Hgj).
  destruct (calculer_hash_json_forme _ h Hh) as [L2 X2].
  destruct (hexdigest_forme octets_ifc) as [L1 X1].
  assert (Hk : keys r = keys p ++ [lit "hash_ifc"; lit "hash_json"]).
  { rewrite Hr, keys_app, dict_set_absent, keys_app, <- app_assoc.
    - reflexivity.
    - intros Hin. apply extraction_retour in Hex as (-> & _ & _).
      apply boucle_proprietes_cles in Hin.
      apply hash_hors_schema in Hin. now destruct Hin as [Hin _]. }
  destruct (record_extrait_cles e p erreurs Hex) as [Kp Lp].
  split; [now rewrite Hk, Kp|]. split.
  - apply (f_equal (@List.length str)) in Hk.
    rewrite length_app in Hk. unfold keys in Hk. rewrite !length_map in Hk.
    rewrite Hk, Lp. reflexivity.
  - exists (Sha256.hexdigest octets_ifc), h. repeat split; assumption.
Qed.

End ProprietesRecord.

Section ExemplesRecord.
Local Existing Instance Exemple.runtime.

Lemma record_extrait_complet_temoin :
  keys Exemple.record_scenario = map fst parametres_obligatoires
  /\ List.length Exemple.record_scenario = 11%nat.
Proof.
  destruct (record_extrait_complet Exemple.poutre_scenario
              Exemple.record_scenario [] scenario_extrait)
    as (_ & H1 & H2 & _).
  split; assumption.
Defined.

Lemma record_ecrit_treize_champs_temoin :
  keys Exemple.complet_scenario
  = map fst parametres_obligatoires ++ [lit "hash_ifc"; lit "hash_json"]
  /\ List.length Exemple.complet_scenario = 13%nat.
Proof.
  destruct (record_ecrit_treize_champs Exemple.poutre_scenario
              Exemple.octets_scenario Exemple.record_scenario
              Exemple.complet_scenario [] []
              (snd (enregistrer_objet Exemple.octets_scenario
                                      Exemple.record_scenario []))
              scenario_extrait scenario_enregistre)
    as (H1 & H2 & _).
  split; assumption.
Defined.

End ExemplesRecord.

(* ================================================================== *)
(** * Further properties: what is written *)
(* ================================================================== *)

Section ProprietesEcriture.
Context {B : Builtins}.

(** ** Text that encodes is Unicode text, and conversely *)















(** ** Counting the elements *)

Lemma traiter_element_un_de_plus (octets_ifc : bytes) (st : etat)
  (e : element) :
  objets_crees (traiter_element octets_ifc st e)
  + erreurs_totales (traiter_element octets_ifc st e)
  = objets_crees st + erreurs_totales st + 1
  /\ objets_crees st <= objets_crees (traiter_element octets_ifc st e)
  /\ erreurs_totales st <= erreurs_totales (traiter_element octets_ifc st e).
Proof.
  unfold traiter_element, compter_erreur.
  destruct (extraire_toutes_proprietes_element e) as [[p erreurs]|ex];
    [|simpl; lia].
  destruct erreurs; [|simpl; lia].
  destruct (enregistrer_objet octets_ifc p (sorties st)) as [[r|ex] d];
    simpl; lia.
Qed.

Lemma fold_left_compte {A : Type} (f : etat -> A -> etat) :
  (forall s x,
      objets_crees (f s x) + erreurs_totales (f s x)
      = objets_crees s + erreurs_totales s + 1
      /\ objets_crees s <= objets_crees (f s x)
      /\ erreurs_totales s <= erreurs_totales (f s x)) ->
  forall l s,
    objets_crees (fold_left f l s) + erreurs_totales (fold_left f l s)
    = objets_crees s + erreurs_totales s + Z.of_nat (List.length l)
    /\ objets_crees s <= objets_crees (fold_left f l s)
    /\ erreurs_totales s <= erreurs_totales (fold_left f l s).
Proof.
  intros Hf l. induction l as [|x l IH]; intros s.
  - cbn [fold_left List.length]. lia.
  - cbn [fold_left]. destruct (IH (f s x)) as (H1 & H2 & H3).
    destruct (Hf s x) as (G1 & G2 & G3).
    rewrite H1. cbn [List.length]. lia.
Qed.

(** X10: in [traiter_fichier_maquette] every element of the model is
    counted exactly once, as an object created or as an error: after the
    loop the two counters add up to the number of elements, and a file
    reported as a success reports counters with that sum. *)
Theorem chaque_element_compte (f : fichier) (rep : reponses) (d : disque)
  (m : modele_ifc) :
  ouverture f = Return m ->
  objets_crees (boucle_elements f m d) + erreurs_totales (boucle_elements f m d)
  = Z.of_nat (List.length (elements_du_modele m))
  /\ 0 <= objets_crees (boucle_elements f m d)
  /\ 0 <= erreurs_totales (boucle_elements f m d)
  /\ forall n k chemin_maquette,
      fst (traiter_fichier_maquette f rep d) = Succes n k chemin_maquette ->
      n + k = Z.of_nat (List.length (elements_du_modele m))
      /\ 1 <= n /\ 0 <= k.
Proof.
  intros Ho.
  destruct (fold_left_compte (traiter_element (contenu f))
              (traiter_element_un_de_plus (contenu f))
              (elements_du_modele m) (mkEtat 0 0 d)) as (H1 & H2 & H3).
  fold (boucle_elements f m d) in H1, H2, H3.
  cbn [objets_crees erreurs_totales] in H1, H2, H3.
  repeat split; try lia.
  - unfold traiter_fichier_maquette in H. rewrite Ho in H.
    destruct (collecter_metadonnees_maquette m rep) as [md|ex];
      [|discriminate].
    destruct (dict_get (lit "ID_maquette") md) as [id|]; [|discriminate].
    destruct (dict_get (lit "nom_maquette") md) as [[nom|x]|];
      try discriminate.
    fold (boucle_elements f m d) in H. unfold finir_maquette in H.
    destruct (objets_crees (boucle_elements f m d) =? 0); [discriminate|].
    destruct (ajouter_hashes _ _ (contenu f) md) as [complet|];
      [|discriminate].
    destruct (encode_utf8 (json_dump_indent2 complet)); [|discriminate].
    cbn [fst] in H. injection H as <- <- _. lia.
  - unfold traiter_fichier_maquette in H. rewrite Ho in H.
    destruct (collecter_metadonnees_maquette m rep) as [md|ex];
      [|discriminate].
    destruct (dict_get (lit "ID_maquette") md) as [id|]; [|discriminate].
    destruct (dict_get (lit "nom_maquette") md) as [[nom|x]|];
      try discriminate.
    fold (boucle_elements f m d) in H. unfold finir_maquette in H.
    destruct (Z.eqb_spec (objets_crees (boucle_elements f m d)) 0);
      [discriminate|].
    destruct (ajouter_hashes _ _ (contenu f) md) as [complet|];
      [|discriminate].
    destruct (encode_utf8 (json_dump_indent2 complet)); [|discriminate].
    cbn [fst] in H. injection H as <- _ _. lia.
  - unfold traiter_fichier_maquette in H. rewrite Ho in H.
    destruct (collecter_metadonnees_maquette m rep) as [md|ex];
      [|discriminate].
    destruct (dict_get (lit "ID_maquette") md) as [id|]; [|discriminate].
    destruct (dict_get (lit "nom_maquette") md) as [[nom|x]|];
      try discriminate.
    fold (boucle_elements f m d) in H. unfold finir_maquette in H.
    destruct (objets_crees (boucle_elements f m d) =? 0); [discriminate|].
    destruct (ajouter_hashes _ _ (contenu f) md) as [complet|];
      [|discriminate].
    destruct (encode_utf8 (json_dump_indent2 complet)); [|discriminate].
    cbn [fst] in H. injection H as _ <- _. lia.
Qed.

End ProprietesEcriture.

(* ================================================================== *)
(** * Further properties: files, models and batches *)
(* ================================================================== *)

Section ProprietesSorties.
Context {B : Builtins}.

(** ** The output tree only grows, and is never read *)

Lemma enregistrer_objet_disque (octets_ifc : bytes) (p : dict) (d : disque) :
  enregistrer_objet octets_ifc p d
  = (fst (enregistrer_objet octets_ifc p []),
     snd (enregistrer_objet octets_ifc p []) ++ d).
Proof.
  unfold enregistrer_objet.
  destruct (ajouter_hashes _ _ octets_ifc p) as [complet|]; [|reflexivity].
  destruct (nom_fichier_objet complet) as [nom|]; [|reflexivity].
  destruct (encode_utf8 (json_dump_indent2 complet)); reflexivity.
Qed.

Lemma traiter_element_disque (octets_ifc : bytes) (s0 s : etat) (e : element)
  (d : disque) :
  objets_crees s = objets_crees s0 /\ erreurs_totales s = erreurs_totales s0
  /\ sorties s = sorties s0 ++ d ->
  objets_crees (traiter_element octets_ifc s e)
  = objets_crees (traiter_element octets_ifc s0 e)
  /\ erreurs_totales (traiter_element octets_ifc s e)
     = erreurs_totales (traiter_element octets_ifc s0 e)
  /\ sorties (traiter_element octets_ifc s e)
     = sorties (traiter_element octets_ifc s0 e) ++ d.
Proof.
  intros (H1 & H2 & H3). unfold traiter_element, compter_erreur.
  destruct (extraire_toutes_proprietes_element e) as [[p erreurs]|ex];
    [|cbn [objets_crees erreurs_totales sorties]; repeat split; congruence].
  destruct erreurs;
    [|cbn [objets_crees erreurs_totales sorties]; repeat split; congruence].
  rewrite H3, (enregistrer_objet_disque octets_ifc p (sorties s0 ++ d)),
    (enregistrer_objet_disque octets_ifc p (sorties s0)).
  destruct (enregistrer_objet octets_ifc p []) as [[r|ex] w];
    cbn [fst snd objets_crees erreurs_totales sorties];
    rewrite app_assoc; repeat split; congruence.
Qed.

Lemma fold_left_lie {A S : Type} (R : S -> S -> Prop) (f : S -> A -> S) :
  (forall s s' x, R s s' -> R (f s x) (f s' x)) ->
  forall l s s', R s s' -> R (fold_left f l s) (fold_left f l s').
Proof.
  intros Hf l. induction l as [|x l IH]; intros s s' H; [exact H|].
  cbn [fold_left]. apply IH, Hf, H.
Qed.

Lemma boucle_elements_disque (f : fichier) (m : modele_ifc) (d : disque) :
  objets_crees (boucle_elements f m d) = objets_crees (boucle_elements f m [])
  /\ erreurs_totales (boucle_elements f m d)
     = erreurs_totales (boucle_elements f m [])
  /\ sorties (boucle_elements f m d) = sorties (boucle_elements f m []) ++ d.
Proof.
  unfold boucle_elements.
  apply (fold_left_lie
           (fun s0 s =>
              objets_crees s = objets_crees s0
              /\ erreurs_totales s = erreurs_totales s0
              /\ sorties s = sorties s0 ++ d)
           (traiter_element (contenu f))).
  - intros s s' x H. now apply traiter_element_disque.
  - cbn [objets_crees erreurs_totales sorties]. auto.
Qed.

Lemma finir_maquette_disque (f : fichier) (md : dict) (dossier nom : str)
  (s0 s : etat) (d : disque) :
  objets_crees s = objets_crees s0 /\ erreurs_totales s = erreurs_totales s0
  /\ sorties s = sorties s0 ++ d ->
  finir_maquette f md dossier nom s
  = (fst (finir_maquette f md dossier nom s0),
     snd (finir_maquette f md dossier nom s0) ++ d).
Proof.
  intros (H1 & H2 & H3). unfold finir_maquette. rewrite H1, H2, H3.
  destruct (objets_crees s0 =? 0); [reflexivity|].
  destruct (ajouter_hashes _ _ (contenu f) md) as [complet|]; [|reflexivity].
  destruct (encode_utf8 (json_dump_indent2 complet)); reflexivity.
Qed.

Lemma traiter_fichier_maquette_disque (f : fichier) (rep : reponses)
  (d : disque) :
  traiter_fichier_maquette f rep d
  = (fst (traiter_fichier_maquette f rep []),
     snd (traiter_fichier_maquette f rep []) ++ d).
Proof.
  unfold traiter_fichier_maquette.
  destruct (ouverture f) as [m|ex]; [|reflexivity].
  destruct (collecter_metadonnees_maquette m rep) as [md|ex]; [|reflexivity].
  destruct (dict_get (lit "ID_maquette") md) as [id|]; [|reflexivity].
  destruct (dict_get (lit "nom_maquette") md) as [[nom|x]|];
    try reflexivity.
  fold (boucle_elements f m d). fold (boucle_elements f m []).
  apply finir_maquette_disque, boucle_elements_disque.
Qed.

Lemma traiter_objet_unitaire_disque (f : fichier) (d : disque) :
  traiter_objet_unitaire f d
  = (fst (traiter_objet_unitaire f []),
     snd (traiter_objet_unitaire f []) ++ d).
Proof.
  unfold traiter_objet_unitaire.
  destruct (ouverture f) as [m|ex]; [|reflexivity].
  destruct (choisir_element m) as [e|]; [|reflexivity].
  destruct (extraire_toutes_proprietes_element e) as [[p erreurs]|ex];
    [|reflexivity].
  destruct erreurs; [|reflexivity].
  rewrite (enregistrer_objet_disque (contenu f) p d).
  destruct (enregistrer_objet (contenu f) p []) as [[r|ex] w]; reflexivity.
Qed.

Lemma traiter_un_fichier_disque (choix : type_traitement)
  (acc0 acc : stats * disque) (fr : fichier * reponses) (d : disque) :
  fst acc = fst acc0 /\ snd acc = snd acc0 ++ d ->
  fst (traiter_un_fichier choix acc fr)
  = fst (traiter_un_fichier choix acc0 fr)
  /\ snd (traiter_un_fichier choix acc fr)
     = snd (traiter_un_fichier choix acc0 fr) ++ d.
Proof.
  intros [H1 H2]. unfold traiter_un_fichier. rewrite H1, H2.
  destruct choix.
  - rewrite (traiter_fichier_maquette_disque (fst fr) (snd fr)
               (snd acc0 ++ d)),
      (traiter_fichier_maquette_disque (fst fr) (snd fr) (snd acc0)).
    cbn [fst snd].
    destruct (fst (traiter_fichier_maquette (fst fr) (snd fr) []));
      cbn [fst snd]; rewrite app_assoc; auto.
  - rewrite (traiter_objet_unitaire_disque (fst fr) (snd acc0 ++ d)),
      (traiter_objet_unitaire_disque (fst fr) (snd acc0)).
    cbn [fst snd].
    destruct (status_success (fst (traiter_objet_unitaire (fst fr) [])));
      cbn [fst snd]; rewrite app_assoc; auto.
Qed.

(** X11: the output tree is never read.  Whatever has been written
    before, a mock-up file, a single-object file and a whole batch give
    the result they give on an empty tree and perform the same writes,
    placed in front of the earlier ones: no result depends on an earlier
    file, and an earlier file is never deleted, only replaced when a new
    write goes to its path. *)
Theorem sorties_jamais_lues (d : disque) :
  (forall f rep,
      traiter_fichier_maquette f rep d
      = (fst (traiter_fichier_maquette f rep []),
         snd (traiter_fichier_maquette f rep []) ++ d))
  /\ (forall f,
         traiter_objet_unitaire f d
         = (fst (traiter_objet_unitaire f []),
            snd (traiter_objet_unitaire f []) ++ d))
  /\ (forall fichiers_ifc choix,
         traiter_tous_fichiers fichiers_ifc choix d
         = (fst (traiter_tous_fichiers fichiers_ifc choix []),
            snd (traiter_tous_fichiers fichiers_ifc choix []) ++ d)).
Proof.
  split; [|split].
  - intros f rep. apply traiter_fichier_maquette_disque.
  - intros f. apply traiter_objet_unitaire_disque.
  - intros l choix. unfold traiter_tous_fichiers.
    destruct l as [|fr l]; [reflexivity|].
    set (n := Z.of_nat (List.length (fr :: l))).
    destruct (fold_left_lie
                (fun acc0 acc : stats * disque =>
                   fst acc = fst acc0 /\ snd acc = snd acc0 ++ d)
                (traiter_un_fichier choix)
                (fun s s' x H => traiter_un_fichier_disque choix s s' x d H)
                (fr :: l) (mkStats n 0 0 0 0, []) (mkStats n 0 0 0 0, d))
      as [H1 H2]; [cbn [fst snd]; auto|].
    cbn [fst snd]. now rewrite H1, H2.
Qed.

(** ** What a file leaves in the output tree *)





(** ** The single-object operation *)




End ProprietesSorties.

(* ================================================================== *)
(** * Further properties: model metadata, prompts and statistics *)
(* ================================================================== *)

Section ProprietesLot.
Context {B : Builtins}.

(** ** The identifier of the model *)

Lemma id_maquette_dans_pset_spec (ps : property_set) :
  match id_maquette_dans_pset ps with
  | Some id => porte_id_maquette ps id
  | None => forall id, ~ porte_id_maquette ps id
  end.
Proof.
  induction ps as [|prop r IH]; cbn [id_maquette_dans_pset].
  - intros id (prop & v & [] & _).
  - assert (Hsuite :
              (forall v, Name prop = lit "ID_maquette" ->
                         NominalValue prop = Some v ->
                         isdigit (str_of v) && (len (str_of v) =? 12)
                         = false) ->
              match id_maquette_dans_pset r with
              | Some id => porte_id_maquette (prop :: r) id
              | None => forall id, ~ porte_id_maquette (prop :: r) id
              end).
    { intros Hp. destruct (id_maquette_dans_pset r) as [id|].
      - destruct IH as (q & v & Hin & H). exists q, v. split; [now right|].
        exact H.
      - intros id (q & v & [<-|Hin] & Hn & Hv & Hs & Hd & Hl).
        + specialize (Hp v Hn Hv). rewrite Hs, Hd in Hp.
          rewrite (proj2 (Z.eqb_eq _ _) Hl) in Hp. discriminate.
        + apply (IH id). exists q, v. auto 10. }
    destruct (str_eqb (Name prop) (lit "ID_maquette")) eqn:En.
    + apply str_eqb_eq in En.
      destruct (NominalValue prop) as [v|] eqn:Ev.
      * destruct (isdigit (str_of v) && (len (str_of v) =? 12)) eqn:Ed.
        -- apply andb_true_iff in Ed as [Hd Hl]. apply Z.eqb_eq in Hl.
           exists prop, v. split; [now left|]. auto 10.
        -- apply Hsuite. intros v' _ Hv'. injection Hv' as <-. exact Ed.
      * apply Hsuite. intros v' _ Hv'. discriminate.
    + apply Hsuite. intros v' Hn _. rewrite Hn, str_eqb_refl in En.
      discriminate.
Qed.

Lemma chercher_id_maquette_cas (l : list property_set) (acc : option str) :
  let etape := fun (id_maquette : option str) ps =>
                 match id_maquette_dans_pset ps with
                 | Some v => Some v
                 | None => id_maquette
                 end in
  (Forall (fun ps => id_maquette_dans_pset ps = None) l
   /\ fold_left etape l acc = acc)
  \/ (exists avant ps apres id,
         l = avant ++ ps :: apres
         /\ id_maquette_dans_pset ps = Some id
         /\ Forall (fun ps' => id_maquette_dans_pset ps' = None) apres
         /\ fold_left etape l acc = Some id).
Proof.
  intros etape. revert acc. induction l as [|x r IH]; intros acc.
  - left. split; [constructor | reflexivity].
  - cbn [fold_left].
    destruct (IH (etape acc x))
      as [[Hr Hf]|(avant & ps & apres & id & -> & Hps & Hap & Hf)].
    + destruct (id_maquette_dans_pset x) as [id|] eqn:Ex.
      * right. exists [], x, r, id. repeat split; auto.
        rewrite Hf. unfold etape. now rewrite Ex.
      * left. split; [now constructor|]. rewrite Hf. unfold etape.
        now rewrite Ex.
    + right. exists (x :: avant), ps, apres, id. repeat split; auto.
Qed.

(** X14: the model identifier is read from the file, never typed.
    [collecter_metadonnees_maquette] raises its ValueError exactly when
    no property set holds a property [ID_maquette] whose value reads as
    twelve digits.  Otherwise the metadata have the seven keys, in their
    order, and the identifier stored is such a value, taken from the
    last property set that holds one; it is twelve digits that the
    twelve-digit format of the schema accepts unchanged. *)
Theorem identifiant_maquette_lu_dans_le_fichier (m : modele_ifc)
  (rep : reponses) :
  (collecter_metadonnees_maquette m rep
   = Raise (ValueError (lit "ID_maquette manquant dans le fichier IFC"))
   <-> forall ps id, In ps (property_sets m) -> ~ porte_id_maquette ps id)
  /\ (forall ex, collecter_metadonnees_maquette m rep = Raise ex ->
                 ex = ValueError
                        (lit "ID_maquette manquant dans le fichier IFC"))
  /\ (forall md,
         collecter_metadonnees_maquette m rep = Return md ->
         keys md = [ lit "ID_maquette"; lit "nom_maquette";
                     lit "nom_architecte"; lit "coordonnees_geographiques";
                     lit "programme"; lit "date livraison";
                     lit "date depot" ]
         /\ exists id avant ps apres,
             dict_get (lit "ID_maquette") md = Some (JStr id)
             /\ property_sets m = avant ++ ps :: apres
             /\ porte_id_maquette ps id
             /\ (forall ps' id', In ps' apres -> ~ porte_id_maquette ps' id')
             /\ forall nom,
                 valider_format (Some (PStr id)) (lit "12_chiffres") nom
                 = (true, JStr id)).
Proof.
  unfold collecter_metadonnees_maquette, chercher_id_maquette.
  destruct (chercher_id_maquette_cas (property_sets m) None)
    as [[Hr Hf]|(avant & ps & apres & id & Hl & Hps & Hap & Hf)];
    cbv zeta in Hf; rewrite Hf.
  - split; [|split].
    + split; [|reflexivity]. intros _ ps id Hin.
      rewrite Forall_forall in Hr. specialize (Hr ps Hin).
      pose proof (id_maquette_dans_pset_spec ps) as Hs. rewrite Hr in Hs.
      apply Hs.
    + intros ex H. now injection H as <-.
    + intros md H. discriminate.
  - pose proof (id_maquette_dans_pset_spec ps) as Hs. rewrite Hps in Hs.
    split; [|split].
    + split; [discriminate|]. intros H. exfalso. apply (H ps id); [|exact Hs].
      rewrite Hl. apply in_or_app. right. now left.
    + intros ex H. discriminate.
    + intros md H. injection H as <-. split; [reflexivity|].
      exists id, avant, ps, apres. split; [reflexivity|].
      split; [exact Hl|]. split; [exact Hs|]. split.
      * intros ps' id' Hin. rewrite Forall_forall in Hap.
        specialize (Hap ps' Hin).
        pose proof (id_maquette_dans_pset_spec ps') as Hs'.
        rewrite Hap in Hs'. apply Hs'.
      * intros nom. destruct Hs as (prop & v & _ & _ & _ & _ & Hd & Hlen).
        rewrite valider_format_12. unfold valider_chiffres.
        cbn [str_of]. rewrite Hd.
        rewrite (proj2 (Z.eqb_eq _ _) Hlen). reflexivity.
Qed.

(** ** The prompt for the kind of processing *)

Lemma strip_un_ou_deux :
  str_eqb (lit "1") (lit "2") = false /\ str_eqb (lit "2") (lit "1") = false.
Proof. split; reflexivity. Qed.

(** X15: [demander_type_traitement] asks again until a line reads [1] or
    [2] once surrounding whitespace is removed: the lines before it that
    read otherwise are skipped and those after it are not consumed; [1]
    selects the mock-up processing and [2] the single-object processing;
    no answer is returned when every line typed is invalid. *)
Theorem type_traitement_premiere_reponse_valide (avant apres : list str)
  (ligne : str) :
  forallb choix_invalide avant = true ->
  (strip ligne = lit "1" ->
   demander_type_traitement (avant ++ ligne :: apres) = Some maquette)
  /\ (strip ligne = lit "2" ->
      demander_type_traitement (avant ++ ligne :: apres) = Some objets)
  /\ demander_type_traitement avant = None.
Proof.
  intros Hav. induction avant as [|x r IH].
  - cbn [app demander_type_traitement]. split; [|split].
    + intros ->. now rewrite str_eqb_refl.
    + intros ->. rewrite (proj2 strip_un_ou_deux). now rewrite str_eqb_refl.
    + reflexivity.
  - cbn [forallb] in Hav. apply andb_true_iff in Hav as [Hx Hr].
    unfold choix_invalide in Hx. apply andb_true_iff in Hx as [H1 H2].
    apply negb_true_iff in H1, H2.
    cbn [app demander_type_traitement]. rewrite H1, H2. exact (IH Hr).
Qed.

(** ** The statistics of a batch *)

Lemma traiter_fichier_maquette_cas (f : fichier) (rep : reponses)
  (d : disque) :
  (exists message, fst (traiter_fichier_maquette f rep d) = Erreur message)
  \/ (exists n k chemin_maquette,
         fst (traiter_fichier_maquette f rep d) = Succes n k chemin_maquette
         /\ 1 <= n /\ 0 <= k).
Proof.
  unfold traiter_fichier_maquette.
  destruct (ouverture f) as [m|ex]; [|left; eexists; reflexivity].
  destruct (collecter_metadonnees_maquette m rep) as [md|ex];
    [|left; eexists; reflexivity].
  destruct (dict_get (lit "ID_maquette") md) as [id|];
    [|left; eexists; reflexivity].
  destruct (dict_get (lit "nom_maquette") md) as [[nom|x]|];
    try (left; eexists; reflexivity).
  fold (boucle_elements f m d).
  destruct (fold_left_compte (traiter_element (contenu f))
              (traiter_element_un_de_plus (contenu f))
              (elements_du_modele m) (mkEtat 0 0 d)) as (_ & H2 & H3).
  fold (boucle_elements f m d) in H2, H3.
  cbn [objets_crees erreurs_totales] in H2, H3.
  unfold finir_maquette.
  destruct (Z.eqb_spec (objets_crees (boucle_elements f m d)) 0);
    [left; eexists; reflexivity|].
  destruct (ajouter_hashes _ _ (contenu f) md) as [complet|];
    [|left; eexists; reflexivity].
  destruct (encode_utf8 (json_dump_indent2 complet));
    [|left; eexists; reflexivity].
  right. do 3 eexists. split; [reflexivity|]. lia.
Qed.

Lemma fold_left_invariant {A S : Type} (P : S -> Prop) (f : S -> A -> S) :
  (forall s x, P s -> P (f s x)) ->
  forall l s, P s -> P (fold_left f l s).
Proof.
  intros Hf l. induction l as [|x l IH]; intros s H; [exact H|].
  cbn [fold_left]. apply IH, Hf, H.
Qed.

Lemma traiter_un_fichier_bilan (choix : type_traitement)
  (acc : stats * disque) (fr : fichier * reponses) :
  let bilan := fun s : stats =>
    0 <= success s /\ 0 <= errors s /\ 0 <= objets_ignores s
    /\ success s <= stat_objets_crees s
    /\ (success s = 0 -> stat_objets_crees s = 0)
    /\ (choix = objets ->
        stat_objets_crees s = success s /\ objets_ignores s = errors s) in
  bilan (fst acc) -> bilan (fst (traiter_un_fichier choix acc fr)).
Proof.
  intros bilan (H1 & H2 & H3 & H4 & H5 & H6). unfold traiter_un_fichier.
  destruct choix.
  - destruct (traiter_fichier_maquette_cas (fst fr) (snd fr) (snd acc))
      as [[msg E]|(n & k & c & E & Hn & Hk)]; rewrite E; unfold bilan;
      cbn [fst success errors objets_ignores stat_objets_crees];
      repeat split; try lia; discriminate.
  - specialize (H6 eq_refl). destruct H6 as [H6 H7].
    destruct (status_success (fst (traiter_objet_unitaire (fst fr) (snd acc))));
      unfold bilan;
      cbn [fst success errors objets_ignores stat_objets_crees];
      repeat split; try lia.
Qed.

(** X16: the statistics printed at the end of a batch.  No statistics
    exist only for an empty batch.  Otherwise none of the counters is
    negative, the objects created are at least as many as the files in
    success, and at least one object was created exactly when at least
    one file succeeded (the condition of the final ready message); in
    the single-object processing the objects created are the files in
    success and the objects ignored are the files in error. *)
Theorem bilan_du_lot (fichiers_ifc : list (fichier * reponses))
  (choix : type_traitement) (d : disque) :
  (fst (traiter_tous_fichiers fichiers_ifc choix d) = None
   <-> fichiers_ifc = [])
  /\ (forall s,
         fst (traiter_tous_fichiers fichiers_ifc choix d) = Some s ->
         0 <= success s /\ 0 <= errors s /\ 0 <= objets_ignores s
         /\ success s <= stat_objets_crees s
         /\ (0 < stat_objets_crees s <-> 0 < success s)
         /\ (choix = objets ->
             stat_objets_crees s = success s
             /\ objets_ignores s = errors s)).
Proof.
  unfold traiter_tous_fichiers. destruct fichiers_ifc as [|fr l].
  - split; [tauto|]. intros s H. discriminate.
  - split; [split; discriminate|]. intros s H.
    set (n := Z.of_nat (List.length (fr :: l))) in H.
    assert (Hs : s = fst (fold_left (traiter_un_fichier choix) (fr :: l)
                                    (mkStats n 0 0 0 0, d)))
      by (injection H as <-; reflexivity).
    clear H. subst s.
    destruct (fold_left_invariant
                (fun acc : stats * disque =>
                   0 <= success (fst acc) /\ 0 <= errors (fst acc)
                   /\ 0 <= objets_ignores (fst acc)
                   /\ success (fst acc) <= stat_objets_crees (fst acc)
                   /\ (success (fst acc) = 0
                       -> stat_objets_crees (fst acc) = 0)
                   /\ (choix = objets ->
                       stat_objets_crees (fst acc) = success (fst acc)
                       /\ objets_ignores (fst acc) = errors (fst acc)))
                (traiter_un_fichier choix)
                (traiter_un_fichier_bilan choix)
                (fr :: l) (mkStats n 0 0 0 0, d))
      as (H1 & H2 & H3 & H4 & H5 & H6).
    { cbn [fst success errors objets_ignores stat_objets_crees].
      repeat split; try lia; auto. }
    split; [exact H1|]. split; [exact H2|]. split; [exact H3|].
    split; [exact H4|]. split; [|exact H6].
    destruct (Z.eq_dec (success (fst (fold_left (traiter_un_fichier choix)
                                               (fr :: l)
                                               (mkStats n 0 0 0 0, d)))) 0)
      as [Z0|Z0]; [specialize (H5 Z0)|]; lia.
Qed.

End ProprietesLot.

(* ================================================================== *)
(** * Further properties: the earlier extractor *)
(* ================================================================== *)

Section ProprietesAncienExtracteur.
Context {B : Builtins}.

(** ** Dates written with hyphens *)

Lemma isdecimal_ascii (c : Z) :
  ascii_digit c = true -> R9.isdecimal c = true.
Proof.
  intros H. unfold R9.isdecimal, decimal_value.
  pose proof (proj1 (ascii_digit_bornes c) H) as Hb.
  rewrite (proj2 (Z.ltb_lt c 128)) by lia. now rewrite H.
Qed.

Lemma motif_date_sans_espace (s : str) :
  R9.motif_date s = true -> ~ In 32 s.
Proof.
  unfold R9.motif_date.
  destruct s as [|d1 [|d2 [|t1 [|m1 [|m2 [|t2 [|y1 [|y2 [|y3 [|y4 fin]]]]]]]]]];
    try discriminate.
  intros H.
  apply andb_true_iff in H as [H Hfin].
  apply andb_true_iff in H as [H Hy4]. apply andb_true_iff in H as [H Hy3].
  apply andb_true_iff in H as [H Hy2]. apply andb_true_iff in H as [H Hy1].
  apply andb_true_iff in H as [H Ht2]. apply andb_true_iff in H as [H Hm2].
  apply andb_true_iff in H as [H Hm1]. apply andb_true_iff in H as [H Ht1].
  apply andb_true_iff in H as [Hd1 Hd2].
  assert (Hdec : forall c, R9.isdecimal c = true -> c <> 32).
  { intros c Hc ->. discriminate Hc. }
  apply Z.eqb_eq in Ht1, Ht2.
  intros Hin. cbn [In] in Hin.
  destruct Hin as [E|[E|[E|[E|[E|[E|[E|[E|[E|[E|Hin]]]]]]]]]];
    try (revert E; apply Hdec; assumption); try lia.
  destruct fin as [|nl [|x r]]; [destruct Hin| |discriminate].
  apply Z.eqb_eq in Hfin. destruct Hin as [E|[]]. lia.
Qed.

Lemma chiffres_2_forme (n : Z) :
  chiffres 2 n = [48 + (n / 10) mod 10; 48 + n mod 10].
Proof.
  cbn [chiffres]. change (10 ^ Z.of_nat 1) with 10.
  change (10 ^ Z.of_nat 0) with 1. now rewrite Z.div_1_r.
Qed.

Lemma chiffres_4_forme (n : Z) :
  chiffres 4 n
  = [48 + (n / 1000) mod 10; 48 + (n / 100) mod 10;
     48 + (n / 10) mod 10; 48 + n mod 10].
Proof.
  cbn [chiffres]. change (10 ^ Z.of_nat 3) with 1000.
  change (10 ^ Z.of_nat 2) with 100. change (10 ^ Z.of_nat 1) with 10.
  change (10 ^ Z.of_nat 0) with 1. now rewrite Z.div_1_r.
Qed.

(** The two digits of a day and of a month match the directives of
    [strptime]. *)
Lemma directive_jour (j : Z) :
  1 <= j <= 31 ->
  ((48 + (j / 10) mod 10 =? 51)
   && ((48 + j mod 10 =? 48) || (48 + j mod 10 =? 49))
   || ((48 + (j / 10) mod 10 =? 49) || (48 + (j / 10) mod 10 =? 50))
      && R9.isdecimal (48 + j mod 10)
   || (48 + (j / 10) mod 10 =? 48) && (49 <=? 48 + j mod 10)
      && (48 + j mod 10 <=? 57)) = true.
Proof.
  intros Hj.
  assert (Hd : R9.isdecimal (48 + j mod 10) = true).
  { apply isdecimal_ascii, ascii_digit_bornes.
    pose proof (Z.mod_pos_bound j 10 ltac:(lia)). lia. }
  rewrite Hd.
  assert (Hq : 0 <= j / 10 <= 3).
  { split; [apply Z.div_pos; lia|].
    apply Z.lt_succ_r, Z.div_lt_upper_bound; lia. }
  rewrite (Z.mod_small (j / 10) 10) by lia.
  pose proof (Z.div_mod j 10 ltac:(lia)) as Hdm.
  pose proof (Z.mod_pos_bound j 10 ltac:(lia)) as Hr.
  destruct (Z.eqb_spec (48 + j / 10) 51); cbn [andb orb].
  - destruct (Z.eqb_spec (48 + j mod 10) 48); [reflexivity|].
    destruct (Z.eqb_spec (48 + j mod 10) 49); [reflexivity|]. lia.
  - destruct (Z.eqb_spec (48 + j / 10) 49); [reflexivity|].
    destruct (Z.eqb_spec (48 + j / 10) 50); [reflexivity|]. cbn [andb orb].
    destruct (Z.eqb_spec (48 + j / 10) 48); [|lia]. cbn [andb].
    apply andb_true_iff. split; [apply Z.leb_le | apply Z.leb_le]; lia.
Qed.

Lemma directive_mois (m : Z) :
  1 <= m <= 12 ->
  ((48 + (m / 10) mod 10 =? 49) && (48 <=? 48 + m mod 10)
   && (48 + m mod 10 <=? 50)
   || (48 + (m / 10) mod 10 =? 48) && (49 <=? 48 + m mod 10)
      && (48 + m mod 10 <=? 57)) = true.
Proof.
  intros Hm.
  assert (Hq : 0 <= m / 10 <= 1).
  { split; [apply Z.div_pos; lia|].
    apply Z.lt_succ_r, Z.div_lt_upper_bound; lia. }
  rewrite (Z.mod_small (m / 10) 10) by lia.
  pose proof (Z.div_mod m 10 ltac:(lia)) as Hdm.
  pose proof (Z.mod_pos_bound m 10 ltac:(lia)) as Hr.
  destruct (Z.eqb_spec (48 + m / 10) 49); cbn [andb orb].
  - apply orb_true_iff. left. apply andb_true_iff.
    split; apply Z.leb_le; lia.
  - destruct (Z.eqb_spec (48 + m / 10) 48); [|lia]. cbn [andb].
    apply andb_true_iff. split; apply Z.leb_le; lia.
Qed.

Lemma marqueurs_r9 :
  lit "Non trouvé" = 78 :: lit "on trouvé"
  /\ lit "Non spécifié" = 78 :: lit "on spécifié".
Proof. split; vm_compute; reflexivity. Qed.

Lemma date_r9_acceptee (j m a : Z) :
  datetime_ok a m j = true ->
  R9.valider_format_date
    (chiffres 2 j ++ [45] ++ chiffres 2 m ++ [45] ++ chiffres 4 a) = true.
Proof.
  intros Hd. destruct (datetime_ok_bornes a m j Hd) as (Ba & Bm & Bj).
  assert (Pj : py_int (chiffres 2 j) = Some j).
  { rewrite py_int_chiffres, valeur_chiffres_2; try reflexivity; try lia;
      [discriminate | apply chiffres_ascii]. }
  assert (Pm : py_int (chiffres 2 m) = Some m).
  { rewrite py_int_chiffres, valeur_chiffres_2; try reflexivity; try lia;
      [discriminate | apply chiffres_ascii]. }
  assert (Pa : py_int (chiffres 4 a) = Some a).
  { rewrite py_int_chiffres, valeur_chiffres_4; try reflexivity; try lia;
      [discriminate | apply chiffres_ascii]. }
  pose proof (chiffres_ascii 2 j) as Aj.
  pose proof (chiffres_ascii 2 m) as Am.
  pose proof (chiffres_ascii 4 a) as Aa.
  pose proof (directive_jour j Bj) as Dj.
  pose proof (directive_mois m Bm) as Dm.
  rewrite chiffres_2_forme in Pj, Aj. rewrite chiffres_2_forme in Pm, Am.
  rewrite chiffres_4_forme in Pa, Aa.
  rewrite !chiffres_2_forme, chiffres_4_forme.
  set (d1 := 48 + (j / 10) mod 10) in *. set (d2 := 48 + j mod 10) in *.
  set (m1 := 48 + (m / 10) mod 10) in *. set (m2 := 48 + m mod 10) in *.
  set (y1 := 48 + (a / 1000) mod 10) in *.
  set (y2 := 48 + (a / 100) mod 10) in *.
  set (y3 := 48 + (a / 10) mod 10) in *. set (y4 := 48 + a mod 10) in *.
  cbn [forallb] in Aj, Am, Aa. rewrite andb_true_r in Aj, Am, Aa.
  apply andb_true_iff in Aj as [Ad1 Ad2].
  apply andb_true_iff in Am as [Am1 Am2].
  apply andb_true_iff in Aa as [Ay1 Aa]. apply andb_true_iff in Aa as [Ay2 Aa].
  apply andb_true_iff in Aa as [Ay3 Ay4].
  cbn [app]. unfold R9.valider_format_date.
  assert (Hmarq : str_eqb [d1; d2; 45; m1; m2; 45; y1; y2; y3; y4]
                          (lit "Non trouvé")
                  || str_eqb [d1; d2; 45; m1; m2; 45; y1; y2; y3; y4]
                             (lit "Non spécifié") = false).
  { destruct marqueurs_r9 as [-> ->]. cbn [str_eqb].
    apply ascii_digit_bornes in Ad1.
    rewrite (proj2 (Z.eqb_neq d1 78)) by lia. reflexivity. }
  rewrite Hmarq.
  assert (Hmotif : R9.motif_date [d1; d2; 45; m1; m2; 45; y1; y2; y3; y4]
                   = true).
  { unfold R9.motif_date.
    rewrite !isdecimal_ascii by assumption. reflexivity. }
  rewrite Hmotif. cbn [negb]. unfold R9.strptime_ok.
  rewrite Dj, Dm, Pj, Pm, Pa. exact Hd.
Qed.

Lemma date_r9_motif (s : str) :
  R9.valider_format_date s = true -> R9.motif_date s = true.
Proof.
  unfold R9.valider_format_date. destruct s as [|c0 r0]; [discriminate|].
  destruct (str_eqb (c0 :: r0) (lit "Non trouvé")
            || str_eqb (c0 :: r0) (lit "Non spécifié")); [discriminate|].
  destruct (R9.motif_date (c0 :: r0)); [reflexivity | discriminate].
Qed.

Lemma date_r9_forme (s : str) :
  R9.valider_format_date s = true ->
  exists d1 d2 m1 m2 y1 y2 y3 y4 j m a,
    s = [d1; d2; 45; m1; m2; 45; y1; y2; y3; y4]
    /\ py_int [d1; d2] = Some j /\ py_int [m1; m2] = Some m
    /\ py_int [y1; y2; y3; y4] = Some a
    /\ datetime_ok a m j = true.
Proof.
  unfold R9.valider_format_date. destruct s as [|c0 r0]; [discriminate|].
  destruct (str_eqb (c0 :: r0) (lit "Non trouvé")
            || str_eqb (c0 :: r0) (lit "Non spécifié")); [discriminate|].
  destruct (R9.motif_date (c0 :: r0)) eqn:Hm; [|discriminate].
  cbn [negb]. unfold R9.strptime_ok.
  destruct r0 as [|d2 [|t1 [|m1 [|m2 [|t2 [|y1 [|y2 [|y3 [|y4 fin]]]]]]]]];
    try discriminate.
  destruct fin; [|discriminate].
  intros H. apply andb_true_iff in H as [_ H].
  destruct (py_int [y1; y2; y3; y4]) as [a|] eqn:Pa; [|discriminate].
  destruct (py_int [m1; m2]) as [m|] eqn:Pm; [|discriminate].
  destruct (py_int [c0; d2]) as [j|] eqn:Pj; [|discriminate].
  unfold R9.motif_date in Hm.
  apply andb_true_iff in Hm as [Hm _].
  apply andb_true_iff in Hm as [Hm _]. apply andb_true_iff in Hm as [Hm _].
  apply andb_true_iff in Hm as [Hm _]. apply andb_true_iff in Hm as [Hm _].
  apply andb_true_iff in Hm as [Hm Ht2]. apply andb_true_iff in Hm as [Hm _].
  apply andb_true_iff in Hm as [Hm _]. apply andb_true_iff in Hm as [_ Ht1].
  apply Z.eqb_eq in Ht1, Ht2. subst t1 t2.
  exists c0, d2, m1, m2, y1, y2, y3, y4, j, m, a.
  repeat split; try reflexivity; assumption.
Qed.

(** X17: the date validator of [ifc_r9_extractor.py] takes hyphens only.
    Every date of the calendar written [DD-MM-YYYY] is accepted; a string
    it accepts has exactly ten characters, hyphens in third and sixth
    position, and its three groups read as a date of the calendar (a
    final newline, which the pattern tolerates, is refused by strptime).
    A date in the canonical form [DD MM YYYY] that the later extractor
    stores is never accepted by it. *)
Theorem date_r9_tirets_seulement :
  (forall j m a,
      datetime_ok a m j = true ->
      R9.valider_format_date
        (chiffres 2 j ++ [45] ++ chiffres 2 m ++ [45] ++ chiffres 4 a)
      = true)
  /\ (forall s,
         R9.valider_format_date s = true ->
         len s = 10
         /\ exists d1 d2 m1 m2 y1 y2 y3 y4 j m a,
             s = [d1; d2; 45; m1; m2; 45; y1; y2; y3; y4]
             /\ py_int [d1; d2] = Some j /\ py_int [m1; m2] = Some m
             /\ py_int [y1; y2; y3; y4] = Some a
             /\ datetime_ok a m j = true)
  /\ (forall v nom c,
         valider_format (Some v) (lit "date") nom = (true, JStr c) ->
         R9.valider_format_date c = false).
Proof.
  split; [exact date_r9_acceptee|]. split.
  - intros s H. destruct (date_r9_forme s H)
      as (d1 & d2 & m1 & m2 & y1 & y2 & y3 & y4 & j & m & a & -> & R).
    split; [reflexivity|]. exists d1, d2, m1, m2, y1, y2, y3, y4, j, m, a.
    split; [reflexivity | exact R].
  - intros v nom c H. rewrite (valider_format_date v nom) in H.
    destruct (valider_date_inversion _ nom _ H)
      as (jour & mois & annee & j & m & a & _ & _ & _ & _ & _ & E).
    injection E as ->.
    destruct (R9.valider_format_date _) eqn:V; [|reflexivity].
    exfalso. apply date_r9_motif in V.
    apply (motif_date_sans_espace _ V).
    apply in_or_app. right. now left.
Qed.

(** ** No object is ever accepted *)

Lemma etape_objet_cas (id_maquette : str) (st : R9.etat_r9)
  (e : R9.element_r9) :
  R9.objets_valides (R9.etape_objet id_maquette st e) = R9.objets_valides st
  /\ R9.ids_extraits (R9.etape_objet id_maquette st e)
     = R9.ids_extraits st ++ [R9.lu_ID e]
  /\ exists erreurs_objet,
      erreurs_objet <> []
      /\ R9.erreurs_validation (R9.etape_objet id_maquette st e)
         = R9.erreurs_validation st ++ erreurs_objet
      /\ (existsb (str_eqb (R9.lu_ID e)) (R9.ids_extraits st) = true ->
          In (lit "ID dupliqué détecté: " ++ R9.lu_ID e) erreurs_objet).
Proof.
  unfold R9.etape_objet.
  pose proof (date_reemploi_invalide e id_maquette) as H.
  set (p := R9.set_r9 (lit "ID_maquette") (PStr id_maquette)
                      (R9.extraire_proprietes_objet e)) in *.
  destruct (R9.erreurs_objet_de e p) as [|x l]; [destruct H|].
  cbn [app R9.objets_valides R9.ids_extraits R9.erreurs_validation].
  split; [reflexivity|]. split; [reflexivity|].
  eexists. split; [|split; [reflexivity|]]; [discriminate|].
  intros ->. right. apply in_or_app. right. now left.
Qed.

Lemma fold_left_r9 (id_maquette : str) (l : list R9.element_r9)
  (st : R9.etat_r9) :
  let fin := fold_left (R9.etape_objet id_maquette) l st in
  R9.objets_valides fin = R9.objets_valides st
  /\ R9.ids_extraits fin = R9.ids_extraits st ++ map R9.lu_ID l
  /\ (List.length (R9.erreurs_validation st) + List.length l
      <= List.length (R9.erreurs_validation fin))%nat
  /\ (forall x, In x (R9.erreurs_validation st) ->
                In x (R9.erreurs_validation fin)).
Proof.
  cbv zeta. revert st.
  generalize (etape_objet_cas id_maquette).
  generalize (R9.etape_objet id_maquette). intros f Hf.
  induction l as [|e l IH]; intros st; cbn [fold_left map List.length].
  - rewrite app_nil_r. repeat split; auto. lia.
  - destruct (IH (f st e)) as (H1 & H2 & H3 & H4).
    destruct (Hf st e) as (G1 & G2 & errs & G3 & G4 & _).
    rewrite H1, H2, G1, G2, <- app_assoc. repeat split; auto.
    + rewrite G4, length_app in H3. destruct errs; [congruence|].
      cbn [List.length] in H3. lia.
    + intros x Hx. apply H4. rewrite G4. apply in_or_app. now left.
Qed.

(** X18: [extraire_objets_avec_validation] of [ifc_r9_extractor.py] never
    returns an object.  On a model without elements it returns the empty
    list; on any other model it raises [ValidationError], with a count of
    errors that is at least the number of elements: the value stored for
    [Date_reemploi] by [extraire_proprietes_objet] is a placeholder that
    the date validator refuses, for every element. *)
Theorem extracteur_r9_sans_objet_accepte (id_maquette : str)
  (elements : list R9.element_r9) :
  (elements = [] ->
   R9.extraire_objets_avec_validation id_maquette elements = inl [])
  /\ (elements <> [] ->
      exists n,
        Z.of_nat (List.length elements) <= n
        /\ R9.extraire_objets_avec_validation id_maquette elements
           = inr (R9.ValidationError
                    (lit "Validation échouée: " ++ str_of_int n
                     ++ lit " erreurs détectées")))
  /\ (forall objets,
         R9.extraire_objets_avec_validation id_maquette elements
         = inl objets ->
         elements = [] /\ objets = [])
  /\ (forall e,
         In e elements ->
         In (lit "Objet " ++ str_of_int (R9.step_id e) ++ lit ": "
             ++ lit "Date_reemploi doit être au format DD-MM-YYYY (ex: 13-01-2001)")
            (R9.erreurs_objet_de e
               (R9.set_r9 (lit "ID_maquette") (PStr id_maquette)
                          (R9.extraire_proprietes_objet e)))).
Proof.
  assert (Hne : elements <> [] ->
                exists n,
                  Z.of_nat (List.length elements) <= n
                  /\ R9.extraire_objets_avec_validation id_maquette elements
                     = inr (R9.ValidationError
                              (lit "Validation échouée: " ++ str_of_int n
                               ++ lit " erreurs détectées"))).
  { intros Hn. unfold R9.extraire_objets_avec_validation.
    destruct (fold_left_r9 id_maquette elements (R9.mkEtatR9 [] [] []))
      as (_ & _ & H3 & _).
    cbn [R9.erreurs_validation List.length] in H3.
    set (fin := fold_left (R9.etape_objet id_maquette) elements
                          (R9.mkEtatR9 [] [] [])) in *.
    set (reseau := map (fun id_doublon =>
                          lit "ID déjà présent sur le réseau: " ++ id_doublon)
                       (R9.simuler_verification_ids_reseau
                          (R9.ids_extraits fin))).
    assert (Hl : (List.length elements
                  <= List.length (R9.erreurs_validation fin ++ reseau))%nat).
    { rewrite length_app. lia. }
    destruct (R9.erreurs_validation fin ++ reseau) as [|x r] eqn:E.
    - destruct elements; [congruence|]. cbn [List.length] in Hl. lia.
    - eexists. split; [|reflexivity]. lia. }
  split; [intros ->; reflexivity|]. split; [exact Hne|]. split.
  - intros objets H. destruct elements as [|e l].
    + split; [reflexivity|]. now injection H as <-.
    + destruct (Hne ltac:(discriminate)) as (n & _ & E). congruence.
  - intros e _. apply date_reemploi_invalide.
Qed.

(** ** Duplicate identifiers *)



End ProprietesAncienExtracteur.

(* ================================================================== *)
(** * Further properties: from an accepted element to its files *)
(* ================================================================== *)

Section ProprietesObjetEcrit.
Context {B : Builtins}.






End ProprietesObjetEcrit.

(* ================================================================== *)
(** * Further properties: the metadata typed for the earlier extractor *)
(* ================================================================== *)

Section ProprietesSaisies.
Context {B : Builtins}.

Lemma contains_app_droite (needle a b : str) :
  contains needle b = true -> contains needle (a ++ b) = true.
Proof.
  intros H. induction a as [|c a IH]; [exact H|].
  cbn [app contains]. rewrite IH. apply orb_true_r.
Qed.

Lemma virgule_espace : lit ", " = [44; 32].
Proof. vm_compute. reflexivity. Qed.

Lemma non_blanc_app (a b : str) :
  a_un_non_blanc (a ++ b) = a_un_non_blanc a || a_un_non_blanc b.
Proof. unfold a_un_non_blanc. apply existsb_app. Qed.

Lemma get_meta_saisies (id_maquette : str) (s : saisie_r9) (date_depot : str) :
  let md := demander_metadonnees_maquette id_maquette s date_depot in
  get_meta (lit "nom_maquette") md = Some (strip (r9_nom_maquette s))
  /\ get_meta (lit "ID_maquette") md = Some id_maquette
  /\ get_meta (lit "nom_architecte") md = Some (strip (r9_nom_architecte s))
  /\ get_meta (lit "coordonnees_geographiques") md
     = Some (strip (r9_latitude s) ++ lit ", " ++ strip (r9_longitude s))
  /\ get_meta (lit "programme") md = Some (strip (r9_programme s))
  /\ get_meta (lit "date_livraison") md = Some (strip (r9_date_livraison s))
  /\ get_meta (lit "date_depot") md = Some date_depot.
Proof. repeat split; vm_compute; reflexivity. Qed.

Lemma erreur_parametre_cas (md : metadonnees_r9) (param valeur : str) :
  get_meta param md = Some valeur ->
  erreur_parametre_maquette md param
  = if a_un_non_blanc valeur then []
    else [lit "Paramètre maquette vide: " ++ param].
Proof.
  intros H. unfold erreur_parametre_maquette. rewrite H, texte_test.
  now destruct (a_un_non_blanc valeur).
Qed.

Lemma non_blanc_strip (s : str) :
  a_un_non_blanc (strip s) = a_un_non_blanc s.
Proof.
  rewrite !a_un_non_blanc_spec. f_equal.
  destruct (forallb isspace s) eqn:E.
  - apply strip_vide in E. now rewrite E.
  - destruct (forallb isspace (strip s)) eqn:E'; [|reflexivity].
    apply strip_vide in E'. rewrite strip_idempotent in E'.
    apply strip_vide in E'. congruence.
Qed.

Lemma date_r9_non_blanche (s : str) :
  R9.valider_format_date s = true -> a_un_non_blanc s = true.
Proof.
  intros H. destruct (date_r9_forme s H)
    as (d1 & d2 & m1 & m2 & y1 & y2 & y3 & y4 & j & m & a & -> & _).
  unfold a_un_non_blanc. cbn [existsb].
  change (negb (isspace 45)) with true.
  now rewrite !orb_true_r.
Qed.

(** X21: the metadata typed at the prompts of [ifc_r9_extractor.py] and
    their validation.  The dictionary built by
    [demander_metadonnees_maquette] always holds the seven parameters,
    and its coordinates always hold a comma and are never blank, so
    [valider_metadonnees_maquette] never reports the coordinates,
    whatever is typed for the latitude and the longitude, even nothing.
    The metadata are accepted without error exactly when the name, the
    architect and the programme typed are not blank, the identifier and
    the deposit date are not blank, and the delivery date, once trimmed,
    is a date written [DD-MM-YYYY]. *)
Theorem metadonnees_saisies_validees (id_maquette : str) (s : saisie_r9)
  (date_depot : str) :
  let md := demander_metadonnees_maquette id_maquette s date_depot in
  (forall param,
      In param parametres_maquette_obligatoires ->
      get_meta param md <> None
      /\ ~ In (lit "Paramètre maquette manquant: " ++ param)
              (valider_metadonnees_maquette md))
  /\ ~ In (lit "Paramètre maquette vide: coordonnees_geographiques")
          (valider_metadonnees_maquette md)
  /\ ~ In (lit "coordonnees_geographiques doivent être au format 'latitude, longitude'")
          (valider_metadonnees_maquette md)
  /\ (valider_metadonnees_maquette md = []
      <-> a_un_non_blanc (r9_nom_maquette s) = true
          /\ a_un_non_blanc id_maquette = true
          /\ a_un_non_blanc (r9_nom_architecte s) = true
          /\ a_un_non_blanc (r9_programme s) = true
          /\ a_un_non_blanc date_depot = true
          /\ R9.valider_format_date (strip (r9_date_livraison s)) = true).
Proof.
  intros md.
  destruct (get_meta_saisies id_maquette s date_depot)
    as (G1 & G2 & G3 & G4 & G5 & G6 & G7).
  fold md in G1, G2, G3, G4, G5, G6, G7.
  assert (Hcoord : contains [44] (strip (r9_latitude s) ++ lit ", "
                                  ++ strip (r9_longitude s)) = true).
  { apply contains_app_droite. rewrite virgule_espace. reflexivity. }
  assert (Hnb : a_un_non_blanc (strip (r9_latitude s) ++ lit ", "
                                ++ strip (r9_longitude s)) = true).
  { rewrite !non_blanc_app, virgule_espace.
    change (a_un_non_blanc [44; 32]) with true.
    now rewrite orb_true_r. }
  assert (Hval : valider_metadonnees_maquette md
                 = (if a_un_non_blanc (r9_nom_maquette s) then []
                    else [lit "Paramètre maquette vide: "
                          ++ lit "nom_maquette"])
                   ++ (if a_un_non_blanc id_maquette then []
                       else [lit "Paramètre maquette vide: "
                             ++ lit "ID_maquette"])
                   ++ (if a_un_non_blanc (r9_nom_architecte s) then []
                       else [lit "Paramètre maquette vide: "
                             ++ lit "nom_architecte"])
                   ++ (if a_un_non_blanc (r9_programme s) then []
                       else [lit "Paramètre maquette vide: "
                             ++ lit "programme"])
                   ++ (if a_un_non_blanc (r9_date_livraison s) then []
                       else [lit "Paramètre maquette vide: "
                             ++ lit "date_livraison"])
                   ++ (if a_un_non_blanc date_depot then []
                       else [lit "Paramètre maquette vide: "
                             ++ lit "date_depot"])
                   ++ (if R9.valider_format_date (strip (r9_date_livraison s))
                       then []
                       else [lit "date_livraison doit être au format DD-MM-YYYY"])).
  { unfold valider_metadonnees_maquette. rewrite G6, G4, Hcoord.
    unfold parametres_maquette_obligatoires. cbn [flat_map].
    rewrite (erreur_parametre_cas md _ _ G1), (erreur_parametre_cas md _ _ G2),
      (erreur_parametre_cas md _ _ G3), (erreur_parametre_cas md _ _ G4),
      (erreur_parametre_cas md _ _ G5), (erreur_parametre_cas md _ _ G6),
      (erreur_parametre_cas md _ _ G7).
    rewrite Hnb, !non_blanc_strip. cbn [negb app].
    rewrite app_nil_r, <- !app_assoc.
    destruct (R9.valider_format_date (strip (r9_date_livraison s)));
      reflexivity. }
  split; [|split; [|split]].
  - intros param Hin. split.
    + unfold parametres_maquette_obligatoires in Hin. cbn [In] in Hin.
      destruct Hin as [<-|[<-|[<-|[<-|[<-|[<-|[<-|[]]]]]]]]; congruence.
    + rewrite Hval. intros Hx.
      assert (Hdeb : forall x, In x (valider_metadonnees_maquette md) ->
                               startswith (lit "Paramètre maquette manquant")
                                          x = false).
      { rewrite Hval. intros x Hx'.
        repeat (apply in_app_or in Hx' as [Hx'|Hx']);
          match type of Hx' with
          | In _ (if ?b then _ else _) =>
            destruct b; [destruct Hx' | destruct Hx' as [<-|[]]]
          end; vm_compute; reflexivity. }
      rewrite <- Hval in Hx. specialize (Hdeb _ Hx).
      change (lit "Paramètre maquette manquant: " ++ param)
        with (lit "Paramètre maquette manquant" ++ ([58; 32] ++ param))
        in Hdeb.
      clear - Hdeb.
      assert (Hst : forall a b : str, startswith a (a ++ b) = true).
      { intros a b. induction a as [|c a IH]; [reflexivity|].
        cbn [app startswith]. now rewrite Z.eqb_refl, IH. }
      rewrite Hst in Hdeb. discriminate.
  - rewrite Hval. intros Hx.
    repeat (apply in_app_or in Hx as [Hx|Hx]);
      match type of Hx with
      | In _ (if ?b then _ else _) =>
        destruct b; [destruct Hx | destruct Hx as [Hx|[]]]
      end; apply (f_equal (@List.length Z)) in Hx; vm_compute in Hx;
      discriminate.
  - rewrite Hval. intros Hx.
    repeat (apply in_app_or in Hx as [Hx|Hx]);
      match type of Hx with
      | In _ (if ?b then _ else _) =>
        destruct b; [destruct Hx | destruct Hx as [Hx|[]]]
      end; apply (f_equal (@List.length Z)) in Hx; vm_compute in Hx;
      discriminate.
  - rewrite Hval. split.
    + intros Hx.
      destruct (a_un_non_blanc (r9_nom_maquette s)); [|discriminate].
      destruct (a_un_non_blanc id_maquette); [|discriminate].
      destruct (a_un_non_blanc (r9_nom_architecte s)); [|discriminate].
      destruct (a_un_non_blanc (r9_programme s)); [|discriminate].
      destruct (a_un_non_blanc (r9_date_livraison s)); [|discriminate].
      destruct (a_un_non_blanc date_depot); [|discriminate].
      destruct (R9.valider_format_date (strip (r9_date_livraison s)));
        [|discriminate].
      auto 10.
    + intros (H1 & H2 & H3 & H4 & H5 & H6).
      rewrite H1, H2, H3, H4, H5, H6.
      apply date_r9_non_blanche in H6. rewrite non_blanc_strip in H6.
      now rewrite H6.
Qed.

End ProprietesSaisies.

(* ================================================================== *)
(** * Further worked examples *)
(* ================================================================== *)

Section ExemplesComplementaires.
Local Existing Instance Exemple.runtime.

Lemma texte_accepte_si_non_blanc_temoin :
  a_un_non_blanc (str_of (PStr (lit " acier "))) = true
  /\ valider_format (Some (PStr (lit " acier "))) (lit "texte")
                    (lit "Materiau")
     = (true, JStr (lit " acier ")).
Proof.
  split; [reflexivity|].
  apply (proj1 (proj2 (texte_accepte_si_non_blanc (PStr (lit " acier "))
                         (lit "Materiau")))).
  reflexivity.
Defined.

Lemma lettres_forme_canonique_temoin :
  valider_format (Some (PStr (lit "poutre IPE 200"))) (lit "lettres")
                 (lit "NOM")
  = (true, JStr (lit "poutre IPE"))
  /\ strip (lit "poutre IPE") = lit "poutre IPE".
Proof.
  assert (H : valider_format (Some (PStr (lit "poutre IPE 200")))
                             (lit "lettres") (lit "NOM")
              = (true, JStr (lit "poutre IPE"))) by reflexivity.
  split; [exact H|].
  destruct (proj2 (lettres_forme_canonique (PStr (lit "poutre IPE 200"))
                     (lit "NOM")) (lit "poutre IPE") H) as (_ & S & _).
  exact S.
Defined.


Lemma chaque_element_compte_temoin :
  objets_crees
    (boucle_elements (Exemple.fichier_de "bon.ifc" [Exemple.poutre_scenario])
                     (Exemple.modele_de [Exemple.poutre_scenario]) [])
  + erreurs_totales
      (boucle_elements (Exemple.fichier_de "bon.ifc" [Exemple.poutre_scenario])
                       (Exemple.modele_de [Exemple.poutre_scenario]) [])
  = Z.of_nat (List.length
                (elements_du_modele
                   (Exemple.modele_de [Exemple.poutre_scenario]))).
Proof.
  apply (chaque_element_compte
           (Exemple.fichier_de "bon.ifc" [Exemple.poutre_scenario])
           Exemple.sans_reponse []
           (Exemple.modele_de [Exemple.poutre_scenario])).
  reflexivity.
Defined.





Lemma metadonnees_exemple_collectees :
  collecter_metadonnees_maquette (Exemple.modele_de []) Exemple.sans_reponse
  = Return Exemple.metadonnees_exemple.
Proof. vm_compute. reflexivity. Qed.

Lemma identifiant_maquette_lu_dans_le_fichier_temoin :
  keys Exemple.metadonnees_exemple
  = [ lit "ID_maquette"; lit "nom_maquette"; lit "nom_architecte";
      lit "coordonnees_geographiques"; lit "programme"; lit "date livraison";
      lit "date depot" ].
Proof.
  destruct (proj2 (proj2 (identifiant_maquette_lu_dans_le_fichier
                            (Exemple.modele_de []) Exemple.sans_reponse))
                  Exemple.metadonnees_exemple metadonnees_exemple_collectees)
    as [H _].
  exact H.
Defined.

Lemma type_traitement_premiere_reponse_valide_temoin :
  forallb choix_invalide [lit "3"; lit ""; lit "maquette"] = true
  /\ strip (lit " 2 ") = lit "2"
  /\ demander_type_traitement
       ([lit "3"; lit ""; lit "maquette"] ++ lit " 2 " :: [lit "1"])
     = Some objets.
Proof.
  split; [reflexivity|]. split; [reflexivity|].
  apply (proj1 (proj2 (type_traitement_premiere_reponse_valide
                         [lit "3"; lit ""; lit "maquette"] [lit "1"]
                         (lit " 2 ") eq_refl))).
  reflexivity.
Defined.

Lemma bilan_du_lot_temoin :
  exists s,
    fst (traiter_tous_fichiers Exemple.lot maquette []) = Some s
    /\ success s <= stat_objets_crees s
    /\ (0 < stat_objets_crees s <-> 0 < success s).
Proof.
  eexists. split; [vm_compute; reflexivity|].
  destruct (proj2 (bilan_du_lot Exemple.lot maquette []) _
                  ltac:(vm_compute; reflexivity))
    as (_ & _ & _ & H4 & H5 & _).
  split; [exact H4 | exact H5].
Defined.

Lemma date_r9_tirets_seulement_temoin :
  datetime_ok 2024 2 29 = true
  /\ R9.valider_format_date
       (chiffres 2 29 ++ [45] ++ chiffres 2 2 ++ [45] ++ chiffres 4 2024)
     = true
  /\ R9.valider_format_date (lit "29 02 2024") = false.
Proof.
  split; [reflexivity|]. split.
  - apply (proj1 date_r9_tirets_seulement 29 2 2024). reflexivity.
  - apply (proj2 (proj2 date_r9_tirets_seulement)
                 (PStr (lit "29/02/2024")) (lit "Date de fabrication")
                 (lit "29 02 2024")).
    reflexivity.
Defined.

Lemma extracteur_r9_sans_objet_accepte_temoin :
  exists n,
    Z.of_nat (List.length Exemple.jumeaux_r9) <= n
    /\ R9.extraire_objets_avec_validation (lit "123456789123")
                                          Exemple.jumeaux_r9
       = inr (R9.ValidationError
                (lit "Validation échouée: " ++ str_of_int n
                 ++ lit " erreurs détectées")).
Proof.
  apply (proj1 (proj2 (extracteur_r9_sans_objet_accepte
                         (lit "123456789123") Exemple.jumeaux_r9))).
  discriminate.
Defined.



Lemma metadonnees_saisies_validees_temoin :
  valider_metadonnees_maquette
    (demander_metadonnees_maquette
       (lit "123456789123")
       (mkSaisieR9 (lit "Diogène") (lit "Renzo Piano") [] []
                   (lit "logement") (lit " 13-01-2024 "))
       (lit "04-11-2026"))
  = [].
Proof.
  destruct (metadonnees_saisies_validees
              (lit "123456789123")
              (mkSaisieR9 (lit "Diogène") (lit "Renzo Piano") [] []
                          (lit "logement") (lit " 13-01-2024 "))
              (lit "04-11-2026"))
    as (_ & _ & _ & [_ H]).
  apply H. repeat split; vm_compute; reflexivity.
Defined.

End ExemplesComplementaires.
